(** * kite scene readers: a shallow embedding of [src/scene_io.py], with
    [trimMatrix] and [Subject] of [src/meta.py]

    The four importers ([Matlab], [Gamma], [ISCE], [GMTSAR]) are classes with
    a [validate] probe and a [read] decoder that fills [self.container].
    The embedding keeps the Python control flow: a reader method is a
    computation in a state-and-exception monad over the reader object
    (container and log) and the file system it looks at.

    Conventions.
    - Numbers are IEEE 754 values ([spec_float] of the standard library):
      binary32 for the ['>f4'] and ['<f4'] grids, binary64 for Python
      floats and numpy's default dtype. Arrays carry their dtype, so that
      [float32 * 1e-2] rounds in binary32 and a padded array in binary64.
    - The module is Python 2 ([iteritems], [iterkeys]): a failed [open] is
      an [IOError], and XML text with a character outside ASCII is a
      [unicode] object that [str] refuses.
    - A file carries its bytes, read by numpy, and the outcome of the
      library parsers on it (regular-expression groups and [float()] for a
      parameter file, the element tree for XML, the variables for a
      [.mat] container). What the readers do with these outcomes is
      modelled; how the libraries obtain them is not.
    - Library functions with no file to stand on ([numpy.cos],
      [numpy.arctan], [numpy.arccos], [numpy.rad2deg], [utm.to_latlon])
      are parameters of the readers that call them, and so is the netCDF
      parser, a function of the bytes of the grid.
    - The listeners of a [Subject] are parameters as well: a call acts on
      a world that does not hold the subject, and returns or raises.
    - A dict is a [gmap]; the file system and the variables of a [.mat]
      file are association lists, whose order is the order of iteration. *)

From Stdlib Require Import ZArith List String Ascii Bool Lia.
From Stdlib Require Import Floats.SpecFloat.
From stdpp Require Import base gmap strings list.

Local Open Scope string_scope.
Local Open Scope list_scope.
Local Open Scope Z_scope.

(** ** IEEE 754 numbers *)

Module IEEE.

(** numpy dtypes met in the readers: ['f4'] (binary32) and ['f8']
    (binary64, also the Python [float]). *)
Inductive dtype := f4 | f8.

Definition prec (d : dtype) : Z := match d with f4 => 24 | f8 => 53 end.
Definition emax (d : dtype) : Z := match d with f4 => 128 | f8 => 1024 end.

(** Type promotion of [numpy.concatenate]. *)
Definition promote (a b : dtype) : dtype :=
  match a, b with f4, f4 => f4 | _, _ => f8 end.

Definition nan : spec_float := S754_nan.
Definition pzero : spec_float := S754_zero false.
Definition nzero : spec_float := S754_zero true.

Definition is_nan (x : spec_float) : bool :=
  match x with S754_nan => true | _ => false end.

Definition is_zero (x : spec_float) : bool :=
  match x with S754_zero _ => true | _ => false end.

Definition mul (d : dtype) := SFmul (prec d) (emax d).
Definition add (d : dtype) := SFadd (prec d) (emax d).
Definition sub (d : dtype) := SFsub (prec d) (emax d).
Definition div (d : dtype) := SFdiv (prec d) (emax d).

(** [x == y], [x < y]: IEEE comparisons, false on NaN, signed zeros equal. *)
Definition eqb (x y : spec_float) : bool := SFeqb x y.
Definition ltb (x y : spec_float) : bool := SFltb x y.

(** Conversion to a dtype ([astype]): exact when widening, round to
    nearest even when narrowing. *)
Definition cast (d : dtype) (x : spec_float) : spec_float :=
  match x with
  | S754_finite s m e => binary_round (prec d) (emax d) s m e
  | _ => x
  end.

(** [float(n)] for a Python int. *)
Definition of_Z (n : Z) : spec_float := binary_normalize 53 1024 n 0 false.

(** [int(x)] for a float: truncation toward zero; [None] stands for the
    [ValueError] (NaN) or [OverflowError] (infinity) Python raises. *)
Definition to_Z (x : spec_float) : option Z :=
  match x with
  | S754_zero _ => Some 0
  | S754_finite s m e =>
      let a := match e with
               | Zneg p => Z.shiftr (Zpos m) (Zpos p)
               | _ => Z.shiftl (Zpos m) e
               end in
      Some (if s then - a else a)
  | _ => None
  end.

(** The binary64 literals of the source. *)
Definition c_1em2 : spec_float := S754_finite false 5764607523034235 (-59).
Definition c_1e3 : spec_float := of_Z 1000.
Definition c_1e4 : spec_float := of_Z 10000.
Definition c_110e3 : spec_float := of_Z 110000.
Definition c_90 : spec_float := of_Z 90.

(** [numpy.minimum] / [numpy.maximum]: a NaN operand wins. *)
Definition fmin (x y : spec_float) : spec_float :=
  if is_nan x then x else if is_nan y then y else if ltb y x then y else x.
Definition fmax (x y : spec_float) : spec_float :=
  if is_nan x then x else if is_nan y then y else if ltb x y then y else x.

(** Bit pattern of a binary32 value. *)
Definition f4_of_bits (w : Z) : spec_float :=
  let s := Z.testbit w 31 in
  let e := Z.land (Z.shiftr w 23) 255 in
  let m := Z.land w 8388607 in
  if e =? 0 then
    match m with Zpos p => S754_finite s p (-149) | _ => S754_zero s end
  else if e =? 255 then
    (if m =? 0 then S754_infinity s else S754_nan)
  else
    match m + 8388608 with Zpos p => S754_finite s p (e - 150) | _ => S754_nan end.

End IEEE.

(** ** Byte buffers *)

Inductive byteorder := BigEndian | LittleEndian.

Definition byteZ (b : Byte.byte) : Z := Z.of_N (Byte.to_N b).

Definition word32 (bo : byteorder) (b0 b1 b2 b3 : Byte.byte) : Z :=
  match bo with
  | BigEndian => ((byteZ b0 * 256 + byteZ b1) * 256 + byteZ b2) * 256 + byteZ b3
  | LittleEndian => ((byteZ b3 * 256 + byteZ b2) * 256 + byteZ b1) * 256 + byteZ b0
  end.

(** The complete 4-byte items of a buffer, decoded; a trailing partial item
    is dropped, which is what [numpy.fromfile] does. *)
Fixpoint frombuffer (bo : byteorder) (bs : list Byte.byte) : list spec_float :=
  match bs with
  | b0 :: b1 :: b2 :: b3 :: rest =>
      IEEE.f4_of_bits (word32 bo b0 b1 b2 b3) :: frombuffer bo rest
  | _ => []
  end.

(** The bytes numpy stores for a binary32 NaN ([0x7FC00000]). *)
Definition nan_bytes (bo : byteorder) : list Byte.byte :=
  match bo with
  | BigEndian => [Byte.x7f; Byte.xc0; Byte.x00; Byte.x00]
  | LittleEndian => [Byte.x00; Byte.x00; Byte.xc0; Byte.x7f]
  end.

(** Write-through of a masked NaN assignment on a memory map: the items
    selected by [mask] get the NaN bytes, the others keep theirs. *)
Fixpoint store_nan (bo : byteorder) (mask : list bool) (bs : list Byte.byte)
  : list Byte.byte :=
  match mask, bs with
  | m :: mask', b0 :: b1 :: b2 :: b3 :: rest =>
      (if m then nan_bytes bo else [b0; b1; b2; b3]) ++ store_nan bo mask' rest
  | _, _ => bs
  end.

(** ** Python and numpy values *)

(** A numpy array: element type, shape and the elements in row-major order. *)
Record ndarray := NdArray {
  dt : IEEE.dtype;
  shape : list nat;
  data : list spec_float
}.

Inductive pyval :=
  | PyNone
  | PyFloat (x : spec_float)    (* a Python float *)
  | PyStr (s : string)
  | NpFloat (x : spec_float)    (* a numpy.float64 scalar *)
  | NpArray (a : ndarray).

(** Text handed to [float()]: the characters, and what [float] makes of
    them ([None] when it raises [ValueError]). Decimal parsing is Python's,
    so its outcome travels with the text. *)
Record pytext := PyText { raw : string; as_float : option spec_float }.

Inductive exn :=
  | ImportError (args : list string)
  | IOError
  | ValueError
  | TypeError
  | AttributeError
  | KeyError
  | IndexError
  | NameError
  | ZeroDivisionError
  | ParseError
  | OutOfRangeError.   (* utm.error.OutOfRangeError *)

Inductive result (A : Type) :=
  | Ok (a : A)
  | Raise (e : exn).
Arguments Ok {A} a.
Arguments Raise {A} e.

Definition is_ok {A} (r : result A) : bool :=
  match r with Ok _ => true | Raise _ => false end.

Module Np.
Import IEEE.

Definition size (a : ndarray) : Z := Z.of_nat (length (data a)).

(** A flat array as [numpy.fromfile] and [numpy.memmap] return it. *)
Definition flat (d : dtype) (xs : list spec_float) : ndarray :=
  NdArray d [length xs] xs.

(** [numpy.empty(n)] then [.fill(numpy.nan)]; a negative [n] is a
    [ValueError]. *)
Definition nan_fill (n : Z) : result ndarray :=
  if n <? 0 then Raise ValueError
  else Ok (flat f8 (replicate (Z.to_nat n) nan)).

(** [asarray(v).ravel()] for the operands [numpy.append] gets here. *)
Definition ravel (v : pyval) : result ndarray :=
  match v with
  | PyFloat x | NpFloat x => Ok (flat f8 [x])
  | NpArray a => Ok (flat (dt a) (data a))
  | _ => Raise TypeError
  end.

(** [numpy.append(v, fill)] without axis: both flattened, concatenated,
    with the promoted element type. *)
Definition append (v : pyval) (fill : ndarray) : result ndarray :=
  match ravel v with
  | Ok a =>
      let d := promote (dt a) (dt fill) in
      Ok (flat d (map (cast d) (data a) ++ map (cast d) (data fill)))
  | Raise e => Raise e
  end.

(** [a.reshape(d1, d2)]: one dimension may be [-1] and is then inferred. *)
Definition reshape (a : ndarray) (d1 d2 : Z) : result ndarray :=
  let n := size a in
  let mk (r c : Z) := Ok (NdArray (dt a) [Z.to_nat r; Z.to_nat c] (data a)) in
  if (d1 <? -1) || (d2 <? -1) then Raise ValueError
  else if (d1 =? -1) && (d2 =? -1) then Raise ValueError
  else if d1 =? -1 then
    (if (0 <? d2) && (n mod d2 =? 0) then mk (n / d2) d2 else Raise ValueError)
  else if d2 =? -1 then
    (if (0 <? d1) && (n mod d1 =? 0) then mk d1 (n / d1) else Raise ValueError)
  else if d1 * d2 =? n then mk d1 d2
  else Raise ValueError.

(** [v.reshape(d1, d2)] as a method call: a Python float has no such
    attribute, a numpy scalar reshapes like an array of one element. *)
Definition reshape_method (v : pyval) (d1 d2 : Z) : result ndarray :=
  match v with
  | NpArray a => reshape a d1 d2
  | NpFloat x => reshape (NdArray f8 [] [x]) d1 d2
  | _ => Raise AttributeError
  end.

(** [a[a == c] = numpy.nan], in place. *)
Definition set_nan_where_eq (c : spec_float) (a : ndarray) : ndarray :=
  NdArray (dt a) (shape a) (map (fun x => if eqb x c then nan else x) (data a)).

(** [a * c] and [a + c] for a Python float [c]: the array keeps its
    element type and the scalar is converted to it. *)
Definition mul_scalar (a : ndarray) (c : spec_float) : ndarray :=
  NdArray (dt a) (shape a) (map (fun x => mul (dt a) x (cast (dt a) c)) (data a)).
Definition add_scalar (a : ndarray) (c : spec_float) : ndarray :=
  NdArray (dt a) (shape a) (map (fun x => add (dt a) x (cast (dt a) c)) (data a)).

(** The rows of a two-dimensional array of [r] rows of width [w]. *)
Fixpoint rows (r w : nat) (xs : list spec_float) : list (list spec_float) :=
  match r with
  | O => []
  | S r' => take w xs :: rows r' w (drop w xs)
  end.

(** Python slice bound [k] against a length [n]. *)
Definition bound (k : Z) (n : nat) : nat :=
  Z.to_nat (if k <? 0 then Z.max (Z.of_nat n + k) 0 else Z.min k (Z.of_nat n)).

(** [a[:, k:]] and [a[:, :k]] on a two-dimensional array. *)
Definition cols_from (a : ndarray) (k : Z) : result ndarray :=
  match shape a with
  | [r; w] =>
      let b := bound k w in
      Ok (NdArray (dt a) [r; (w - b)%nat] (concat (map (drop b) (rows r w (data a)))))
  | _ => Raise IndexError
  end.
Definition cols_upto (a : ndarray) (k : Z) : result ndarray :=
  match shape a with
  | [r; w] =>
      let b := bound k w in
      Ok (NdArray (dt a) [r; b] (concat (map (take b) (rows r w (data a)))))
  | _ => Raise IndexError
  end.

(** [a.min()], [a.max()]: no value on an empty array. *)
Definition min (a : ndarray) : result spec_float :=
  match data a with
  | [] => Raise ValueError
  | x :: xs => Ok (fold_left fmin xs x)
  end.
Definition max (a : ndarray) : result spec_float :=
  match data a with
  | [] => Raise ValueError
  | x :: xs => Ok (fold_left fmax xs x)
  end.

(** [v.flatten()]. *)
Definition flatten (v : pyval) : result ndarray :=
  match v with
  | NpArray a => Ok (flat (dt a) (data a))
  | NpFloat x => Ok (flat f8 [x])
  | _ => Raise AttributeError
  end.

(** [a[i]] on a flat array, [i >= 0]. *)
Definition item (a : ndarray) (i : nat) : result spec_float :=
  match data a !! i with
  | Some x => Ok x
  | None => Raise IndexError
  end.


(** [a[start::step]] on a flat array, [step >= 1]: the items at [start],
    [start + step], ... ([skip] counts down to the next one taken). *)
Fixpoint strided (step : nat) (xs : list spec_float) (skip : nat) : list spec_float :=
  match xs with
  | [] => []
  | x :: xs' =>
      match skip with
      | O => x :: strided step xs' (step - 1)
      | S k => strided step xs' k
      end
  end.

(** [a.reshape(shape)] for the shape tuple of another array. *)
Definition reshape_to (a : ndarray) (sh : list nat) : result ndarray :=
  if (length (data a) =? fold_right Nat.mul 1%nat sh)%nat
  then Ok (NdArray (dt a) sh (data a))
  else Raise ValueError.

(** [a / b] on two arrays of one shape and dtype. *)
Definition divide (a b : ndarray) : ndarray :=
  NdArray (dt a) (shape a) (zip_with (div (dt a)) (data a) (data b)).

(** [a[n < 0] += c], in place, for a Python float [c]. *)
Definition add_where_negative (a n : ndarray) (c : spec_float) : ndarray :=
  NdArray (dt a) (shape a)
    (zip_with (fun x y => if ltb y pzero then add (dt a) x (cast (dt a) c) else x)
              (data a) (data n)).

(** A function of the library applied to every element, in the dtype of
    the array. *)
Definition elementwise (f : dtype -> spec_float -> spec_float) (a : ndarray) : ndarray :=
  NdArray (dt a) (shape a) (map (f (dt a)) (data a)).

(** [t[i]] on a shape tuple. *)
Definition dim (sh : list nat) (i : nat) : result Z :=
  match sh !! i with
  | Some n => Ok (Z.of_nat n)
  | None => Raise IndexError
  end.

End Np.

(** ** Strings and paths *)

Module Str.

(** [sub in s]. *)
Fixpoint contains (sub s : string) : bool :=
  String.prefix sub s ||
  match s with
  | EmptyString => false
  | String _ s' => contains sub s'
  end.

(** [s[-n:]]: the last [n] characters, all of [s] when it is shorter. *)
Definition last_chars (n : nat) (s : string) : string :=
  String.substring (String.length s - n) n s.

Definition is_space (c : ascii) : bool :=
  let n := nat_of_ascii c in
  (n =? 32)%nat || ((9 <=? n)%nat && (n <=? 13)%nat).

Fixpoint lstrip (s : string) : string :=
  match s with
  | String c s' => if is_space c then lstrip s' else s
  | EmptyString => s
  end.

(** [s.strip()]. *)
Definition strip (s : string) : string :=
  String.rev (lstrip (String.rev (lstrip s))).

(** [s * n] for an int [n]. *)
Definition repeat (s : string) (n : Z) : string :=
  String.concat "" (replicate (Z.to_nat n) s).

(** [fnmatch.fnmatch] for patterns made of literal characters and [*]
    (the patterns of this module have no [?] and no bracket class). *)
Fixpoint fnmatch (pat name : string) {struct pat} : bool :=
  match pat with
  | EmptyString => match name with EmptyString => true | _ => false end
  | String c pat' =>
      if Ascii.eqb c "*" then
        (fix star (n : string) : bool :=
           fnmatch pat' n ||
           match n with
           | EmptyString => false
           | String _ n' => star n'
           end) name
      else
        match name with
        | String d name' => Ascii.eqb c d && fnmatch pat' name'
        | EmptyString => false
        end
  end.

(** Whether every character is ASCII. Other characters stand for the bytes
    of text that Python 2 keeps as a [unicode] object, on which [str()]
    raises [UnicodeEncodeError]. *)
Definition is_ascii (s : string) : bool :=
  forallb (fun c => (nat_of_ascii c <? 128)%nat) (list_ascii_of_string s).

End Str.

Module Path.

(** Split at the last ['/']: what is before it and what is after it. *)
Fixpoint rsplit (p : string) : option (string * string) :=
  match p with
  | EmptyString => None
  | String c p' =>
      match rsplit p' with
      | Some (h, t) => Some (String c h, t)
      | None => if Ascii.eqb c "/" then Some (EmptyString, p') else None
      end
  end.

(** [os.path.dirname] and [os.path.basename] on normalized paths. *)
Definition dirname (p : string) : string :=
  match rsplit p with
  | Some (EmptyString, _) => "/"
  | Some (h, _) => h
  | None => ""
  end.
Definition basename (p : string) : string :=
  match rsplit p with
  | Some (_, t) => t
  | None => p
  end.

(** [os.path.join(a, b)] for a relative [b]. *)
Definition join (a b : string) : string :=
  if String.eqb a "" then b
  else if String.eqb (Str.last_chars 1 a) "/" then a +:+ b
  else a +:+ "/" +:+ b.

(** Paths are taken absolute, normalized and free of symbolic links, on
    which [os.path.realpath] and [os.path.abspath] change nothing. *)
Definition realpath (p : string) : string := p.
Definition abspath (p : string) : string := p.

End Path.

(** ** The file system *)

(** An XML element as [xml.etree.ElementTree] gives it. *)
Unset Elimination Schemes.
Inductive element :=
  | Element (tag : string) (attrib : list (string * string))
            (text : option pytext) (children : list element).
Set Elimination Schemes.

(** A regular file: its bytes, and what the parsers of the Python library
    deliver for it.
    - [matches]: for each line, the groups of the regular expression
      of [Gamma._parseParameterFile] when the line matches it;
    - [etree]: the root [ElementTree.parse] returns, when it parses;
    - [matvars]: the variables [scipy.io.loadmat] returns, in
      iteration order, when it loads. *)
Record file := File {
  bytes : list Byte.byte;
  matches : list (option (string * pytext));
  etree : option element;
  matvars : option (list (string * pyval))
}.

Inductive node :=
  | Dir
  | Reg (f : file).

(** Entries by full path, in directory-listing order. *)
Definition filesystem := list (string * node).

Module Os.

Fixpoint lookup (fs : filesystem) (p : string) : option node :=
  match fs with
  | [] => None
  | (q, n) :: fs' => if String.eqb q p then Some n else lookup fs' p
  end.

Definition isdir (fs : filesystem) (p : string) : bool :=
  match lookup fs p with Some Dir => true | _ => false end.

Definition isfile (fs : filesystem) (p : string) : bool :=
  match lookup fs p with Some (Reg _) => true | _ => false end.

(** Opening a path for reading: a missing path and a directory are
    [IOError]s. *)
Definition open (fs : filesystem) (p : string) : result file :=
  match lookup fs p with
  | Some (Reg f) => Ok f
  | _ => Raise IOError
  end.

(** Replace the bytes of the first entry for [p]. *)
Fixpoint write (fs : filesystem) (p : string) (bs : list Byte.byte) : filesystem :=
  match fs with
  | [] => []
  | (q, n) :: fs' =>
      if String.eqb q p then
        (q, match n with
            | Reg f => Reg (File bs (matches f) (etree f) (matvars f))
            | Dir => Dir
            end) :: fs'
      else (q, n) :: write fs' p bs
  end.

Definition hidden (name : string) : bool :=
  match name with
  | String c _ => Ascii.eqb c "."
  | EmptyString => false
  end.

(** [glob.glob(pathname)] where only the last component holds a pattern:
    the entries of the directory, hidden ones left out, whose name
    matches, in listing order, as full paths. *)
Definition glob (fs : filesystem) (pathname : string) : list string :=
  let d := Path.dirname pathname in
  let pat := Path.basename pathname in
  if isdir fs d then
    map fst
      (List.filter (fun '(p, _) =>
                 String.eqb (Path.dirname p) d
                 && negb (String.eqb p d)
                 && negb (hidden (Path.basename p))
                 && Str.fnmatch pat (Path.basename p)) fs)
  else [].

(** [numpy.fromfile(p, dtype)] for a 4-byte float dtype. *)
Definition fromfile (fs : filesystem) (p : string) (bo : byteorder) : result ndarray :=
  match open fs p with
  | Ok f => Ok (Np.flat IEEE.f4 (frombuffer bo (bytes f)))
  | Raise e => Raise e
  end.

(** [numpy.memmap(p, dtype)] over the whole file: an empty file and a
    size that is no multiple of the item size are [ValueError]s. *)
Definition memmap (fs : filesystem) (p : string) (bo : byteorder) : result ndarray :=
  match open fs p with
  | Ok f =>
      let n := Z.of_nat (length (bytes f)) in
      if (n =? 0) || negb (n mod 4 =? 0) then Raise ValueError
      else Ok (Np.flat IEEE.f4 (frombuffer bo (bytes f)))
  | Raise e => Raise e
  end.

End Os.

(** ** Reader objects and their methods *)

Inductive level := DEBUG | WARNING.

(** What a method can see and change: [self.container], the records sent to
    [self._log], and the file system. *)
Record state := State {
  container : gmap string pyval;
  log : list (level * string);
  fs : filesystem
}.

(** A method body: it ends in a value or in a raised exception, and the
    state it leaves behind is kept in both cases. *)
Definition M (A : Type) : Type := state -> result A * state.

Definition ret {A} (a : A) : M A := fun s => (Ok a, s).
Definition raise {A} (e : exn) : M A := fun s => (Raise e, s).
Definition bind {A B} (m : M A) (k : A -> M B) : M B :=
  fun s => match m s with
           | (Ok a, s') => k a s'
           | (Raise e, s') => (Raise e, s')
           end.

Notation "'let*' x := m 'in' k" := (bind m (fun x => k))
  (at level 10, x name, m at level 200, k at level 200).
Notation "m ;; k" := (bind m (fun _ => k))
  (at level 100, k at level 200, right associativity).

(** A computation that only reads the file system. *)
Definition reading {A} (f : filesystem -> result A) : M A :=
  fun s => (f (fs s), s).

Definition lift {A} (r : result A) : M A := fun s => (r, s).

(** [try: m except ImportError: h]. *)
Definition except_ImportError {A} (m : M A) (h : M A) : M A :=
  fun s => match m s with
           | (Raise (ImportError _), s') => h s'
           | r => r
           end.

(** [try: m except: h], the bare clause that catches everything. *)
Definition except_any {A} (m : M A) (h : M A) : M A :=
  fun s => match m s with
           | (Raise _, s') => h s'
           | r => r
           end.

Definition emit (l : level) (msg : string) : M unit :=
  fun s => (Ok tt, State (container s) (log s ++ [(l, msg)]) (fs s)).

(** [self.container[k] = v]. *)
Definition setitem (k : string) (v : pyval) : M unit :=
  fun s => (Ok tt, State (<[k := v]> (container s)) (log s) (fs s)).

Definition get_container : M (gmap string pyval) :=
  fun s => (Ok (container s), s).

Definition set_fs (fs' : filesystem) : M unit :=
  fun s => (Ok tt, State (container s) (log s) fs').

(** [d[k]] on a dict. *)
Definition getitem (d : gmap string pyval) (k : string) : result pyval :=
  match d !! k with
  | Some v => Ok v
  | None => Raise KeyError
  end.

(** [SceneIO.__init__]: every field of the container starts as [None]. *)
Definition empty_container : gmap string pyval :=
  <["phi" := PyNone]> (<["theta" := PyNone]> (<["displacement" := PyNone]>
  (<["llLon" := PyNone]> (<["llLat" := PyNone]> (<["dLat" := PyNone]>
  (<["dLon" := PyNone]> ∅)))))).

Definition SceneIO_init (fs0 : filesystem) : state :=
  State empty_container [] fs0.

(** Python arithmetic on the scalars a parsed file can hold. *)
Module Py.

(** [int(v)]: truncation of a float. A string reaches [int] only after
    [float] has refused it, and [int] then refuses it as well. *)
Definition int (v : pyval) : result Z :=
  match v with
  | PyFloat x | NpFloat x =>
      match IEEE.to_Z x with
      | Some n => Ok n
      | None => Raise ValueError
      end
  | PyStr _ => Raise ValueError
  | _ => Raise TypeError
  end.

(** [v * n] for an int [n]: a float product, or a repeated string. *)
Definition mul_int (v : pyval) (n : Z) : result pyval :=
  match v with
  | PyFloat x => Ok (PyFloat (IEEE.mul IEEE.f8 x (IEEE.of_Z n)))
  | NpFloat x => Ok (NpFloat (IEEE.mul IEEE.f8 x (IEEE.of_Z n)))
  | PyStr s => Ok (PyStr (Str.repeat s n))
  | _ => Raise TypeError
  end.

(** [a + b]: a float sum, or a concatenation of two strings. *)
Definition add (a b : pyval) : result pyval :=
  match a, b with
  | PyFloat x, PyFloat y => Ok (PyFloat (IEEE.add IEEE.f8 x y))
  | PyFloat x, NpFloat y | NpFloat x, PyFloat y | NpFloat x, NpFloat y =>
      Ok (NpFloat (IEEE.add IEEE.f8 x y))
  | PyStr s, PyStr t => Ok (PyStr (s +:+ t))
  | _, _ => Raise TypeError
  end.

(** [numpy.abs(v)] on a scalar. *)
Definition np_abs (v : pyval) : result pyval :=
  match v with
  | PyFloat x | NpFloat x => Ok (NpFloat (SFabs x))
  | _ => Raise TypeError
  end.

End Py.

(** ** [class Gamma] *)

Module Gamma.

Definition required : list string :=
  ["corner_lat"; "corner_lon"; "nlines"; "width"; "post_lat"; "post_lon"].

(** The loop body over the lines of the parameter file: a line the
    expression does not match is skipped; the value is kept as a float
    when [float] takes it and as the stripped text otherwise. *)
Definition parse_line (params : gmap string pyval)
    (parsed : option (string * pytext)) : gmap string pyval :=
  match parsed with
  | None => params
  | Some (g0, g1) =>
      match as_float g1 with
      | Some x => <[g0 := PyFloat x]> params
      | None => <[g0 := PyStr (Str.strip (raw g1))]> params
      end
  end.

Definition missing_msg (r : string) : string :=
  "Parameter file does not hold required parameter " +:+ r.

(** [for r in required: if r not in params: raise ImportError(...)]. *)
Fixpoint check_required (rs : list string) (params : gmap string pyval)
  : result unit :=
  match rs with
  | [] => Ok tt
  | r :: rs' =>
      match params !! r with
      | None => Raise (ImportError [missing_msg r])
      | Some _ => check_required rs' params
      end
  end.

Definition _parseParameterFile (fs : filesystem) (par_file : string)
  : result (gmap string pyval) :=
  match Os.open fs par_file with
  | Raise e => Raise e
  | Ok par =>
      let params := fold_left parse_line (matches par) ∅ in
      match check_required required params with
      | Raise e => Raise e
      | Ok _ => Ok params
      end
  end.

(** The loop of [_getParameterFile] over the globbed files: the first
    one that parses is returned; an [ImportError] moves on to the next,
    any other exception leaves the loop. *)
Fixpoint first_par_file (par_files : list string) : M string :=
  match par_files with
  | [] => raise (ImportError ["Could not find suiting Gamma parameter file (*par)"])
  | file :: rest =>
      except_ImportError
        (reading (fun fs => _parseParameterFile fs file) ;;
         emit DEBUG ("Found parameter file " +:+ file) ;;
         ret file)
        (first_par_file rest)
  end.

Definition _getParameterFile (path : string) : M string :=
  let path := Path.dirname (Path.realpath path) in
  let* par_files := reading (fun fs => Ok (Os.glob fs (path +:+ "/*par"))) in
  first_par_file par_files.

(** [kwargs.pop('par_file', self._getParameterFile(filename))]: the
    default is an argument of the call, so it is computed first, whether
    the keyword is given or not. *)
Definition pop_par_file (kwargs : option string) (filename : string) : M string :=
  let* found := _getParameterFile filename in
  ret (default found kwargs).

Definition validate (filename : string) (kwargs : option string) : M bool :=
  except_ImportError
    (let* par_file := pop_par_file kwargs filename in
     reading (fun fs => _parseParameterFile fs par_file) ;;
     ret true)
    (ret false).

(** "Resize array if last line is not scanned completely": when the number
    of items is no multiple of [nrows], NaNs are appended up to the next
    multiple. The result is the array and the [fill] that was appended
    ([None] when nothing was). A zero [nrows] is a [ZeroDivisionError] of
    [%]. *)
Definition resize (displ : ndarray) (nrows : Z) : result (ndarray * option ndarray) :=
  if nrows =? 0 then Raise ZeroDivisionError
  else if negb (Np.size displ mod nrows =? 0) then
    match Np.nan_fill (nrows - Np.size displ mod nrows) with
    | Raise e => Raise e
    | Ok fill =>
        match Np.append (NpArray displ) fill with
        | Raise e => Raise e
        | Ok displ => Ok (displ, Some fill)
        end
    end
  else Ok (displ, None).

(** [if fill is not None:] the same [fill] is appended to [theta], then to
    [phi]. *)
Definition append_fill (fill : option ndarray) (theta phi : pyval)
  : result (pyval * pyval) :=
  match fill with
  | Some fill =>
      match Np.append theta fill with
      | Raise e => Raise e
      | Ok theta =>
          match Np.append phi fill with
          | Raise e => Raise e
          | Ok phi => Ok (NpArray theta, NpArray phi)
          end
      end
  | None => Ok (theta, phi)
  end.

Section Libm.

(** [numpy.cos] on one element of the given dtype. *)
Variable cos : IEEE.dtype -> spec_float -> spec_float.

Definition np_cos (v : pyval) : pyval :=
  match v with
  | PyFloat x | NpFloat x => NpFloat (cos IEEE.f8 x)
  | NpArray a => NpArray (NdArray (dt a) (shape a) (map (cos (dt a)) (data a)))
  | _ => v
  end.

Definition _getAngle (filename pattern : string) : M pyval :=
  let path := Path.dirname (Path.realpath filename) in
  let* phi_files := reading (fun fs => Ok (Os.glob fs (path +:+ "/" +:+ pattern))) in
  if (length phi_files =? 0)%nat then
    emit WARNING ("Could not find " +:+ pattern +:+ " file, defaulting to 0.") ;;
    ret (PyFloat IEEE.pzero)
  else if (1 <? length phi_files)%nat then
    emit WARNING ("Found multiple " +:+ pattern +:+ " files, defaulting to 0.") ;;
    ret (PyFloat IEEE.pzero)
  else
    let filename := hd "" phi_files in
    emit DEBUG ("Found " +:+ pattern +:+ " in " +:+ filename) ;;
    let* a := reading (fun fs => Os.memmap fs filename BigEndian) in
    ret (NpArray a).

Definition read (filename : string) (kwargs : option string)
  : M (gmap string pyval) :=
  let* par_file := pop_par_file kwargs filename in
  let* par := reading (fun fs => _parseParameterFile fs par_file) in
  let* dims :=
    except_any
      (let* nrows := lift (match getitem par "width" with
                           | Ok v => Py.int v | Raise e => Raise e end) in
       let* nlines := lift (match getitem par "nlines" with
                            | Ok v => Py.int v | Raise e => Raise e end) in
       ret (nrows, nlines))
      (raise (ImportError ["Error parsing width and nlines from " +:+ par_file])) in
  let nrows := fst dims in
  let nlines := snd dims in
  let* displ := reading (fun fs => Os.fromfile fs filename BigEndian) in
  let* padded := lift (resize displ nrows) in
  let fill := snd padded in
  let* displ := lift (Np.reshape (fst padded) nlines nrows) in
  let displ := Np.set_nan_where_eq IEEE.nzero displ in
  let* phi := _getAngle filename "*phi*" in
  let* theta := _getAngle filename "*theta*" in
  let theta := np_cos theta in
  let* angles := lift (append_fill fill theta phi) in
  let* theta := lift (Np.reshape_method (fst angles) nlines nrows) in
  let* phi := lift (Np.reshape_method (snd angles) nlines nrows) in
  (* LatLon UTM Conversion *)
  setitem "displacement" (NpArray (Np.mul_scalar displ IEEE.c_1em2)) ;;
  let* corner_lat := lift (getitem par "corner_lat") in
  let* post_lat := lift (getitem par "post_lat") in
  let* extent := lift (Py.mul_int post_lat nrows) in
  let* llLat := lift (Py.add corner_lat extent) in
  setitem "llLat" llLat ;;
  let* corner_lon := lift (getitem par "corner_lon") in
  setitem "llLon" corner_lon ;;
  let* post_lon := lift (getitem par "post_lon") in
  setitem "dLon" post_lon ;;
  setitem "dLat" post_lat ;;
  setitem "theta" (NpArray theta) ;;
  setitem "phi" (NpArray phi) ;;
  get_container.

End Libm.

End Gamma.

(** ** [class ISCEXMLParser] *)

Module ISCEXMLParser.

Definition tag_of (e : element) : string :=
  match e with Element t _ _ _ => t end.
Definition text_of (e : element) : option pytext :=
  match e with Element _ _ t _ => t end.
Definition children_of (e : element) : list element :=
  match e with Element _ _ _ cs => cs end.

(** [e.get(k)]. *)
Definition get (e : element) (k : string) : option string :=
  match e with
  | Element _ attrib _ _ =>
      match List.filter (fun '(a, _) => String.eqb a k) attrib with
      | (_, v) :: _ => Some v
      | [] => None
      end
  end.

(** [e.iter()]: the element, then its descendants in document order. *)
Fixpoint iter (e : element) : list element :=
  match e with
  | Element _ _ _ cs =>
      e :: (fix iters (l : list element) : list element :=
              match l with
              | [] => []
              | c :: l' => iter c ++ iters l'
              end) cs
  end.

(** [e.find(t)]: the first direct child with that tag. *)
Definition find (e : element) (t : string) : option element :=
  match List.filter (fun c => String.eqb (tag_of c) t) (children_of e) with
  | c :: _ => Some c
  | [] => None
  end.

(** [type_convert]: [float], then [int], then [str], each tried in turn
    and passed over when it raises [ValueError]. Text that [float] refuses
    is refused by [int] too. [str] gives ASCII text back as it is; text
    with any other character reaches the loop as a [unicode] object, on
    which [str] raises [UnicodeEncodeError], a [ValueError]: the loop runs
    out and the final [raise ValueError] is reached. [None] is a
    [TypeError] of [float], which the loop does not catch. *)
Definition type_convert (value : option pytext) : result pyval :=
  match value with
  | None => Raise TypeError
  | Some t =>
      match as_float t with
      | Some x => Ok (PyFloat x)
      | None =>
          if Str.is_ascii (raw t) then Ok (PyStr (raw t))
          else Raise ValueError
      end
  end.

(** [type_convert(e.find('value').text)]. *)
Definition value_of (e : element) : result pyval :=
  match find e "value" with
  | None => Raise AttributeError
  | Some v => type_convert (text_of v)
  end.

(** What [getProperty] returns: [None], a scalar, or a dict keyed by the
    [name] attributes (an absent attribute is the key [None]). *)
Inductive property :=
  | NoProperty
  | Scalar (v : pyval)
  | Component (values : gmap (option string) pyval).

Fixpoint collect (props : list element) (values : gmap (option string) pyval)
  : result (gmap (option string) pyval) :=
  match props with
  | [] => Ok values
  | prop :: rest =>
      match value_of prop with
      | Ok v => collect rest (<[get prop "name" := v]> values)
      | Raise e => Raise e
      end
  end.

Fixpoint search (name : string) (nodes : list element) : result property :=
  match nodes with
  | [] => Ok NoProperty
  | child :: rest =>
      if bool_decide (get child "name" = Some name) then
        if String.eqb (tag_of child) "property" then
          match value_of child with
          | Ok v => Ok (Scalar v)
          | Raise e => Raise e
          end
        else if String.eqb (tag_of child) "component" then
          match collect (List.filter (fun p => String.eqb (tag_of p) "property")
                                (iter child)) ∅ with
          | Ok values => Ok (Component values)
          | Raise e => Raise e
          end
        else search name rest
      else search name rest
  end.

Definition getProperty (root : element) (name : string) : result property :=
  search name (iter root).

(** [p[k]]: only a dict can be subscripted with a string. *)
Definition subscript (p : property) (k : string) : result pyval :=
  match p with
  | Component values =>
      match values !! Some k with
      | Some v => Ok v
      | None => Raise KeyError
      end
  | _ => Raise TypeError
  end.

(** [ISCEXMLParser(filename)]: [ElementTree.parse(filename).getroot()]. *)
Definition parse (fs : filesystem) (filename : string) : result element :=
  match Os.open fs filename with
  | Raise e => Raise e
  | Ok f =>
      match etree f with
      | Some root => Ok root
      | None => Raise ParseError
      end
  end.

End ISCEXMLParser.

(** ** [class ISCE] *)

Module ISCE.

Definition los_msg : string := "Could not find LOS file (.rdr.geo)".

Definition _getLOSFile (fs : filesystem) (path : string) : result string :=
  let path := if negb (Os.isdir fs path) then Path.dirname path else path in
  let rdr_files := Os.glob fs (Path.join path "*.rdr.geo") in
  match rdr_files with
  | [] => Raise (ImportError [los_msg])
  | f :: _ => Ok f
  end.

Definition _getDisplacementFile (fs : filesystem) (path : string) : result string :=
  let found :=
    if Os.isfile fs path then Ok path
    else
      match Os.glob fs (Path.join path "*.unw.geo") with
      | [] => Raise (ImportError
                ["Could not find displacement file (.unw.geo) at %s"; path])
      | f :: _ => Ok f
      end in
  match found with
  | Raise e => Raise e
  | Ok disp_file =>
      if negb (Os.isfile fs (disp_file +:+ ".xml")) then
        Raise (ImportError ["Could not find displacement XML file ("
                            +:+ Path.basename disp_file +:+ ".unw.geo.xml)"])
      else Ok disp_file
  end.

Definition validate (filename : string) : M bool :=
  except_ImportError
    (reading (fun fs => _getDisplacementFile fs filename) ;;
     reading (fun fs => _getLOSFile fs filename) ;;
     ret true)
    (ret false).

(** The items of the mapped file that [view[view == c] = nan] overwrites,
    where [view] is [a[:, k:]]: those right of column [k] that equal [c]. *)
Definition view_mask (a : ndarray) (k : Z) (c : spec_float) : list bool :=
  match shape a with
  | [r; w] =>
      let b := Np.bound k w in
      concat (map (fun row => map (fun _ => false) (take b row)
                              ++ map (fun x => IEEE.eqb x c) (drop b row))
                  (Np.rows r w (data a)))
  | _ => []
  end.

(** The masked NaN assignment on a view of a file mapped in the default
    mode ([r+]): the bytes of the file change with the array. *)
Definition store_through (p : string) (bo : byteorder) (mask : list bool) : M unit :=
  fun s =>
    match Os.open (fs s) p with
    | Ok f => set_fs (Os.write (fs s) p (store_nan bo mask (bytes f))) s
    | Raise e => (Raise e, s)
    end.

Definition read (path : string) : M (gmap string pyval) :=
  let path := Path.abspath path in
  let* disp_file := reading (fun fs => _getDisplacementFile fs path) in
  let* isce_xml := reading (fun fs => ISCEXMLParser.parse fs (disp_file +:+ ".xml")) in
  let* coord_lon := lift (ISCEXMLParser.getProperty isce_xml "coordinate1") in
  let* coord_lat := lift (ISCEXMLParser.getProperty isce_xml "coordinate2") in
  let* delta_lat := lift (ISCEXMLParser.subscript coord_lat "delta") in
  let* dLat := lift (Py.np_abs delta_lat) in
  setitem "dLat" dLat ;;
  let* delta_lon := lift (ISCEXMLParser.subscript coord_lon "delta") in
  let* dLon := lift (Py.np_abs delta_lon) in
  setitem "dLon" dLon ;;
  let* size_lon := lift (ISCEXMLParser.subscript coord_lon "size") in
  let* nlon := lift (Py.int size_lon) in
  let* size_lat := lift (ISCEXMLParser.subscript coord_lat "size") in
  let* nlat := lift (Py.int size_lat) in
  let* start_lat := lift (ISCEXMLParser.subscript coord_lat "startingvalue") in
  let* delta_lat := lift (ISCEXMLParser.subscript coord_lat "delta") in
  let* extent := lift (Py.mul_int delta_lat nlat) in
  let* llLat := lift (Py.add start_lat extent) in
  setitem "llLat" llLat ;;
  let* start_lon := lift (ISCEXMLParser.subscript coord_lon "startingvalue") in
  setitem "llLon" start_lon ;;
  let* disp_file := reading (fun fs => _getDisplacementFile fs path) in
  let* mapped := reading (fun fs => Os.memmap fs disp_file LittleEndian) in
  let* mapped := lift (Np.reshape mapped nlat (nlon * 2)) in
  let* displacement := lift (Np.cols_from mapped nlon) in
  store_through disp_file LittleEndian (view_mask mapped nlon IEEE.pzero) ;;
  let displacement := Np.set_nan_where_eq IEEE.pzero displacement in
  setitem "displacement" (NpArray (Np.mul_scalar displacement IEEE.c_1em2)) ;;
  let* los_file := reading (fun fs => _getLOSFile fs path) in
  let* los_data := reading (fun fs => Os.fromfile fs los_file LittleEndian) in
  let* los_data := lift (Np.reshape los_data nlat (nlon * 2)) in
  let* phi := lift (Np.cols_upto los_data nlon) in
  setitem "phi" (NpArray phi) ;;
  let* theta := lift (Np.cols_from los_data nlon) in
  setitem "theta" (NpArray (Np.add_scalar theta IEEE.c_90)) ;;
  get_container.

End ISCE.

(** ** [class GMTSAR] *)

Module GMTSAR.

Definition _getDisplacementFile (fs : filesystem) (path : string) : result string :=
  if Os.isfile fs path then Ok path
  else
    match Os.glob fs (Path.join path "*.grd") with
    | [] => Raise (ImportError
              ["Could not find displacement file (*.grd) at %s"; path])
    | disp_file :: _ => Ok disp_file
    end.

Definition validate (filename : string) : M bool :=
  except_ImportError
    (let* disp_file := reading (fun fs => _getDisplacementFile fs filename) in
     if String.eqb (Str.last_chars 4 disp_file) ".grd" then ret true
     else ret false)
    (ret false).


Definition nl : string := String (ascii_of_nat 10) EmptyString.

(** The docstring of the class, which [_getLOSFile] sends to the log. *)
Definition __doc__ : string :=
  " Reads in data processed with GMT5SAR" +:+ nl +:+ nl +:+
  "    Use gmt5sar ``SAT_look`` to calculate the corresponding unit look vectors:"
  +:+ nl +:+ nl +:+
  "    .. code-block:: sh" +:+ nl +:+ nl +:+
  "        gmt grd2xyz unwrap_ll.grd | gmt grdtrack -Gdem.grd |" +:+ nl +:+
  "        awk {'print $1, $2, $4'} |" +:+ nl +:+
  "        SAT_look 20050731.PRM -bos > 20050731.los.enu" +:+ nl +:+ nl +:+
  "    Expects two binary files:" +:+ nl +:+ nl +:+
  "        * Displacement grid (NetCDF, ``*los_ll.grd``)" +:+ nl +:+
  "        * LOS binary data (see instruction, ``*los.enu``)" +:+ nl +:+ nl +:+
  "    ".

Definition los_msg : string := "Could not find LOS file (*.los.*)".

Definition _getLOSFile (path : string) : M string :=
  let* path := reading (fun fs =>
                 Ok (if negb (Os.isdir fs path) then Path.dirname path else path)) in
  let* los_files := reading (fun fs => Ok (Os.glob fs (Path.join path "*.los.*"))) in
  match los_files with
  | [] => emit WARNING __doc__ ;; raise (ImportError [los_msg])
  | los_file :: _ => ret los_file
  end.

(** [grd.variables[k][:]]: an absent variable is a [KeyError], and a
    variable without dimension cannot be sliced. *)
Definition variable (variables : gmap string ndarray) (k : string) : result ndarray :=
  match variables !! k with
  | None => Raise KeyError
  | Some a => match shape a with [] => Raise IndexError | _ => Ok a end
  end.

(** [(hi - lo) / n] for two numpy scalars of dtype [d] and an int [n]: the
    difference is taken in [d], the quotient in binary64; a zero [n] gives
    an infinity or a NaN, not an exception. *)
Definition step (d : IEEE.dtype) (hi lo : spec_float) (n : Z) : spec_float :=
  IEEE.div IEEE.f8 (IEEE.cast IEEE.f8 (IEEE.sub d hi lo)) (IEEE.of_Z n).

Definition default_msg : string := "Defaulting theta and phi to 0".

Section Netcdf.

(** [scipy.io.netcdf.netcdf_file] on the bytes of a file: the variables of
    the grid, or the exception the library raises on them. *)
Variable netcdf_file : list Byte.byte -> result (gmap string ndarray).

(** [numpy.arctan], [numpy.arccos] and [numpy.rad2deg] on one element of
    the given dtype. *)
Variable arctan arccos rad2deg : IEEE.dtype -> spec_float -> spec_float.

Definition read (path : string) : M (gmap string pyval) :=
  let path := Path.abspath path in
  let* disp_file := reading (fun fs => _getDisplacementFile fs path) in
  let* variables := reading (fun fs =>
                      match Os.open fs disp_file with
                      | Ok f => netcdf_file (bytes f)
                      | Raise e => Raise e
                      end) in
  let* z := lift (variable variables "z") in
  setitem "displacement" (NpArray z) ;;
  let displacement := Np.mul_scalar z IEEE.c_1em2 in
  setitem "displacement" (NpArray displacement) ;;
  let shape := shape displacement in
  (* LatLon *)
  let* lat := lift (variable variables "lat") in
  let* llLat := lift (Np.min lat) in
  setitem "llLat" (NpFloat llLat) ;;
  let* lon := lift (variable variables "lon") in
  let* llLon := lift (Np.min lon) in
  setitem "llLon" (NpFloat llLon) ;;
  let* lat := lift (variable variables "lat") in
  let* lat_max := lift (Np.max lat) in
  let* columns := lift (Np.dim shape 1) in
  setitem "dLat" (NpFloat (step (dt lat) lat_max llLat columns)) ;;
  let* lon := lift (variable variables "lon") in
  let* lon_max := lift (Np.max lon) in
  let* lines := lift (Np.dim shape 0) in
  setitem "dLon" (NpFloat (step (dt lon) lon_max llLon lines)) ;;
  (* Theta and Phi *)
  except_ImportError
    (let* los_file := _getLOSFile path in
     let* los := reading (fun fs => Os.memmap fs los_file LittleEndian) in
     let* e := lift (Np.reshape_to (Np.flat (dt los) (Np.strided 6 (data los) 3)) shape) in
     let* n := lift (Np.reshape_to (Np.flat (dt los) (Np.strided 6 (data los) 4)) shape) in
     let* u := lift (Np.reshape_to (Np.flat (dt los) (Np.strided 6 (data los) 5)) shape) in
     let theta := Np.elementwise rad2deg (Np.elementwise arctan (Np.divide n e)) in
     let phi := Np.elementwise rad2deg (Np.elementwise arccos u) in
     let theta := Np.add_where_negative theta n (IEEE.of_Z 180) in
     setitem "phi" (NpArray phi) ;;
     setitem "theta" (NpArray theta))
    (emit WARNING default_msg ;;
     setitem "theta" (PyFloat IEEE.pzero) ;;
     setitem "phi" (PyFloat IEEE.pzero)) ;;
  get_container.

End Netcdf.

End GMTSAR.

(** ** [class Matlab] *)

Module Matlab.

Definition validate (filename : string) : M bool :=
  if String.eqb (Str.last_chars 4 filename) ".mat" then ret true
  else ret false.

(** [try: m except utm.error.OutOfRangeError: h]. *)
Definition except_OutOfRange {A} (m : M A) (h : M A) : M A :=
  fun s => match m s with
           | (Raise OutOfRangeError, s') => h s'
           | r => r
           end.

(** The locals [utm_e] and [utm_n], unbound until the loop assigns them. *)
Definition locals : Type := option ndarray * option ndarray.

(** A local that is read before any assignment. *)
Definition bound_local (v : option ndarray) : result ndarray :=
  match v with
  | Some a => Ok a
  | None => Raise NameError
  end.

(** The body of the inner loop, for one variable [mat_k] of the file and
    one key [io_k] of the container. *)
Definition assign (mat_k : string) (v : pyval) (io_k : string) (l : locals)
  : M locals :=
  if Str.contains io_k mat_k then
    setitem io_k v ;; ret l
  else if Str.contains "ig_" mat_k then
    setitem "displacement" v ;; ret l
  else if Str.contains "xx" mat_k then
    let* utm_e := lift (Np.flatten v) in ret (Some utm_e, snd l)
  else if Str.contains "yy" mat_k then
    let* utm_n := lift (Np.flatten v) in ret (fst l, Some utm_n)
  else ret l.

Fixpoint for_keys (mat_k : string) (v : pyval) (keys : list string) (l : locals)
  : M locals :=
  match keys with
  | [] => ret l
  | io_k :: rest =>
      let* l' := assign mat_k v io_k l in
      for_keys mat_k v rest l'
  end.

(** The outer loop over [mat.iteritems()]; the inner one runs over the
    keys of the container, in the order of the dict. *)
Fixpoint for_items (mat : list (string * pyval)) (l : locals) : M locals :=
  match mat with
  | [] => ret l
  | (mat_k, v) :: rest =>
      let* c := get_container in
      let* l' := for_keys mat_k v (map fst (map_to_list c)) l in
      for_items rest l'
  end.

(** [scipy.io.loadmat(filename)]. *)
Definition loadmat (fs : filesystem) (filename : string)
  : result (list (string * pyval)) :=
  match Os.open fs filename with
  | Raise e => Raise e
  | Ok f =>
      match matvars f with
      | Some mat => Ok mat
      | None => Raise ValueError
      end
  end.

(** [a.shape[i]]. *)
Definition shape_at (v : pyval) (i : nat) : result Z :=
  match v with
  | NpArray a =>
      match shape a !! i with
      | Some n => Ok (Z.of_nat n)
      | None => Raise IndexError
      end
  | _ => Raise AttributeError
  end.

(** [(x - y) / n] on Python floats and an int [n]. *)
Definition span_over (x : spec_float) (y : pyval) (n : Z) : result pyval :=
  match y with
  | PyFloat y =>
      if n =? 0 then Raise ZeroDivisionError
      else Ok (PyFloat (IEEE.div IEEE.f8 (IEEE.sub IEEE.f8 x y) (IEEE.of_Z n)))
  | _ => Raise TypeError
  end.

(** [(x1 - x0) / 110e3] on two elements of an array of dtype [d]: the
    difference is taken in [d], the quotient by the Python float in
    binary64. *)
Definition spacing (d : IEEE.dtype) (x1 x0 : spec_float) : spec_float :=
  IEEE.div IEEE.f8 (IEEE.cast IEEE.f8 (IEEE.sub d x1 x0)) IEEE.c_110e3.

(** [if utm_e.min() < 1e4 or utm_n.min() < 1e4:] both vectors are
    multiplied by [1e3]. The [or] does not look at [utm_n] when [utm_e]
    already decides; a vector the loop never assigned is a [NameError]
    where it is first read. *)
Definition rescale (l : locals) : result (ndarray * ndarray) :=
  match bound_local (fst l) with
  | Raise e => Raise e
  | Ok utm_e =>
      match Np.min utm_e with
      | Raise e => Raise e
      | Ok e_min =>
          if IEEE.ltb e_min IEEE.c_1e4 then
            match bound_local (snd l) with
            | Raise e => Raise e
            | Ok utm_n =>
                Ok (Np.mul_scalar utm_e IEEE.c_1e3, Np.mul_scalar utm_n IEEE.c_1e3)
            end
          else
            match bound_local (snd l) with
            | Raise e => Raise e
            | Ok utm_n =>
                match Np.min utm_n with
                | Raise e => Raise e
                | Ok n_min =>
                    if IEEE.ltb n_min IEEE.c_1e4 then
                      Ok (Np.mul_scalar utm_e IEEE.c_1e3,
                          Np.mul_scalar utm_n IEEE.c_1e3)
                    else Ok (utm_e, utm_n)
                end
            end
      end
  end.

Definition fallback_msg : string :=
  "Could not interpret spatial vectors, referencing to 0, 0 (lat, lon)".

Section Utm.

(** [utm.to_latlon(easting, northing, zone_number, zone_letter)]:
    latitude and longitude, or [None] where the library raises
    [OutOfRangeError]. *)
Variable to_latlon :
  spec_float -> spec_float -> Z -> string -> option (spec_float * spec_float).

Definition utm_to_latlon (e n : spec_float) (zone : Z) (letter : string)
  : M (spec_float * spec_float) :=
  match to_latlon e n zone letter with
  | Some ll => ret ll
  | None => raise OutOfRangeError
  end.

Definition read (filename : string) : M (gmap string pyval) :=
  let* mat := reading (fun fs => loadmat fs filename) in
  let* l := for_items mat (None, None) in
  let* l := lift (rescale l) in
  let utm_e := fst l in
  let utm_n := snd l in
  let utm_zone := 32 in
  let utm_zone_letter := "N" in
  except_OutOfRange
    (let* e_min := lift (Np.min utm_e) in
     let* n_min := lift (Np.min utm_n) in
     let* ll := utm_to_latlon e_min n_min utm_zone utm_zone_letter in
     setitem "llLat" (PyFloat (fst ll)) ;;
     setitem "llLon" (PyFloat (snd ll)) ;;
     let* e_max := lift (Np.max utm_e) in
     let* n_max := lift (Np.max utm_n) in
     let* ur := utm_to_latlon e_max n_max utm_zone utm_zone_letter in
     let* c := get_container in
     let* llLat := lift (getitem c "llLat") in
     let* displacement := lift (getitem c "displacement") in
     let* rows := lift (shape_at displacement 0) in
     let* dLat := lift (span_over (fst ur) llLat rows) in
     setitem "dLat" dLat ;;
     let* c := get_container in
     let* llLon := lift (getitem c "llLon") in
     let* displacement := lift (getitem c "displacement") in
     let* cols := lift (shape_at displacement 1) in
     let* dLon := lift (span_over (snd ur) llLon cols) in
     setitem "dLon" dLon)
    (setitem "llLat" (PyFloat IEEE.pzero) ;;
     setitem "llLon" (PyFloat IEEE.pzero) ;;
     let* e1 := lift (Np.item utm_e 1) in
     let* e0 := lift (Np.item utm_e 0) in
     setitem "dLat" (NpFloat (spacing (dt utm_e) e1 e0)) ;;
     let* n1 := lift (Np.item utm_n 1) in
     let* n0 := lift (Np.item utm_n 0) in
     setitem "dLon" (NpFloat (spacing (dt utm_n) n1 n0)) ;;
     emit WARNING fallback_msg) ;;
  get_container.

End Utm.

End Matlab.

(** * [src/meta.py] *)

Module Meta.

(** ** [trimMatrix] *)

(** [not num.all(num.isnan(v))] on a row or a column. *)
Definition holds_data (v : list spec_float) : bool :=
  negb (forallb IEEE.is_nan v).

(** One pass of the loop [for r in xrange(n)]: [r1] and [r2] start as
    [False], which counts as [0] both under [not] and as a slice bound, so
    they are integers here. An index that holds data goes to [r1] while
    [r1] is still falsy, and to [r2] afterwards. *)
Definition mark (b : nat * nat) (r : nat) (data : bool) : nat * nat :=
  if data then
    (if (fst b =? 0)%nat then (r, snd b) else (fst b, r))
  else b.

Fixpoint scan_from (r : nat) (flags : list bool) (b : nat * nat) : nat * nat :=
  match flags with
  | [] => b
  | d :: flags' => scan_from (S r) flags' (mark b r d)
  end.

Definition bounds (flags : list bool) : nat * nat := scan_from 0 flags (0, 0)%nat.

(** Column [j] of a list of rows. *)
Definition column (rows : list (list spec_float)) (j : nat) : list spec_float :=
  omap (fun row => row !! j) rows.

(** [l[a:b]] for bounds within the length. *)
Definition slice {A} (a b : nat) (l : list A) : list A := take (b - a) (drop a l).

Definition trimMatrix (displ : ndarray) : result ndarray :=
  match shape displ with
  | [n; m] =>
      let rows := Np.rows n m (data displ) in
      let '(r1, r2) := bounds (map holds_data rows) in
      let '(c1, c2) := bounds (map (fun j => holds_data (column rows j)) (seq 0 m)) in
      Ok (NdArray (dt displ) [(r2 - r1)%nat; (c2 - c1)%nat]
                  (concat (map (slice c1 c2) (slice r1 r2 rows))))
  | _ => Raise TypeError
  end.

(** ** [class Subject] *)

Section Subject.

(** Listeners are callables, compared as [list.remove] compares them;
    [co_varnames] is [func.__code__.co_varnames], absent for a callable
    without [__code__]. A call acts on a world that does not hold the
    subject, and it returns or raises. *)
Context {listener value world : Type} `{EqDecision listener}.
Variable co_varnames : listener -> option (list string).
Variable call : listener -> list value -> list (string * value) -> world
                -> result unit * world.

Record subject := Subject { _listeners : list listener; _mute : bool }.

Definition __init__ : subject := Subject [] false.

Definition mute (self : subject) : subject := Subject (_listeners self) true.
Definition unmute (self : subject) : subject := Subject (_listeners self) false.

(** [insert(0, listener)] on a list that holds something, [append] on an
    empty one. *)
Definition subscribe (self : subject) (l : listener) : subject :=
  if (0 <? length (_listeners self))%nat
  then Subject (l :: _listeners self) (_mute self)
  else Subject (_listeners self ++ [l]) (_mute self).

(** [list.remove]: the first equal item goes; [None] when there is none. *)
Fixpoint remove (l : listener) (ls : list listener) : option (list listener) :=
  match ls with
  | [] => None
  | x :: ls' => if decide (x = l) then Some ls'
                else option_map (cons x) (remove l ls')
  end.

Definition unsubscribe (self : subject) (l : listener) : result subject :=
  match remove l (_listeners self) with
  | Some ls => Ok (Subject ls (_mute self))
  | None => Raise AttributeError
  end.

(** The keywords [_call] hands on: all of them when each is a variable
    name of the function, none otherwise ([k.pop(k)] on a string is an
    [AttributeError], as is [func.__code__] on a callable without code,
    and the handler empties [kwargs]). *)
Definition passed (func : listener) (kwargs : list (string * value))
  : list (string * value) :=
  match kwargs with
  | [] => []
  | _ :: _ =>
      match co_varnames func with
      | None => []
      | Some names =>
          if forallb (fun k => bool_decide (k ∈ names)) (map fst kwargs)
          then kwargs else []
      end
  end.

Definition _call (func : listener) (args : list value) (kwargs : list (string * value))
  : world -> result unit * world :=
  call func args (passed func kwargs).

Fixpoint for_listeners (ls : list listener) (args : list value)
    (kwargs : list (string * value)) (w : world) : result unit * world :=
  match ls with
  | [] => (Ok tt, w)
  | l :: ls' =>
      match _call l args kwargs w with
      | (Ok _, w') => for_listeners ls' args kwargs w'
      | (Raise e, w') => (Raise e, w')
      end
  end.

Definition notify (self : subject) (args : list value) (kwargs : list (string * value))
    (w : world) : result unit * world :=
  if _mute self then (Ok tt, w)
  else for_listeners (_listeners self) args kwargs w.

End Subject.

End Meta.


(** * Inputs and notions for the statements *)

(** ** Building blocks of the example products *)

Module Product.
Import IEEE.

Definition raw_file (bs : list Byte.byte) : file := File bs [] None None.

(** A line [key: value] of a parameter file whose value [float] takes. *)
Definition line (key : string) (x : spec_float) : option (string * pytext) :=
  Some (key, PyText "" (Some x)).

(** A Gamma parameter file with every required key. *)
Definition par_file (corner_lat corner_lon nlines width post_lat post_lon : spec_float)
  : file :=
  File [] [line "corner_lat" corner_lat; line "corner_lon" corner_lon;
           line "nlines" nlines; line "width" width;
           line "post_lat" post_lat; line "post_lon" post_lon] None None.

(** A 4 x 5 scene: corner at 10N 20E, one degree a pixel, southwards. *)
Definition par_4x5 : file :=
  par_file (of_Z 10) (of_Z 20) (of_Z 4) (of_Z 5) (of_Z (-1)) (of_Z 1).

(** A Gamma product: the directory, the parameter file, the displacement
    grid and whatever side files [sides] lists. *)
Definition gamma (par : file) (disp : list Byte.byte) (sides : filesystem)
  : filesystem :=
  [("/scene", Dir); ("/scene/geo.par", Reg par);
   ("/scene/geo.disp", Reg (raw_file disp))] ++ sides.

Definition side_grids (phi theta : list Byte.byte) : filesystem :=
  [("/scene/geo.phi", Reg (raw_file phi));
   ("/scene/geo.theta", Reg (raw_file theta))].

(** Big-endian binary32 items: 1.0, +0.0 and -0.0. *)
Definition one_be : list Byte.byte := [Byte.x3f; Byte.x80; Byte.x00; Byte.x00].
Definition pzero_be : list Byte.byte := [Byte.x00; Byte.x00; Byte.x00; Byte.x00].
Definition nzero_be : list Byte.byte := [Byte.x80; Byte.x00; Byte.x00; Byte.x00].

Definition items (n : nat) (item : list Byte.byte) : list Byte.byte :=
  concat (replicate n item).

(** The cosine on the only arguments the closed examples give it: their
    angle grids hold zeros, and the cosine of zero is exactly one. The
    table has no other entry. *)
Definition cos_of_zero (d : dtype) (x : spec_float) : spec_float :=
  if is_zero x then cast d (of_Z 1) else nan.

(** One cell of the displacement a decode left in a container. *)
Definition displacement_cell (c : gmap string pyval) (i : nat) : option spec_float :=
  match c !! "displacement" with
  | Some (NpArray a) => data a !! i
  | _ => None
  end.

Definition displacement_shape (c : gmap string pyval) : option (list nat) :=
  match c !! "displacement" with
  | Some (NpArray a) => Some (shape a)
  | _ => None
  end.

(** The container a decode returned, empty when it raised. *)
Definition returned (r : result (gmap string pyval) * state) : gmap string pyval :=
  match fst r with
  | Ok c => c
  | Raise _ => ∅
  end.

End Product.

(** ** Notions used in the statements *)

(** The parameters a file holds after the loop over its lines. *)
Definition params_of (par : file) : gmap string pyval :=
  fold_left Gamma.parse_line (matches par) ∅.

(** Is the exception an [ImportError]? *)
Definition is_ImportError (e : exn) : bool :=
  match e with ImportError _ => true | _ => false end.

(** A result that is no [ImportError]. *)
Definition no_ImportError {A} (r : result A) : Prop :=
  match r with Raise e => is_ImportError e = false | Ok _ => True end.

(** A number, whether Python's or numpy's. *)
Definition as_number (v : pyval) : option spec_float :=
  match v with
  | PyFloat x | NpFloat x => Some x
  | _ => None
  end.

(** [a[a == -0.] = nan] and [a * 1e-2] on one element of dtype [d]. *)
Definition recoded (d : IEEE.dtype) (x : spec_float) : spec_float :=
  IEEE.mul d (if IEEE.eqb x IEEE.nzero then IEEE.nan else x) (IEEE.cast d IEEE.c_1em2).

(** The container [Gamma.read] builds from what its steps deliver. *)
Definition gamma_container (base : gmap string pyval)
    (displ : ndarray) (llLat corner_lon post_lon post_lat : pyval)
    (theta phi : ndarray) : gmap string pyval :=
  <["phi" := NpArray phi]> (<["theta" := NpArray theta]>
  (<["dLat" := post_lat]> (<["dLon" := post_lon]>
  (<["llLon" := corner_lon]> (<["llLat" := llLat]>
  (<["displacement" :=
       NpArray (Np.mul_scalar (Np.set_nan_where_eq IEEE.nzero displ) IEEE.c_1em2)]>
   base)))))).

(** The conversion of the two corners raises [OutOfRangeError]: at the
    lower-left corner, or there not and at the upper-right one. *)
Definition conversion_raises
    (to_latlon : spec_float -> spec_float -> Z -> string
                 -> option (spec_float * spec_float))
    (utm_e utm_n : ndarray) : Prop :=
  exists e_min n_min,
    Np.min utm_e = Ok e_min /\ Np.min utm_n = Ok n_min /\
    (to_latlon e_min n_min 32 "N" = None \/
     exists ll e_max n_max,
       to_latlon e_min n_min 32 "N" = Some ll /\
       Np.max utm_e = Ok e_max /\ Np.max utm_n = Ok n_max /\
       to_latlon e_max n_max 32 "N" = None).

(** The seven fields [SceneIO.__init__] gives the container. *)
Definition fields : list string :=
  ["phi"; "theta"; "displacement"; "llLon"; "llLat"; "dLat"; "dLon"].

(** A method keeps [I] when every run from a state in [I], whether it
    returns or raises, ends in [I]. *)
Definition keeps {A} (I : state -> Prop) (m : M A) : Prop :=
  forall s r s', I s -> m s = (r, s') -> I s'.

(** The frame of a run: the file system is within [R], the container has
    the keys [d], and the log has grown from [log0]. *)
Definition framed (R : filesystem -> Prop) (d : gset string)
    (log0 : list (level * string)) (s : state) : Prop :=
  R (fs s) /\ dom (container s) = d /\ log0 `prefix_of` log s.

(** [fs1] is [fs0] but for the bytes of the regular file at [p]. *)
Definition same_but_bytes (p : string) (fs0 fs1 : filesystem) : Prop :=
  map fst fs1 = map fst fs0 /\
  (forall q, Os.isfile fs1 q = Os.isfile fs0 q) /\
  (forall q, q <> p -> Os.lookup fs1 q = Os.lookup fs0 q).

(** What a matched line of a parameter file stores for its key. *)
Definition line_value (t : pytext) : pyval :=
  match as_float t with
  | Some x => PyFloat x
  | None => PyStr (Str.strip (raw t))
  end.

(** The key a line of a parameter file sets, if the expression matched. *)
Definition line_key (l : option (string * pytext)) : option string :=
  fst <$> l.

(** The parse of [p] ends in an [ImportError]. *)
Definition not_a_par_file (fs : filesystem) (p : string) : Prop :=
  exists args, Gamma._parseParameterFile fs p = Raise (ImportError args).

Definition no_par_file_msg : string :=
  "Could not find suiting Gamma parameter file (*par)".

(** The message of the [ImportError] for unusable dimensions. *)
Definition dims_msg (par_file : string) : string :=
  "Error parsing width and nlines from " +:+ par_file.

(** A binary32 value as an array of dtype [d] holds it. *)
Definition as_stored (d : IEEE.dtype) (x : spec_float) : spec_float :=
  match d with
  | IEEE.f4 => x
  | IEEE.f8 => IEEE.cast IEEE.f8 x
  end.

(** An element [getProperty] passes over when it looks for [name]: it
    carries another name or none, or it is neither a [property] nor a
    [component]. *)
Definition passed_over (name : string) (e : element) : Prop :=
  ISCEXMLParser.get e "name" <> Some name \/
  (ISCEXMLParser.tag_of e <> "property" /\ ISCEXMLParser.tag_of e <> "component").

(** What [getProperty] makes of the element it stops at. *)
Definition property_at (e : element) : result ISCEXMLParser.property :=
  if String.eqb (ISCEXMLParser.tag_of e) "property" then
    match ISCEXMLParser.value_of e with
    | Ok v => Ok (ISCEXMLParser.Scalar v)
    | Raise x => Raise x
    end
  else
    match ISCEXMLParser.collect
            (List.filter (fun p => String.eqb (ISCEXMLParser.tag_of p) "property")
                         (ISCEXMLParser.iter e)) ∅ with
    | Ok values => Ok (ISCEXMLParser.Component values)
    | Raise x => Raise x
    end.

(** The file system after the masked NaN assignment of [ISCE.read] on the
    file at [p], whose reshaped items are [mapped]. *)
Definition after_store (fs0 : filesystem) (p : string) (f : file)
    (mapped : ndarray) (nlon : Z) : filesystem :=
  Os.write fs0 p (store_nan LittleEndian (ISCE.view_mask mapped nlon IEEE.pzero) (bytes f)).

(** A variable of a [.mat] file that never binds [utm_e], and that binds
    [utm_n] only from an array. *)
Definition no_easting (kv : string * pyval) : Prop :=
  Str.contains "xx" (fst kv) = false /\
  (Str.contains "yy" (fst kv) = true -> is_ok (Np.flatten (snd kv)) = true).

(** What the loop of [trimMatrix] knows after the indices below [r]:
    [r2], once set, is the last index that held data, and [r1] was set
    before it, from an index other than 0. *)
Definition scanned (all : list bool) (r : nat) (b : nat * nat) : Prop :=
  ((0 < snd b)%nat ->
   (0 < fst b < snd b)%nat /\ (snd b < r)%nat /\ all !! snd b = Some true /\
   forall i, (snd b < i < r)%nat -> all !! i = Some false) /\
  ((0 < fst b)%nat -> (fst b < r)%nat /\ all !! fst b = Some true).


(** ** Products used in the closed examples *)

(** A parameter file without [nlines] and [width]. *)
Definition par_without_dims : file :=
  File [] [Product.line "corner_lat" (IEEE.of_Z 10); None;
           Product.line "corner_lon" (IEEE.of_Z 20);
           Product.line "post_lat" (IEEE.of_Z (-1));
           Product.line "post_lon" (IEEE.of_Z 1)] None None.

(** A directory that is no Gamma product, but holds a sub-directory whose
    name ends in [par]. *)
Definition dir_with_par_dir : filesystem :=
  [("/data", Dir); ("/data/par", Dir);
   ("/data/scene.bin", Reg (Product.raw_file (Product.items 20 Product.one_be)))].

(** An ISCE product. *)
Module IsceProduct.
Import IEEE.

Definition number (n : Z) : option pytext := Some (PyText "" (Some (of_Z n))).

Definition property_node (name : string) (text : option pytext) : element :=
  Element "property" [("name", name)] None [Element "value" [] text []].

Definition coordinate (name : string) (size start delta : Z) : element :=
  Element "component" [("name", name)] None
    [property_node "delta" (number delta); property_node "size" (number size);
     property_node "startingvalue" (number start)].

(** Two columns from 10E eastwards, two lines from 50N southwards: the
    latitude [delta] is negative. *)
Definition metadata : element :=
  Element "imageFile" [] None
    [property_node "width" (number 2);
     coordinate "coordinate1" 2 10 1;
     coordinate "coordinate2" 2 50 (-1)].

(** Little-endian binary32 items. *)
Definition one_le : list Byte.byte := [Byte.x00; Byte.x00; Byte.x80; Byte.x3f].
Definition pzero_le : list Byte.byte := [Byte.x00; Byte.x00; Byte.x00; Byte.x00].

(** Two lines of two bands of two items; the displacement band is the
    right one, and its first cell on the first line is 0.0. *)
Definition unw : list Byte.byte :=
  one_le ++ one_le ++ pzero_le ++ one_le ++
  one_le ++ one_le ++ one_le ++ one_le.

Definition without_los : filesystem :=
  [("/isce", Dir);
   ("/isce/filt.unw.geo", Reg (File unw [] None None));
   ("/isce/filt.unw.geo.xml", Reg (File [] [] (Some metadata) None))].

Definition with_los : filesystem :=
  without_los ++ [("/isce/los.rdr.geo", Reg (File unw [] None None))].

End IsceProduct.

(** The 4 x 5 Gamma scene on concrete files. *)
Module Scene.
Import Product.

(** Twenty items 1.0, and angle grids of twenty zeros. *)
Definition ones : list Byte.byte := items 20 one_be.
Definition zeros (n : nat) : list Byte.byte := items n pzero_be.

(** The same scene with +0.0 as first item and -0.0 as second. *)
Definition with_zeros : list Byte.byte := pzero_be ++ nzero_be ++ items 18 one_be.

Definition complete (disp : list Byte.byte) : filesystem :=
  gamma par_4x5 disp (side_grids (zeros 20) (zeros 20)).

Definition start (fs0 : filesystem) : state := SceneIO_init fs0.

End Scene.

(** A Matlab file outside the UTM range. *)
Module MatProduct.
Import IEEE.

(** The range check of [utm.to_latlon]: the easting must lie in
    [100000, 1000000) and the northing in [0, 10000000]. The closed
    examples give it points it refuses; of the projection itself this
    instance holds nothing. *)
Definition to_latlon_range (e n : spec_float) (zone : Z) (letter : string)
  : option (spec_float * spec_float) :=
  if negb (ltb e (of_Z 100000)) && ltb e (of_Z 1000000)
     && SFleb (of_Z 0) n && SFleb n (of_Z 10000000)
  then Some (nan, nan)
  else None.

Definition grid (xs : list Z) : pyval :=
  NpArray (NdArray f8 [2%nat; 2%nat] (map of_Z xs)).

(** A 2 x 2 interferogram on a coordinate mesh: [xx] changes along a row,
    [yy] from one row to the next. Eastings of 2000 km are out of range. *)
Definition mesh : list (string * pyval) :=
  [("__header__", PyStr "MATLAB 5.0 MAT-file");
   ("ig_unw", grid [1; 2; 3; 4]);
   ("xx", grid [2000000; 2000100; 2000000; 2000100]);
   ("yy", grid [5000000; 5000000; 5000100; 5000100])].

Definition files : filesystem :=
  [("/mat", Dir); ("/mat/scene.mat", Reg (File [] [] None (Some mesh)))].

Definition run : result (gmap string pyval) * state :=
  Matlab.read to_latlon_range "/mat/scene.mat" (SceneIO_init files).

End MatProduct.

(** A parameter file whose [width] is a NaN. *)
Definition par_nan_width : file :=
  Product.par_file (IEEE.of_Z 10) (IEEE.of_Z 20) (IEEE.of_Z 4) IEEE.nan
                   (IEEE.of_Z (-1)) (IEEE.of_Z 1).

(** A parameter file of three lines of five, for a file of twenty items. *)
Definition par_3x5 : file :=
  Product.par_file (IEEE.of_Z 10) (IEEE.of_Z 20) (IEEE.of_Z 3) (IEEE.of_Z 5)
                   (IEEE.of_Z (-1)) (IEEE.of_Z 1).

(** A parameter file that gives [width] twice. *)
Definition par_width_twice : file :=
  File [] [Product.line "width" (IEEE.of_Z 5); Product.line "width" (IEEE.of_Z 7);
           Product.line "nlines" (IEEE.of_Z 4)] None None.

(** Two candidates for the parameter file, of which the second parses. *)
Definition two_par_files : filesystem :=
  [("/scene", Dir); ("/scene/a.par", Reg par_without_dims);
   ("/scene/b.par", Reg Product.par_4x5);
   ("/scene/geo.disp", Reg (Product.raw_file Scene.ones))].

(** No parameter file that parses beside the grid, a good one elsewhere. *)
Definition par_file_elsewhere : filesystem :=
  [("/scene", Dir); ("/scene/a.par", Reg par_without_dims);
   ("/scene/geo.disp", Reg (Product.raw_file Scene.ones));
   ("/meta", Dir); ("/meta/geo.par", Reg Product.par_4x5)].

(** An ISCE product whose metadata has no [coordinate2]. *)
Definition isce_without_lat : filesystem :=
  [("/isce", Dir);
   ("/isce/filt.unw.geo", Reg (File IsceProduct.unw [] None None));
   ("/isce/filt.unw.geo.xml",
    Reg (File [] []
           (Some (Element "imageFile" [] None
                    [IsceProduct.coordinate "coordinate1" 2 10 1])) None))].

(** Matlab files: one without [xx], one within the UTM range. *)
Definition mat_without_xx : filesystem :=
  [("/mat", Dir);
   ("/mat/scene.mat",
    Reg (File [] [] None
           (Some [("__header__", PyStr "MATLAB 5.0 MAT-file");
                  ("ig_unw", MatProduct.grid [1; 2; 3; 4]);
                  ("yy", MatProduct.grid [5000000; 5000000; 5000100; 5000100])])))].

Definition mesh_in_range : list (string * pyval) :=
  [("ig_unw", MatProduct.grid [1; 2; 3; 4]);
   ("xx", MatProduct.grid [500000; 500100; 500000; 500100]);
   ("yy", MatProduct.grid [5000000; 5000000; 5000100; 5000100])].

Definition mat_in_range : filesystem :=
  [("/mat", Dir); ("/mat/scene.mat", Reg (File [] [] None (Some mesh_in_range)))].

(** A GMTSAR product. *)
Module GmtProduct.
Import IEEE.

(** The magic number of a netCDF file, version 2. *)
Definition grd_bytes : list Byte.byte := [Byte.x43; Byte.x44; Byte.x46; Byte.x02].

(** A 2 x 2 grid between 50N and 51N, 10E and 11E. *)
Definition variables : gmap string ndarray :=
  <["z" := NdArray f4 [2%nat; 2%nat] (map (fun n => cast f4 (of_Z n)) [1; 2; 3; 4])]>
  (<["lat" := NdArray f8 [2%nat] (map of_Z [50; 51])]>
  (<["lon" := NdArray f8 [2%nat] (map of_Z [10; 11])]> ∅)).

(** The parser on the one grid of the closed examples; the table has no
    other entry. *)
Definition netcdf_file (bs : list Byte.byte) : result (gmap string ndarray) :=
  if bool_decide (map byteZ bs = map byteZ grd_bytes) then Ok variables
  else Raise TypeError.

(** A stand-in for the functions of the library in the closed examples,
    which only look at where their results go. *)
Definition unchanged (d : dtype) (x : spec_float) : spec_float := x.

(** Four LOS records of six items; east, north and up are all 1.0. *)
Definition record : list Byte.byte :=
  Product.pzero_be ++ Product.pzero_be ++ Product.pzero_be
  ++ IsceProduct.one_le ++ IsceProduct.one_le ++ IsceProduct.one_le.

Definition without_los : filesystem :=
  [("/gmt", Dir); ("/gmt/unwrap_ll.grd", Reg (Product.raw_file grd_bytes))].

Definition with_los : filesystem :=
  without_los
  ++ [("/gmt/look.los.enu", Reg (Product.raw_file (concat (replicate 4 record))))].

End GmtProduct.

(** A 3 x 3 matrix of ones. *)
Definition ones_3x3 : ndarray :=
  NdArray IEEE.f8 [3%nat; 3%nat] (replicate 9 (IEEE.of_Z 1)).


(** * Properties of the readers *)

(** ** The numeric and path layers on known values *)

(** The literal [1e-2] is the binary64 nearest to 1/100, and [0.01] in
    binary32 is [0x3C23D70A]. *)
Example literal_1em2 :
  IEEE.div IEEE.f8 (IEEE.of_Z 1) (IEEE.of_Z 100) = IEEE.c_1em2 /\
  IEEE.cast IEEE.f4 IEEE.c_1em2 = IEEE.f4_of_bits 0x3C23D70A.
Proof. split; vm_compute; reflexivity. Qed.

Example decode_items :
  frombuffer BigEndian (Product.one_be ++ Product.nzero_be ++ [Byte.x00])
  = [IEEE.cast IEEE.f4 (IEEE.of_Z 1); IEEE.nzero] /\
  frombuffer LittleEndian (nan_bytes LittleEndian) = [IEEE.nan] /\
  frombuffer BigEndian (nan_bytes BigEndian) = [IEEE.nan].
Proof. repeat split; vm_compute; reflexivity. Qed.

(** IEEE equality does not see the sign of a zero, and no NaN equals
    anything. *)
Example zero_equality :
  IEEE.eqb IEEE.pzero IEEE.nzero = true /\
  IEEE.eqb IEEE.nzero IEEE.pzero = true /\
  IEEE.eqb IEEE.nan IEEE.nan = false.
Proof. repeat split; reflexivity. Qed.

Example int_truncates :
  Py.int (PyFloat (IEEE.div IEEE.f8 (IEEE.of_Z (-5)) (IEEE.of_Z 2))) = Ok (-2) /\
  Py.int (PyFloat (IEEE.of_Z 4)) = Ok 4 /\
  Py.int (PyFloat IEEE.nan) = Raise ValueError.
Proof. repeat split; vm_compute; reflexivity. Qed.

Example paths_and_patterns :
  Path.dirname "/scene/geo.disp" = "/scene" /\
  Path.basename "/scene/geo.disp" = "geo.disp" /\
  Path.join "/isce" "*.rdr.geo" = "/isce/*.rdr.geo" /\
  Str.fnmatch "*par" "geo.par" = true /\
  Str.fnmatch "*phi*" "geo.disp" = false /\
  Str.fnmatch "*.rdr.geo" "los.rdr.geo" = true /\
  Str.last_chars 4 "scene.mat" = ".mat" /\
  Str.strip "  UTM  " = "UTM".
Proof. repeat split; reflexivity. Qed.

Example glob_scene :
  let fs0 := Scene.complete Scene.ones in
  Os.glob fs0 "/scene/*par" = ["/scene/geo.par"] /\
  Os.glob fs0 "/scene/*phi*" = ["/scene/geo.phi"] /\
  Os.glob fs0 "/scene/*theta*" = ["/scene/geo.theta"] /\
  Os.glob fs0 "/scene/*.rdr.geo" = [] /\
  Os.glob fs0 "/elsewhere/*par" = [].
Proof. repeat split; vm_compute; reflexivity. Qed.

(** ** The monad *)

Lemma bind_ok {A B} (m : M A) (k : A -> M B) s a s' :
  m s = (Ok a, s') -> bind m k s = k a s'.
Proof. intros H. unfold bind. now rewrite H. Qed.

Lemma bind_raise {A B} (m : M A) (k : A -> M B) s e s' :
  m s = (Raise e, s') -> bind m k s = (Raise e, s').
Proof. intros H. unfold bind. now rewrite H. Qed.

Lemma bind_inv {A B} (m : M A) (k : A -> M B) s r s' :
  bind m k s = (r, s') ->
  (exists a s1, m s = (Ok a, s1) /\ k a s1 = (r, s')) \/
  (exists e, m s = (Raise e, s') /\ r = Raise e).
Proof.
  unfold bind. destruct (m s) as [[a|e] s1]; intros H.
  - left. eauto.
  - right. exists e. now inversion H.
Qed.

Lemma bind_inv_ok {A B} (m : M A) (k : A -> M B) s b s' :
  bind m k s = (Ok b, s') ->
  exists a s1, m s = (Ok a, s1) /\ k a s1 = (Ok b, s').
Proof.
  intros H. destruct (bind_inv _ _ _ _ _ H) as [?|(e & _ & ?)]; [assumption | discriminate].
Qed.

Lemma lift_inv {A} (r : result A) s r' s' :
  lift r s = (r', s') -> r' = r /\ s' = s.
Proof. unfold lift. intros H. now inversion H. Qed.

Lemma reading_inv {A} (f : filesystem -> result A) s r s' :
  reading f s = (r, s') -> r = f (fs s) /\ s' = s.
Proof. unfold reading. intros H. now inversion H. Qed.

(** ** C8: the required keys of a Gamma parameter file *)

(** The required keys are checked in their declared order, and the check
    stops at the first one that is absent. *)
Lemma check_required_first_missing rs (params : gmap string pyval) r :
  List.find (fun k => bool_decide (params !! k = None)) rs = Some r ->
  Gamma.check_required rs params = Raise (ImportError [Gamma.missing_msg r]).
Proof.
  induction rs as [|k rs IH]; simpl; [discriminate|].
  destruct (params !! k) eqn:Hk.
  - rewrite bool_decide_eq_false_2 by discriminate. exact IH.
  - rewrite bool_decide_eq_true_2 by reflexivity. intros [= <-]. reflexivity.
Qed.

Lemma check_required_none_missing rs (params : gmap string pyval) :
  List.find (fun k => bool_decide (params !! k = None)) rs = None ->
  Gamma.check_required rs params = Ok tt.
Proof.
  induction rs as [|k rs IH]; simpl; [reflexivity|].
  destruct (params !! k) eqn:Hk.
  - rewrite bool_decide_eq_false_2 by discriminate. exact IH.
  - rewrite bool_decide_eq_true_2 by reflexivity. discriminate.
Qed.


(** C8, as the code has it: when a parameter file lacks required keys, the
    [ImportError] of [_parseParameterFile] carries one message, and that
    message names the first absent key in the order corner_lat, corner_lon,
    nlines, width, post_lat, post_lon. *)
Theorem C8_error_names_first_missing_key fs par_file par r :
  Os.open fs par_file = Ok par ->
  List.find (fun k => bool_decide (params_of par !! k = None)) Gamma.required = Some r ->
  Gamma._parseParameterFile fs par_file
  = Raise (ImportError ["Parameter file does not hold required parameter " +:+ r]).
Proof.
  intros Hopen Hfind. unfold Gamma._parseParameterFile. rewrite Hopen.
  fold (params_of par).
  now rewrite (check_required_first_missing _ _ _ Hfind).
Qed.


Lemma C8_witness :
  Gamma._parseParameterFile (Product.gamma par_without_dims [] []) "/scene/geo.par"
  = Raise (ImportError ["Parameter file does not hold required parameter nlines"]).
Proof.
  apply (C8_error_names_first_missing_key _ _ par_without_dims "nlines");
    vm_compute; reflexivity.
Defined.

(** Two required keys are absent from that file, [nlines] and [width]; the
    error names [nlines] and says nothing of [width]. *)
Lemma C8_counterexample :
  params_of par_without_dims !! "nlines" = None /\
  params_of par_without_dims !! "width" = None /\
  exists msg,
    Gamma._parseParameterFile (Product.gamma par_without_dims [] []) "/scene/geo.par"
    = Raise (ImportError [msg]) /\
    Str.contains "nlines" msg = true /\
    Str.contains "width" msg = false.
Proof.
  split; [vm_compute; reflexivity|]. split; [vm_compute; reflexivity|].
  eexists. split; [vm_compute; reflexivity|]. split; vm_compute; reflexivity.
Qed.


(** ** C9: the probes *)

(** [Matlab.validate] looks at the name only. *)
Lemma Matlab_validate_pure filename s :
  exists b, Matlab.validate filename s = (Ok b, s).
Proof.
  unfold Matlab.validate.
  destruct (String.eqb _ _); eexists; reflexivity.
Qed.

(** [ISCE.validate] and [GMTSAR.validate] answer with a boolean and leave
    the reader and the file system as they were. *)
Lemma ISCE_validate_pure filename s :
  exists b, ISCE.validate filename s = (Ok b, s).
Proof.
  unfold ISCE.validate, except_ImportError, bind, reading, ret.
  unfold ISCE._getDisplacementFile, ISCE._getLOSFile.
  repeat (case_match; simplify_eq/=); eauto.
Qed.

Lemma GMTSAR_validate_pure filename s :
  exists b, GMTSAR.validate filename s = (Ok b, s).
Proof.
  unfold GMTSAR.validate, except_ImportError, bind, reading, ret.
  unfold GMTSAR._getDisplacementFile.
  repeat (case_match; simplify_eq/=); eauto.
Qed.

(** The search for a parameter file writes to the log only. *)
Lemma first_par_file_frame files s r s' :
  Gamma.first_par_file files s = (r, s') ->
  container s' = container s /\ fs s' = fs s.
Proof.
  revert s. induction files as [|file rest IH]; intros s; simpl.
  - unfold raise. intros [= _ <-]. auto.
  - unfold except_ImportError, bind, reading, emit, ret. simpl.
    destruct (Gamma._parseParameterFile (fs s) file) as [par|e]; simpl.
    + intros [= _ <-]. auto.
    + destruct e; try (intros [= _ <-]; auto). apply IH.
Qed.

Lemma pop_par_file_frame kwargs filename s r s' :
  Gamma.pop_par_file kwargs filename s = (r, s') ->
  container s' = container s /\ fs s' = fs s.
Proof.
  unfold Gamma.pop_par_file, Gamma._getParameterFile, bind, reading, ret. simpl.
  destruct (Gamma.first_par_file _ s) as [[found|e] s1] eqn:H;
    apply first_par_file_frame in H; intros [= _ <-]; exact H.
Qed.

(** [Gamma.validate] changes neither the container nor the file system,
    whatever it returns or raises. *)
Lemma Gamma_validate_frame filename kwargs s r s' :
  Gamma.validate filename kwargs s = (r, s') ->
  container s' = container s /\ fs s' = fs s.
Proof.
  unfold Gamma.validate, except_ImportError, bind, reading, ret.
  destruct (Gamma.pop_par_file kwargs filename s) as [[par_file|e] s1] eqn:H;
    apply pop_par_file_frame in H.
  - simpl. destruct (Gamma._parseParameterFile (fs s1) par_file) as [par|e].
    + intros [= _ <-]. exact H.
    + destruct e; intros [= _ <-]; exact H.
  - destruct e; intros [= _ <-]; exact H.
Qed.

(** On a regular file, [_parseParameterFile] raises nothing but
    [ImportError]. *)
Lemma parse_raises_ImportError fs p e :
  Os.isfile fs p = true ->
  Gamma._parseParameterFile fs p = Raise e -> is_ImportError e = true.
Proof.
  unfold Os.isfile, Gamma._parseParameterFile, Os.open.
  destruct (Os.lookup fs p) as [[|f]|]; try discriminate. intros _.
  generalize (fold_left Gamma.parse_line (matches f) ∅). intros params.
  generalize Gamma.required. intros rs.
  induction rs as [|r rs IH]; simpl; [discriminate|].
  destruct (params !! r); [exact IH|]. intros [= <-]. reflexivity.
Qed.

(** Over regular files, the scan for a parameter file ends with a file
    that parses or with an [ImportError]. *)
Lemma first_par_file_outcome files s r s' :
  (forall p, In p files -> Os.isfile (fs s) p = true) ->
  Gamma.first_par_file files s = (r, s') ->
  (exists file par, r = Ok file /\ Gamma._parseParameterFile (fs s) file = Ok par) \/
  (exists args, r = Raise (ImportError args)).
Proof.
  revert s. induction files as [|file rest IH]; intros s Hfiles; simpl.
  - unfold raise. intros [= <- _]. eauto.
  - unfold except_ImportError, bind, reading, emit, ret. cbn [fs].
    destruct (Gamma._parseParameterFile (fs s) file) as [par|e] eqn:Hparse.
    + intros [= <- _]. eauto.
    + apply parse_raises_ImportError in Hparse; [|apply Hfiles; left; reflexivity].
      destruct e; try discriminate.
      apply IH. intros p Hp. apply Hfiles. right. exact Hp.
Qed.

(** When every entry the glob for [*par] returns is a regular file,
    [Gamma.validate] answers with a boolean. *)
Lemma Gamma_validate_total filename s :
  (forall p, In p (Os.glob (fs s) (Path.dirname (Path.realpath filename) +:+ "/*par")) ->
             Os.isfile (fs s) p = true) ->
  exists b s', Gamma.validate filename None s = (Ok b, s').
Proof.
  intros Hfiles.
  unfold Gamma.validate, except_ImportError, Gamma.pop_par_file,
    Gamma._getParameterFile, bind at 1 2 3, reading at 1, ret at 1.
  destruct (Gamma.first_par_file _ s) as [r s1] eqn:Hfirst.
  pose proof (first_par_file_frame _ _ _ _ Hfirst) as [_ Hfs].
  destruct (first_par_file_outcome _ _ _ _ Hfiles Hfirst)
    as [(file & par & -> & Hparse) | (args & ->)].
  - unfold bind, reading, ret. cbn [default]. rewrite Hfs, Hparse. eauto.
  - eauto.
Qed.

(** C9, at the input where the code departs from it: the glob for [*par]
    returns the sub-directory, opening it is an [IOError], and
    [Gamma.validate] catches [ImportError] only, so the probe raises
    instead of answering [False]. The container and the file system are
    left as they were. *)
Theorem C9_gamma_validate_raises :
  Os.glob dir_with_par_dir "/data/*par" = ["/data/par"] /\
  exists s',
    Gamma.validate "/data/scene.bin" None (SceneIO_init dir_with_par_dir)
    = (Raise IOError, s') /\
    container s' = empty_container /\ fs s' = dir_with_par_dir.
Proof.
  split; [vm_compute; reflexivity|].
  eexists. split; [vm_compute; reflexivity|]. split; reflexivity.
Qed.


(** ** ISCE: C5, C6 and C10 *)

(** *** The file system under a write *)

Lemma write_paths fs p bs : map fst (Os.write fs p bs) = map fst fs.
Proof.
  induction fs as [|[q n] fs IH]; simpl; [reflexivity|].
  destruct (String.eqb q p); simpl; [reflexivity | now rewrite IH].
Qed.

Lemma write_isdir fs p bs q : Os.isdir (Os.write fs p bs) q = Os.isdir fs q.
Proof.
  unfold Os.isdir. induction fs as [|[q' n] fs IH]; simpl; [reflexivity|].
  destruct (String.eqb q' p) eqn:Hp; simpl.
  - destruct (String.eqb q' q); [destruct n; reflexivity | reflexivity].
  - destruct (String.eqb q' q); [reflexivity | exact IH].
Qed.

Lemma filter_paths_write (P : string -> bool) fs p bs :
  map fst (List.filter (fun '(q, _) => P q) (Os.write fs p bs))
  = map fst (List.filter (fun '(q, _) => P q) fs).
Proof.
  induction fs as [|[q n] fs IH]; simpl; [reflexivity|].
  destruct (String.eqb q p); simpl.
  - destruct (P q); reflexivity.
  - destruct (P q); simpl; now rewrite IH.
Qed.

Lemma write_glob fs p bs pat : Os.glob (Os.write fs p bs) pat = Os.glob fs pat.
Proof.
  unfold Os.glob. rewrite write_isdir.
  destruct (Os.isdir fs _); [|reflexivity].
  apply (filter_paths_write
           (fun q => String.eqb (Path.dirname q) (Path.dirname pat)
                     && negb (String.eqb q (Path.dirname pat))
                     && negb (Os.hidden (Path.basename q))
                     && Str.fnmatch (Path.basename pat) (Path.basename q))).
Qed.

(** *** Which exceptions the steps of [ISCE.read] can raise *)


Lemma collect_no_ImportError props values :
  no_ImportError (ISCEXMLParser.collect props values).
Proof.
  revert values. induction props as [|p props IH]; intros values; simpl; [exact I|].
  unfold ISCEXMLParser.value_of, ISCEXMLParser.type_convert.
  repeat case_match; simplify_eq/=; try reflexivity; apply IH.
Qed.

Lemma getProperty_no_ImportError root name :
  no_ImportError (ISCEXMLParser.getProperty root name).
Proof.
  unfold ISCEXMLParser.getProperty.
  induction (ISCEXMLParser.iter root) as [|child rest IH]; simpl; [exact I|].
  repeat case_match; simplify_eq/=; try exact IH; try exact I.
  - unfold ISCEXMLParser.value_of, ISCEXMLParser.type_convert in *.
    repeat case_match; simplify_eq/=; reflexivity.
  - match goal with H : ISCEXMLParser.collect ?p ?v = Raise _ |- _ =>
      pose proof (collect_no_ImportError p v) as Hc; rewrite H in Hc; exact Hc end.
Qed.

Lemma parse_no_ImportError fs p : no_ImportError (ISCEXMLParser.parse fs p).
Proof.
  unfold ISCEXMLParser.parse, Os.open. repeat case_match; simplify_eq/=; done.
Qed.

Lemma subscript_no_ImportError p k : no_ImportError (ISCEXMLParser.subscript p k).
Proof. unfold ISCEXMLParser.subscript. repeat case_match; simplify_eq/=; done. Qed.

Lemma np_abs_no_ImportError v : no_ImportError (Py.np_abs v).
Proof. destruct v; done. Qed.

Lemma int_no_ImportError v : no_ImportError (Py.int v).
Proof. unfold Py.int. repeat case_match; simplify_eq/=; done. Qed.

Lemma mul_int_no_ImportError v n : no_ImportError (Py.mul_int v n).
Proof. destruct v; done. Qed.

Lemma add_no_ImportError a b : no_ImportError (Py.add a b).
Proof. destruct a, b; done. Qed.

Lemma memmap_no_ImportError fs p bo : no_ImportError (Os.memmap fs p bo).
Proof. unfold Os.memmap, Os.open. repeat case_match; simplify_eq/=; done. Qed.

Lemma fromfile_no_ImportError fs p bo : no_ImportError (Os.fromfile fs p bo).
Proof. unfold Os.fromfile, Os.open. repeat case_match; simplify_eq/=; done. Qed.

Lemma reshape_no_ImportError a d1 d2 : no_ImportError (Np.reshape a d1 d2).
Proof. unfold Np.reshape. repeat case_match; simplify_eq/=; done. Qed.

Lemma cols_from_no_ImportError a k : no_ImportError (Np.cols_from a k).
Proof. unfold Np.cols_from. repeat case_match; simplify_eq/=; done. Qed.

Lemma cols_upto_no_ImportError a k : no_ImportError (Np.cols_upto a k).
Proof. unfold Np.cols_upto. repeat case_match; simplify_eq/=; done. Qed.

(** The errors of [_getDisplacementFile] are [ImportError]s, with messages
    of their own. *)
Lemma getDisplacementFile_not_los fs path :
  ISCE._getDisplacementFile fs path <> Raise (ImportError [ISCE.los_msg]).
Proof.
  unfold ISCE._getDisplacementFile, ISCE.los_msg.
  repeat case_match; simplify_eq/=; discriminate.
Qed.

Lemma no_ImportError_raise {A} (r : result A) a :
  no_ImportError r -> r = Raise (ImportError a) -> False.
Proof. intros H ->. discriminate H. Qed.

Create HintDb no_import.
#[local] Hint Resolve getProperty_no_ImportError parse_no_ImportError
  subscript_no_ImportError np_abs_no_ImportError int_no_ImportError
  mul_int_no_ImportError add_no_ImportError memmap_no_ImportError
  fromfile_no_ImportError reshape_no_ImportError cols_from_no_ImportError
  cols_upto_no_ImportError : no_import.

Lemma setitem_inv k v s r s' :
  setitem k v s = (r, s') ->
  r = Ok tt /\ s' = State (<[k := v]> (container s)) (log s) (fs s).
Proof. unfold setitem. intros [= <- <-]. auto. Qed.

Lemma store_through_inv p bo mask s r s' :
  ISCE.store_through p bo mask s = (r, s') ->
  (exists f, Os.open (fs s) p = Ok f /\ r = Ok tt /\
             s' = State (container s) (log s)
                        (Os.write (fs s) p (store_nan bo mask (bytes f)))) \/
  (r = Raise IOError /\ s' = s).
Proof.
  unfold ISCE.store_through, set_fs, Os.open.
  destruct (Os.lookup (fs s) p) as [[|f]|]; intros [= <- <-]; eauto.
Qed.


(** The step raised, and what it raised is no [ImportError]. *)
Ltac early H1 :=
  split; [reflexivity|];
  intros [= ->]; exfalso;
  first [ refine (no_ImportError_raise _ _ _ (eq_sym H1)); solve [auto with no_import]
        | exact (getDisplacementFile_not_los _ _ (eq_sym H1)) ].

(** One step of a method body: either it raised, or it went on. *)
Ltac step H :=
  let H1 := fresh "Hstep" in
  apply bind_inv in H as [(? & ? & H1 & H) | (? & H1 & ->)];
  [ first [ apply setitem_inv in H1 as [_ ->]
          | apply lift_inv in H1 as [H1 ->]
          | apply reading_inv in H1 as [H1 ->]
          | idtac ]
  | first [ apply setitem_inv in H1 as [[=] _]
          | apply lift_inv in H1 as [H1 ->]; try early H1
          | apply reading_inv in H1 as [H1 ->]; try early H1
          | idtac ] ].


(** *** Lists, rows and columns *)

Lemma lookup_map {A B} (f : A -> B) (l : list A) (i : nat) :
  map f l !! i = f <$> (l !! i).
Proof.
  revert i. induction l as [|x l IH]; intros [|i]; simpl; auto.
Qed.

Lemma length_rows_concat_drop r w b xs :
  (b <= w)%nat -> (r * w <= length xs)%nat ->
  length (concat (map (drop b) (Np.rows r w xs))) = (r * (w - b))%nat.
Proof.
  intros Hb. revert xs. induction r as [|r IH]; intros xs Hlen; simpl; [reflexivity|].
  rewrite length_app, length_drop, length_take, IH.
  - simpl in Hlen. lia.
  - rewrite length_drop. simpl in Hlen. lia.
Qed.

(** Cell [(i, j)] of [a[:, b:]] is cell [(i, b + j)] of [a]. *)
Lemma rows_drop_lookup r w b xs i j :
  (b <= w)%nat -> (r * w <= length xs)%nat -> (i < r)%nat -> (j < w - b)%nat ->
  concat (map (drop b) (Np.rows r w xs)) !! (i * (w - b) + j)%nat
  = xs !! (i * w + b + j)%nat.
Proof.
  intros Hb. revert xs i. induction r as [|r IH]; intros xs i Hlen Hi Hj; [lia|].
  simpl in Hlen. simpl.
  assert (Hrow : length (drop b (take w xs)) = (w - b)%nat).
  { rewrite length_drop, length_take. lia. }
  destruct i as [|i]; simpl.
  - rewrite lookup_app_l by (rewrite Hrow; lia).
    rewrite lookup_drop, lookup_take_lt by lia. reflexivity.
  - rewrite lookup_app_r by (rewrite Hrow; nia). rewrite Hrow.
    replace (w - b + i * (w - b) + j - (w - b))%nat with (i * (w - b) + j)%nat by nia.
    rewrite IH; [|rewrite length_drop; lia|lia|lia].
    rewrite lookup_drop. f_equal. lia.
Qed.

Lemma reshape_inv a d1 d2 a' :
  Np.reshape a d1 d2 = Ok a' ->
  exists r w,
    a' = NdArray (dt a) [r; w] (data a) /\
    (r * w)%nat = length (data a) /\
    (d2 <> -1 -> 0 <= d2 /\ w = Z.to_nat d2).
Proof.
  unfold Np.reshape, Np.size.
  repeat case_match; intros [= <-]; do 2 eexists; (split; [reflexivity|]);
    repeat match goal with
           | H : _ || _ = false |- _ => apply orb_false_iff in H as [? ?]
           | H : _ && _ = true |- _ => apply andb_true_iff in H as [? ?]
           | H : _ && _ = false |- _ => apply andb_false_iff in H
           end; split; try lia.
  - assert (0 < d2) by lia.
    pose proof (Z.div_mod (Z.of_nat (length (data a))) d2).
    pose proof (Z.div_pos (Z.of_nat (length (data a))) d2).
    rewrite <- Z2Nat.inj_mul by lia. lia.
  - assert (0 < d1) by lia.
    pose proof (Z.div_mod (Z.of_nat (length (data a))) d1).
    pose proof (Z.div_pos (Z.of_nat (length (data a))) d1).
    rewrite <- Z2Nat.inj_mul by lia. lia.
Qed.

Ltac step_ok H :=
  let H1 := fresh "Hstep" in
  apply bind_inv_ok in H as (? & ? & H1 & H);
  first [ apply setitem_inv in H1 as [_ ->]
        | apply lift_inv in H1 as [H1 ->]
        | apply reading_inv in H1 as [H1 ->]
        | idtac ].

Lemma memmap_inv fs p bo a :
  Os.memmap fs p bo = Ok a ->
  exists f, Os.open fs p = Ok f /\ a = Np.flat IEEE.f4 (frombuffer bo (bytes f)).
Proof.
  unfold Os.memmap. destruct (Os.open fs p) as [f|e]; [|discriminate].
  case_match; [discriminate|]. intros [= <-]. eauto.
Qed.


Lemma np_abs_inv v w :
  Py.np_abs v = Ok w -> exists x, as_number v = Some x /\ w = NpFloat (SFabs x).
Proof. destruct v; simpl; intros [= <-]; eauto. Qed.

(** What a successful [ISCE.read] went through, and what it left in the
    container it returns. *)
Lemma ISCE_read_inv path s c s' :
  ISCE.read path s = (Ok c, s') ->
  exists disp_file root coord_lon coord_lat v_lon v_lat dLon dLat f nlon nlat
         mapped displacement,
    ISCE._getDisplacementFile (fs s) path = Ok disp_file /\
    ISCEXMLParser.parse (fs s) (disp_file +:+ ".xml") = Ok root /\
    ISCEXMLParser.getProperty root "coordinate1" = Ok coord_lon /\
    ISCEXMLParser.getProperty root "coordinate2" = Ok coord_lat /\
    ISCEXMLParser.subscript coord_lon "delta" = Ok v_lon /\
    ISCEXMLParser.subscript coord_lat "delta" = Ok v_lat /\
    Py.np_abs v_lon = Ok dLon /\
    Py.np_abs v_lat = Ok dLat /\
    Os.open (fs s) disp_file = Ok f /\
    Np.reshape (Np.flat IEEE.f4 (frombuffer LittleEndian (bytes f))) nlat (nlon * 2)
    = Ok mapped /\
    Np.cols_from mapped nlon = Ok displacement /\
    c !! "dLon" = Some dLon /\
    c !! "dLat" = Some dLat /\
    c !! "displacement"
    = Some (NpArray (Np.mul_scalar (Np.set_nan_where_eq IEEE.pzero displacement)
                                   IEEE.c_1em2)).
Proof.
  intros H. unfold ISCE.read, Path.abspath in H.
  do 26 (step_ok H).
  match goal with
  | H1 : ISCE.store_through _ _ _ _ = _ |- _ =>
      apply store_through_inv in H1 as [(f' & _ & _ & ->) | [[=] _]]
  end.
  do 8 (step_ok H).
  unfold get_container in H. injection H as <- <-. cbn [container fs log] in *.
  repeat match goal with
         | H1 : Ok ?a = ISCE._getDisplacementFile ?f ?p,
           H2 : Ok ?b = ISCE._getDisplacementFile ?f ?p |- _ =>
             assert (b = a) as -> by congruence; clear H2
         end.
  match goal with
  | H1 : Ok _ = Os.memmap _ _ _ |- _ =>
      symmetry in H1; apply memmap_inv in H1 as (f & Hf & ->)
  end.
  exists x, x0, x1, x2, x6, x3, x7, x4, f, x10, x12, x22, x23.
  repeat split; try (symmetry; assumption); try assumption.
  all: repeat (rewrite lookup_insert_ne by discriminate);
    apply lookup_insert_eq.
Qed.

(** C6, as the code has it: after a successful [ISCE.read], [dLat] and
    [dLon] are the absolute values ([numpy.abs]) of the [delta] entries of
    the [coordinate2] and [coordinate1] components of the XML metadata: the
    sign of the metadata is dropped. *)
Theorem C6_deltas_are_absolute path s c s' :
  ISCE.read path s = (Ok c, s') ->
  exists disp_file root coord_lon coord_lat v_lon v_lat delta_lon delta_lat,
    ISCE._getDisplacementFile (fs s) path = Ok disp_file /\
    ISCEXMLParser.parse (fs s) (disp_file +:+ ".xml") = Ok root /\
    ISCEXMLParser.getProperty root "coordinate1" = Ok coord_lon /\
    ISCEXMLParser.getProperty root "coordinate2" = Ok coord_lat /\
    ISCEXMLParser.subscript coord_lon "delta" = Ok v_lon /\
    ISCEXMLParser.subscript coord_lat "delta" = Ok v_lat /\
    as_number v_lon = Some delta_lon /\
    as_number v_lat = Some delta_lat /\
    c !! "dLon" = Some (NpFloat (SFabs delta_lon)) /\
    c !! "dLat" = Some (NpFloat (SFabs delta_lat)).
Proof.
  intros H.
  destruct (ISCE_read_inv _ _ _ _ H)
    as (disp_file & root & coord_lon & coord_lat & v_lon & v_lat & dLon & dLat
        & _ & _ & _ & _ & _ & Hd & Hr & Hc1 & Hc2 & Hv1 & Hv2 & Ha1 & Ha2
        & _ & _ & _ & HdLon & HdLat & _).
  apply np_abs_inv in Ha1 as (delta_lon & Hn1 & ->).
  apply np_abs_inv in Ha2 as (delta_lat & Hn2 & ->).
  exists disp_file, root, coord_lon, coord_lat, v_lon, v_lat, delta_lon, delta_lat.
  repeat split; assumption.
Qed.

(** C10: after a successful [ISCE.read], the displacement has [rows] rows
    of [nlon] cells taken from the right half of each row of [2 * nlon]
    items of the file, and every such item equal to [0.] is NaN in the
    container: the recoding comes before the scaling by [1e-2], which
    keeps a NaN. *)
Theorem C10_isce_zero_becomes_nan path s c s' :
  ISCE.read path s = (Ok c, s') ->
  exists disp_file f a rows nlon,
    ISCE._getDisplacementFile (fs s) path = Ok disp_file /\
    Os.open (fs s) disp_file = Ok f /\
    c !! "displacement" = Some (NpArray a) /\
    shape a = [rows; nlon] /\
    length (frombuffer LittleEndian (bytes f)) = (rows * (2 * nlon))%nat /\
    forall i j x,
      (i < rows)%nat -> (j < nlon)%nat ->
      frombuffer LittleEndian (bytes f) !! (i * (2 * nlon) + nlon + j)%nat = Some x ->
      IEEE.eqb x IEEE.pzero = true ->
      data a !! (i * nlon + j)%nat = Some IEEE.nan.
Proof.
  intros H.
  destruct (ISCE_read_inv _ _ _ _ H)
    as (disp_file & root & coord_lon & coord_lat & v_lon & v_lat & dLon & dLat
        & f & nlon & nlat & mapped & displacement
        & Hd & _ & _ & _ & _ & _ & _ & _ & Hf & Hre & Hcols & _ & _ & Hdisp).
  apply reshape_inv in Hre as (r & w & -> & Hlen & Hw). cbn [Np.flat data dt] in *.
  destruct Hw as [Hpos ->]; [lia|].
  unfold Np.cols_from in Hcols. cbn [shape dt data] in Hcols.
  injection Hcols as <-.
  set (n := Z.to_nat nlon).
  assert (Hb : Np.bound nlon (Z.to_nat (nlon * 2)) = n).
  { unfold Np.bound. destruct (nlon <? 0) eqn:E; [lia|]. subst n. f_equal. lia. }
  assert (Hw : Z.to_nat (nlon * 2) = (2 * n)%nat) by (subst n; lia).
  rewrite Hb, Hw in *.
  eexists disp_file, f, _, r, n.
  split; [exact Hd|]. split; [exact Hf|]. split; [exact Hdisp|].
  cbn [Np.mul_scalar Np.set_nan_where_eq shape data dt].
  split; [f_equal; f_equal; lia|]. split; [lia|].
  intros i j x Hi Hj Hx Hzero.
  rewrite !lookup_map.
  replace (i * n + j)%nat with (i * (2 * n - n) + j)%nat by lia.
  rewrite rows_drop_lookup by lia.
  rewrite Hx. cbn [fmap option_fmap option_map]. rewrite Hzero. reflexivity.
Qed.




(** The latitude [delta] of the metadata is [-1], and [dLat] is [1]. *)
Lemma C6_counterexample :
  let run := ISCE.read "/isce" (SceneIO_init IsceProduct.with_los) in
  is_ok (fst run) = true /\
  ISCEXMLParser.subscript
    match ISCEXMLParser.getProperty IsceProduct.metadata "coordinate2" with
    | Ok p => p
    | Raise _ => ISCEXMLParser.NoProperty
    end "delta"
  = Ok (PyFloat (IEEE.of_Z (-1))) /\
  Product.returned run !! "dLat" = Some (NpFloat (IEEE.of_Z 1)) /\
  IEEE.eqb (IEEE.of_Z 1) (IEEE.of_Z (-1)) = false.
Proof. repeat split; vm_compute; reflexivity. Qed.

Lemma C6_witness :
  let run := ISCE.read "/isce" (SceneIO_init IsceProduct.with_los) in
  exists disp_file root coord_lon coord_lat v_lon v_lat delta_lon delta_lat,
    ISCE._getDisplacementFile IsceProduct.with_los "/isce" = Ok disp_file /\
    ISCEXMLParser.parse IsceProduct.with_los (disp_file +:+ ".xml") = Ok root /\
    ISCEXMLParser.getProperty root "coordinate1" = Ok coord_lon /\
    ISCEXMLParser.getProperty root "coordinate2" = Ok coord_lat /\
    ISCEXMLParser.subscript coord_lon "delta" = Ok v_lon /\
    ISCEXMLParser.subscript coord_lat "delta" = Ok v_lat /\
    as_number v_lon = Some delta_lon /\
    as_number v_lat = Some delta_lat /\
    Product.returned run !! "dLon" = Some (NpFloat (SFabs delta_lon)) /\
    Product.returned run !! "dLat" = Some (NpFloat (SFabs delta_lat)).
Proof.
  intros run.
  apply (C6_deltas_are_absolute
           "/isce" (SceneIO_init IsceProduct.with_los)
           (Product.returned run) (snd run)).
  vm_compute; reflexivity.
Defined.

Lemma C10_witness :
  let run := ISCE.read "/isce" (SceneIO_init IsceProduct.with_los) in
  exists disp_file f a rows nlon,
    ISCE._getDisplacementFile IsceProduct.with_los "/isce" = Ok disp_file /\
    Os.open IsceProduct.with_los disp_file = Ok f /\
    Product.returned run !! "displacement" = Some (NpArray a) /\
    shape a = [rows; nlon] /\
    length (frombuffer LittleEndian (bytes f)) = (rows * (2 * nlon))%nat /\
    forall i j x,
      (i < rows)%nat -> (j < nlon)%nat ->
      frombuffer LittleEndian (bytes f) !! (i * (2 * nlon) + nlon + j)%nat = Some x ->
      IEEE.eqb x IEEE.pzero = true ->
      data a !! (i * nlon + j)%nat = Some IEEE.nan.
Proof.
  intros run.
  apply (C10_isce_zero_becomes_nan
           "/isce" (SceneIO_init IsceProduct.with_los)
           (Product.returned run) (snd run)).
  vm_compute; reflexivity.
Defined.

(** On that product the zero of the first line is indeed lost. *)
Example isce_zero_cell_is_nan :
  frombuffer LittleEndian IsceProduct.unw !! 2%nat = Some IEEE.pzero /\
  Product.displacement_cell
    (Product.returned (ISCE.read "/isce" (SceneIO_init IsceProduct.with_los)))
    0 = Some IEEE.nan.
Proof. split; vm_compute; reflexivity. Qed.


(** ** Gamma: C1 to C4 *)

(** Looking for a side grid writes to the log only. *)
Lemma getAngle_frame filename pattern s r s' :
  Gamma._getAngle filename pattern s = (r, s') ->
  container s' = container s /\ fs s' = fs s.
Proof.
  unfold Gamma._getAngle, bind, reading, emit, ret. cbn [fs container log].
  repeat case_match; intros; simplify_eq/=; auto.
Qed.

(** The [try] around the two [int()] calls of [Gamma.read]. *)
Lemma dims_inv (par : gmap string pyval) (msg : list string) s dims s' :
  except_any
    (let* nrows := lift (match getitem par "width" with
                         | Ok v => Py.int v | Raise e => Raise e end) in
     let* nlines := lift (match getitem par "nlines" with
                          | Ok v => Py.int v | Raise e => Raise e end) in
     ret (nrows, nlines))
    (raise (ImportError msg)) s = (Ok dims, s') ->
  s' = s /\
  (exists v, par !! "width" = Some v /\ Py.int v = Ok (fst dims)) /\
  (exists v, par !! "nlines" = Some v /\ Py.int v = Ok (snd dims)).
Proof.
  unfold except_any, bind, lift, ret, raise, getitem.
  repeat case_match; intros; simplify_eq/=; eauto 10.
Qed.

Lemma fromfile_inv fs p bo a :
  Os.fromfile fs p bo = Ok a ->
  exists f, Os.open fs p = Ok f /\ a = Np.flat IEEE.f4 (frombuffer bo (bytes f)).
Proof.
  unfold Os.fromfile. destruct (Os.open fs p) as [f|e]; [|discriminate].
  intros [= <-]. eauto.
Qed.

Lemma getitem_inv (d : gmap string pyval) k v :
  getitem d k = Ok v -> d !! k = Some v.
Proof. unfold getitem. destruct (d !! k); [intros [= ->]; reflexivity | discriminate]. Qed.

Section GammaRead.
Variable cos : IEEE.dtype -> spec_float -> spec_float.

(** What a successful [Gamma.read] went through, and what it left in the
    container it returns. *)
Lemma Gamma_read_inv filename kwargs s c s' :
  Gamma.read cos filename kwargs s = (Ok c, s') ->
  exists par_file par width nrows nlines f padded fill displ
         corner_lat post_lat extent llLat,
    Gamma._parseParameterFile (fs s) par_file = Ok par /\
    par !! "width" = Some width /\
    Py.int width = Ok nrows /\
    Os.open (fs s) filename = Ok f /\
    Gamma.resize (Np.flat IEEE.f4 (frombuffer BigEndian (bytes f))) nrows
    = Ok (padded, fill) /\
    Np.reshape padded nlines nrows = Ok displ /\
    par !! "corner_lat" = Some corner_lat /\
    par !! "post_lat" = Some post_lat /\
    Py.mul_int post_lat nrows = Ok extent /\
    Py.add corner_lat extent = Ok llLat /\
    c !! "llLat" = Some llLat /\
    c !! "displacement"
    = Some (NpArray (Np.mul_scalar (Np.set_nan_where_eq IEEE.nzero displ)
                                   IEEE.c_1em2)).
Proof.
  intros H. unfold Gamma.read in H.
  step_ok H.
  apply pop_par_file_frame in Hstep as [Hc0 Hf0].
  step_ok H. rewrite Hf0 in Hstep.
  step_ok H. apply dims_inv in Hstep0 as (-> & (width & Hw & Hwi) & _).
  step_ok H. rewrite Hf0 in Hstep0.
  symmetry in Hstep0. apply fromfile_inv in Hstep0 as (f & Hf & ->).
  step_ok H. step_ok H.
  step_ok H. apply getAngle_frame in Hstep2 as [Hc1 Hf1].
  step_ok H. apply getAngle_frame in Hstep2 as [Hc2 Hf2].
  do 16 (step_ok H).
  unfold get_container in H. injection H as <- <-. cbn [container].
  destruct x2 as [nrows nlines], x3 as [padded fill]. cbn [fst snd] in *.
  repeat match goal with
         | H1 : Ok _ = getitem _ _ |- _ => symmetry in H1; apply getitem_inv in H1
         end.
  exists x, x1, width, nrows, nlines, f, padded, fill, x4, x13, x14, x15, x16.
  repeat split; try (symmetry; assumption); try assumption.
  all: repeat (rewrite lookup_insert_ne by discriminate);
    apply lookup_insert_eq.
Qed.

End GammaRead.

(** *** Rounding never invents a NaN *)

Lemma shr_1_nonneg mrs : 0 <= shr_m mrs -> 0 <= shr_m (shr_1 mrs).
Proof.
  destruct mrs as [m r st]. simpl.
  destruct m as [|[p|p|]|p]; simpl; lia.
Qed.

Lemma iter_shr_1_nonneg p mrs :
  0 <= shr_m mrs -> 0 <= shr_m (SpecFloat.iter_pos shr_1 p mrs).
Proof.
  revert mrs. induction p as [p IH|p IH|]; intros mrs H; simpl.
  - apply IH, IH, shr_1_nonneg, H.
  - apply IH, IH, H.
  - apply shr_1_nonneg, H.
Qed.

Lemma shr_fexp_nonneg prec emax m e l :
  0 <= m -> 0 <= shr_m (fst (shr_fexp prec emax m e l)).
Proof.
  intros H. unfold shr_fexp, shr.
  assert (H0 : 0 <= shr_m (shr_record_of_loc m l)).
  { destruct l as [|[| |]]; exact H. }
  destruct (_ - e) as [|p|p]; simpl; auto using iter_shr_1_nonneg.
Qed.

Lemma round_nearest_even_nonneg m l : 0 <= m -> 0 <= round_nearest_even m l.
Proof.
  intros H. destruct l as [|[| |]]; simpl; try lia.
  destruct (Z.even m); lia.
Qed.

Lemma binary_round_aux_not_nan prec emax sx mx ex lx :
  0 <= mx -> binary_round_aux prec emax sx mx ex lx <> S754_nan.
Proof.
  intros H. unfold binary_round_aux.
  pose proof (shr_fexp_nonneg prec emax mx ex lx H) as H1.
  destruct (shr_fexp prec emax mx ex lx) as [mrs' e']. simpl in H1.
  pose proof (shr_fexp_nonneg prec emax
                (round_nearest_even (shr_m mrs') (loc_of_shr_record mrs')) e'
                loc_Exact (round_nearest_even_nonneg _ _ H1)) as H2.
  destruct (shr_fexp prec emax _ e' loc_Exact) as [mrs'' e'']. simpl in H2.
  destruct (shr_m mrs'') as [|p|p]; try discriminate; [|lia].
  destruct (e'' <=? emax - prec); discriminate.
Qed.

(** Scaling by a finite, non-zero constant keeps every number a number. *)
Lemma mul_finite_is_nan d x s m e :
  IEEE.is_nan (IEEE.mul d x (S754_finite s m e)) = true -> IEEE.is_nan x = true.
Proof.
  unfold IEEE.mul. destruct x as [sx|sx| |sx mx ex]; simpl; try discriminate; auto.
  intros H.
  destruct (binary_round_aux (IEEE.prec d) (IEEE.emax d) (xorb sx s)
              (Z.pos (mx * m)) (ex + e) loc_Exact) eqn:E; try discriminate.
  exfalso. revert E. apply binary_round_aux_not_nan. lia.
Qed.

(** *** Running [Gamma.read] forward *)

Lemma length_frombuffer bo n bs :
  length bs = (4 * n)%nat -> length (frombuffer bo bs) = n.
Proof.
  revert bs. induction n as [|n IH]; intros bs Hlen.
  - destruct bs; [reflexivity | discriminate].
  - do 4 (destruct bs as [|? bs]; [simpl in Hlen; lia|]).
    simpl. f_equal. apply IH. simpl in Hlen. lia.
Qed.

(** Truncating the file after [n] items truncates the decoded array. *)
Lemma frombuffer_take bo n bs :
  frombuffer bo (take (4 * n) bs) = take n (frombuffer bo bs).
Proof.
  revert bs. induction n as [|n IH]; intros bs; [reflexivity|].
  replace (4 * S n)%nat with (S (S (S (S (4 * n))))) by lia.
  destruct bs as [|b0 [|b1 [|b2 [|b3 bs]]]]; try reflexivity.
  simpl. f_equal. apply IH.
Qed.

Lemma pop_par_file_first filename s file rest par :
  Os.glob (fs s) (Path.dirname (Path.realpath filename) +:+ "/*par") = file :: rest ->
  Gamma._parseParameterFile (fs s) file = Ok par ->
  Gamma.pop_par_file None filename s
  = (Ok file,
     State (container s) (log s ++ [(DEBUG, "Found parameter file " +:+ file)]) (fs s)).
Proof.
  intros Hglob Hparse.
  unfold Gamma.pop_par_file, Gamma._getParameterFile, bind, reading.
  rewrite Hglob. simpl Gamma.first_par_file.
  unfold except_ImportError, bind, reading, emit, ret. rewrite Hparse. reflexivity.
Qed.

Lemma getAngle_unique filename pattern s file a :
  Os.glob (fs s) (Path.dirname (Path.realpath filename) +:+ "/" +:+ pattern) = [file] ->
  Os.memmap (fs s) file BigEndian = Ok a ->
  Gamma._getAngle filename pattern s
  = (Ok (NpArray a),
     State (container s)
           (log s ++ [(DEBUG, "Found " +:+ pattern +:+ " in " +:+ file)]) (fs s)).
Proof.
  intros Hglob Hmap.
  unfold Gamma._getAngle, bind, reading. rewrite Hglob. simpl.
  unfold emit, bind, reading, ret. simpl. rewrite Hmap. reflexivity.
Qed.

Lemma memmap_raw fs p bo f :
  Os.open fs p = Ok f ->
  (0 < length (bytes f))%nat -> (length (bytes f) mod 4 = 0)%nat ->
  Os.memmap fs p bo = Ok (Np.flat IEEE.f4 (frombuffer bo (bytes f))).
Proof.
  intros Hopen Hpos Hmod. unfold Os.memmap. rewrite Hopen.
  replace (Z.of_nat (length (bytes f)) =? 0) with false by (symmetry; apply Z.eqb_neq; lia).
  replace (Z.of_nat (length (bytes f)) mod 4 =? 0) with true; [reflexivity|].
  symmetry. apply Z.eqb_eq.
  change 4 with (Z.of_nat 4). rewrite <- Nat2Z.inj_mod, Hmod. reflexivity.
Qed.

Section GammaRun.
Variable cos : IEEE.dtype -> spec_float -> spec_float.


Lemma Gamma_read_run filename kwargs s par_file s1 par width nrows height nlines
    raw padded fill displ phi s2 theta s3 angles theta' phi'
    corner_lat post_lat extent llLat corner_lon post_lon :
  Gamma.pop_par_file kwargs filename s = (Ok par_file, s1) ->
  Gamma._parseParameterFile (fs s1) par_file = Ok par ->
  par !! "width" = Some width -> Py.int width = Ok nrows ->
  par !! "nlines" = Some height -> Py.int height = Ok nlines ->
  Os.fromfile (fs s1) filename BigEndian = Ok raw ->
  Gamma.resize raw nrows = Ok (padded, fill) ->
  Np.reshape padded nlines nrows = Ok displ ->
  Gamma._getAngle filename "*phi*" s1 = (Ok phi, s2) ->
  Gamma._getAngle filename "*theta*" s2 = (Ok theta, s3) ->
  Gamma.append_fill fill (Gamma.np_cos cos theta) phi = Ok angles ->
  Np.reshape_method (fst angles) nlines nrows = Ok theta' ->
  Np.reshape_method (snd angles) nlines nrows = Ok phi' ->
  par !! "corner_lat" = Some corner_lat ->
  par !! "post_lat" = Some post_lat ->
  Py.mul_int post_lat nrows = Ok extent ->
  Py.add corner_lat extent = Ok llLat ->
  par !! "corner_lon" = Some corner_lon ->
  par !! "post_lon" = Some post_lon ->
  let c := gamma_container (container s3) displ llLat corner_lon post_lon post_lat
                           theta' phi' in
  Gamma.read cos filename kwargs s = (Ok c, State c (log s3) (fs s3)).
Proof.
  intros Hpop Hparse Hw Hwi Hh Hhi Hraw Hresize Hreshape Hphi Htheta Hfill Ht Hp
         Hcl Hpl Hext Hll Hclon Hplon c.
  unfold Gamma.read.
  rewrite (bind_ok _ _ _ _ _ Hpop).
  unfold bind at 1, reading at 1. rewrite Hparse.
  unfold bind at 1, except_any, bind, lift, ret, getitem.
  rewrite Hw, Hwi, Hh, Hhi. cbn [fst snd].
  unfold reading at 1. rewrite Hraw. rewrite Hresize. cbn [fst snd].
  rewrite Hreshape. rewrite Hphi, Htheta, Hfill, Ht, Hp.
  unfold setitem. cbn [container log fs].
  rewrite Hcl, Hpl, Hext, Hll, Hclon, Hplon.
  reflexivity.
Qed.

End GammaRun.

(** *** C1: a 4 x 5 scene, whole and cut short *)

Section Scene4x5.
Import IEEE.
Variable cos : dtype -> spec_float -> spec_float.


Lemma run_scene (disp phi theta : list Byte.byte) n padded fill angles :
  length disp = (4 * n)%nat -> length phi = (4 * n)%nat ->
  length theta = (4 * n)%nat -> (0 < n)%nat ->
  Gamma.resize (Np.flat f4 (frombuffer BigEndian disp)) 5 = Ok (padded, fill) ->
  Z.of_nat (length (data padded)) = 20 ->
  Gamma.append_fill fill
    (Gamma.np_cos cos (NpArray (Np.flat f4 (frombuffer BigEndian theta))))
    (NpArray (Np.flat f4 (frombuffer BigEndian phi))) = Ok angles ->
  (exists a, fst angles = NpArray a /\ Z.of_nat (length (data a)) = 20) ->
  (exists a, snd angles = NpArray a /\ Z.of_nat (length (data a)) = 20) ->
  exists c s',
    Gamma.read cos "/scene/geo.disp" None
      (SceneIO_init (Product.gamma Product.par_4x5 disp (Product.side_grids phi theta)))
    = (Ok c, s') /\
    c !! "displacement"
    = Some (NpArray (NdArray (dt padded) [4%nat; 5%nat]
                             (map (recoded (dt padded)) (data padded)))).
Proof.
  intros Hd Hp Ht Hn Hresize Hlen Hfill (ta & Hta & Hlt) (pa & Hpa & Hlp).
  set (fs0 := Product.gamma Product.par_4x5 disp (Product.side_grids phi theta)).
  assert (Hparse : Gamma._parseParameterFile fs0 "/scene/geo.par"
                   = Ok (params_of Product.par_4x5)) by (vm_compute; reflexivity).
  assert (Hmod : forall bs : list Byte.byte, length bs = (4 * n)%nat ->
                            (0 < length bs)%nat /\ (length bs mod 4 = 0)%nat).
  { intros bs ->. split; [lia|]. rewrite Nat.mul_comm. apply Nat.Div0.mod_mul. }
  do 2 eexists. split.
  - eapply (Gamma_read_run cos "/scene/geo.disp" None (SceneIO_init fs0)).
    + apply (pop_par_file_first _ _ "/scene/geo.par" [] (params_of Product.par_4x5));
        [vm_compute; reflexivity | exact Hparse].
    + exact Hparse.
    + vm_compute; reflexivity.
    + vm_compute; reflexivity.
    + vm_compute; reflexivity.
    + vm_compute; reflexivity.
    + reflexivity.
    + exact Hresize.
    + unfold Np.reshape, Np.size. rewrite Hlen. reflexivity.
    + apply (getAngle_unique _ _ _ "/scene/geo.phi"); [vm_compute; reflexivity|].
      apply (memmap_raw _ _ _ (Product.raw_file phi)); [reflexivity| |];
        apply (Hmod phi Hp).
    + apply (getAngle_unique _ _ _ "/scene/geo.theta"); [vm_compute; reflexivity|].
      apply (memmap_raw _ _ _ (Product.raw_file theta)); [reflexivity| |];
        apply (Hmod theta Ht).
    + exact Hfill.
    + rewrite Hta. unfold Np.reshape_method, Np.reshape, Np.size. rewrite Hlt. reflexivity.
    + rewrite Hpa. unfold Np.reshape_method, Np.reshape, Np.size. rewrite Hlp. reflexivity.
    + vm_compute; reflexivity.
    + vm_compute; reflexivity.
    + vm_compute; reflexivity.
    + vm_compute; reflexivity.
    + vm_compute; reflexivity.
    + vm_compute; reflexivity.
  - unfold gamma_container.
    repeat (rewrite lookup_insert_ne by discriminate).
    rewrite lookup_insert_eq.
    unfold Np.mul_scalar, Np.set_nan_where_eq. cbn [dt shape data].
    rewrite List.map_map. reflexivity.
Qed.
End Scene4x5.

(** C1, with the condition the code needs: for a Gamma product with
    [nlines = 4] and [width = 5] whose two side grids are present and have
    as many items as the displacement file. A displacement file of
    exactly 20 big-endian binary32 items decodes to a (4, 5) matrix whose
    20 cells are the 20 items, recoded and scaled: nothing is appended, and
    a cell is NaN only where the item itself is a zero or a NaN. The same
    file cut after 18 items decodes to a (4, 5) matrix of 20 cells whose
    last two are NaN, the first 18 coming from the 18 items: the tail is
    padded up to the next full row, neither truncated nor refused. *)
Theorem C1_gamma_4x5_padding (cos : IEEE.dtype -> spec_float -> spec_float)
    (disp phi theta phi18 theta18 : list Byte.byte) :
  length disp = 80%nat -> length phi = 80%nat -> length theta = 80%nat ->
  length phi18 = 72%nat -> length theta18 = 72%nat ->
  let items := frombuffer BigEndian disp in
  (exists c s',
     Gamma.read cos "/scene/geo.disp" None
       (SceneIO_init (Product.gamma Product.par_4x5 disp
                                    (Product.side_grids phi theta)))
     = (Ok c, s') /\
     c !! "displacement"
     = Some (NpArray (NdArray IEEE.f4 [4%nat; 5%nat] (map (recoded IEEE.f4) items))) /\
     length (map (recoded IEEE.f4) items) = 20%nat /\
     forall i y, map (recoded IEEE.f4) items !! i = Some y -> IEEE.is_nan y = true ->
       exists x, items !! i = Some x /\
                 (IEEE.is_zero x = true \/ IEEE.is_nan x = true)) /\
  (exists c s' cells,
     Gamma.read cos "/scene/geo.disp" None
       (SceneIO_init (Product.gamma Product.par_4x5 (take 72 disp)
                                    (Product.side_grids phi18 theta18)))
     = (Ok c, s') /\
     c !! "displacement" = Some (NpArray (NdArray IEEE.f8 [4%nat; 5%nat] cells)) /\
     length cells = 20%nat /\
     cells !! 18%nat = Some IEEE.nan /\
     cells !! 19%nat = Some IEEE.nan /\
     forall i x, (i < 18)%nat -> items !! i = Some x ->
       cells !! i = Some (recoded IEEE.f8 (IEEE.cast IEEE.f8 x))).
Proof.
  intros Hd Hp Ht Hp18 Ht18 items. subst items.
  pose proof (length_frombuffer BigEndian 20 disp Hd) as Ld.
  pose proof (length_frombuffer BigEndian 20 phi Hp) as Lp.
  pose proof (length_frombuffer BigEndian 20 theta Ht) as Lt.
  pose proof (length_frombuffer BigEndian 18 phi18 Hp18) as Lp18.
  pose proof (length_frombuffer BigEndian 18 theta18 Ht18) as Lt18.
  split.
  - destruct (run_scene cos disp phi theta 20
                (Np.flat IEEE.f4 (frombuffer BigEndian disp)) None
                (Gamma.np_cos cos (NpArray (Np.flat IEEE.f4 (frombuffer BigEndian theta))),
                 NpArray (Np.flat IEEE.f4 (frombuffer BigEndian phi))))
      as (c & s' & Hrun & Hdisp); try assumption; try lia.
    + unfold Gamma.resize, Np.size. cbn [Np.flat data]. rewrite Ld. reflexivity.
    + cbn [Np.flat data]. rewrite Ld. reflexivity.
    + reflexivity.
    + eexists. split; [reflexivity|]. cbn [Np.flat data dt fst].
      rewrite length_map, Lt. reflexivity.
    + eexists. split; [reflexivity|]. cbn [Np.flat data dt snd].
      rewrite Lp. reflexivity.
    + exists c, s'. split; [exact Hrun|]. split; [exact Hdisp|].
      split; [rewrite length_map; exact Ld|].
      intros i y Hy Hnan. rewrite lookup_map in Hy.
      destruct ((frombuffer BigEndian disp) !! i) as [x|] eqn:Hx; [|discriminate].
      injection Hy as <-. exists x. split; [reflexivity|].
      unfold recoded in Hnan. apply mul_finite_is_nan in Hnan.
      destruct x as [[|]|[|]| |[|] m e]; cbv in Hnan; auto; discriminate.
  - assert (H72 : length (take 72 disp) = 72%nat) by (rewrite length_take; lia).
    pose proof (length_frombuffer BigEndian 18 (take 72 disp) H72) as Ld18.
    assert (Hitems : frombuffer BigEndian (take 72 disp) = take 18 (frombuffer BigEndian disp))
      by apply (frombuffer_take BigEndian 18 disp).
    set (fill := Np.flat IEEE.f8 [IEEE.nan; IEEE.nan]).
    set (padded := Np.flat IEEE.f8
                     (map (IEEE.cast IEEE.f8) (take 18 (frombuffer BigEndian disp))
                      ++ map (IEEE.cast IEEE.f8) [IEEE.nan; IEEE.nan])).
    destruct (run_scene cos (take 72 disp) phi18 theta18 18 padded (Some fill)
                (NpArray (Np.flat IEEE.f8
                   (map (IEEE.cast IEEE.f8)
                        (map (cos IEEE.f4) (frombuffer BigEndian theta18))
                    ++ map (IEEE.cast IEEE.f8) [IEEE.nan; IEEE.nan])),
                 NpArray (Np.flat IEEE.f8
                   (map (IEEE.cast IEEE.f8) (frombuffer BigEndian phi18)
                    ++ map (IEEE.cast IEEE.f8) [IEEE.nan; IEEE.nan]))))
      as (c & s' & Hrun & Hdisp); try assumption; try lia.
    + unfold Gamma.resize, Np.size. cbn [Np.flat data]. rewrite Ld18.
      rewrite Hitems. reflexivity.
    + subst padded. cbn [Np.flat data]. rewrite length_app, !length_map, length_take.
      rewrite Ld. reflexivity.
    + reflexivity.
    + eexists. split; [reflexivity|]. cbn [Np.flat data].
      rewrite length_app, !length_map, Lt18. reflexivity.
    + eexists. split; [reflexivity|]. cbn [Np.flat data].
      rewrite length_app, !length_map, Lp18. reflexivity.
    + exists c, s', (map (recoded IEEE.f8) (data padded)).
      split; [exact Hrun|]. split; [exact Hdisp|].
      assert (L18 : length (map (IEEE.cast IEEE.f8) (take 18 (frombuffer BigEndian disp))) = 18%nat)
        by (rewrite length_map, length_take; lia).
      subst padded. cbn [Np.flat data].
      split; [rewrite length_map, length_app, L18; reflexivity|].
      split; [rewrite lookup_map, lookup_app_r by lia; rewrite L18; reflexivity|].
      split; [rewrite lookup_map, lookup_app_r by lia; rewrite L18; reflexivity|].
      intros i x Hi Hx.
      rewrite lookup_map, lookup_app_l by lia.
      rewrite lookup_map, lookup_take_lt by lia. rewrite Hx. reflexivity.
Qed.

(** *** C3: zeros of either sign *)

Lemma resize_inv displ nrows padded fill :
  Gamma.resize displ nrows = Ok (padded, fill) ->
  (padded = displ /\ fill = None) \/
  (exists k, padded = Np.flat IEEE.f8 (map (IEEE.cast IEEE.f8) (data displ)
                                      ++ map (IEEE.cast IEEE.f8) (replicate k IEEE.nan))).
Proof.
  unfold Gamma.resize, Np.nan_fill, Np.append, Np.ravel.
  repeat case_match; intros; simplify_eq/=; auto.
  right. eexists. destruct (dt displ); reflexivity.
Qed.

(** C3, as the code has it: after a successful [Gamma.read], every item of
    the displacement file that is a zero, negative or positive, is NaN in
    the container. The mask is [displ == -0.], and IEEE equality does not
    tell the two zeros apart. *)
Theorem C3_every_zero_becomes_nan cos filename kwargs s c s' :
  Gamma.read cos filename kwargs s = (Ok c, s') ->
  exists f a,
    Os.open (fs s) filename = Ok f /\
    c !! "displacement" = Some (NpArray a) /\
    forall i x,
      frombuffer BigEndian (bytes f) !! i = Some x ->
      IEEE.is_zero x = true ->
      data a !! i = Some IEEE.nan.
Proof.
  intros H.
  destruct (Gamma_read_inv cos _ _ _ _ _ H)
    as (par_file & par & width & nrows & nlines & f & padded & fill & displ
        & corner_lat & post_lat & extent & llLat
        & _ & _ & _ & Hf & Hresize & Hreshape & _ & _ & _ & _ & _ & Hdisp).
  apply reshape_inv in Hreshape as (r & w & -> & _ & _).
  exists f. eexists. split; [exact Hf|]. split; [exact Hdisp|].
  intros i x Hx Hzero.
  cbn [Np.mul_scalar Np.set_nan_where_eq data dt].
  rewrite !lookup_map.
  destruct x as [sx| | |]; try discriminate.
  apply resize_inv in Hresize as [[-> _] | [k ->]]; cbn [Np.flat data dt].
  - rewrite Hx. destruct sx; reflexivity.
  - rewrite lookup_app_l by (rewrite length_map; apply lookup_lt_Some in Hx; exact Hx).
    rewrite lookup_map, Hx. destruct sx; reflexivity.
Qed.


Lemma C1_witness :
  exists c s',
    Gamma.read Product.cos_of_zero "/scene/geo.disp" None
      (Scene.start (Scene.complete Scene.ones)) = (Ok c, s') /\
    c !! "displacement"
    = Some (NpArray (NdArray IEEE.f4 [4%nat; 5%nat]
                       (map (recoded IEEE.f4) (frombuffer BigEndian Scene.ones)))).
Proof.
  destruct (C1_gamma_4x5_padding Product.cos_of_zero Scene.ones
              (Scene.zeros 20) (Scene.zeros 20) (Scene.zeros 18) (Scene.zeros 18))
    as [(c & s' & Hrun & Hdisp & _) _]; try reflexivity.
  exists c, s'. split; [exact Hrun | exact Hdisp].
Defined.

(** C1 as it was stated, on its own input: the displacement file of the
    complete scene cut to 18 items, the two side grids left at 20 items.
    The grids get the two padding items as well, 22 items do not take the
    shape (4, 5), and the decode raises [ValueError] with the container as
    [__init__] left it. With no side grid at all it raises too. *)
Lemma C1_counterexample :
  let cut := Gamma.read Product.cos_of_zero "/scene/geo.disp" None
               (Scene.start (Scene.complete (take 72 Scene.ones))) in
  let bare := Gamma.read Product.cos_of_zero "/scene/geo.disp" None
                (Scene.start (Product.gamma Product.par_4x5 (take 72 Scene.ones) [])) in
  length (frombuffer BigEndian (take 72 Scene.ones)) = 18%nat /\
  length (frombuffer BigEndian (Scene.zeros 20)) = 20%nat /\
  fst cut = Raise ValueError /\
  container (snd cut) = empty_container /\
  fst bare = Raise ValueError.
Proof. repeat split; vm_compute; reflexivity. Qed.

(** On the scene of twenty ones the last cell is 0.01 in binary32; cut to
    eighteen items, the last two cells are NaN. *)
Example scene_cells :
  let full := Gamma.read Product.cos_of_zero "/scene/geo.disp" None
                (Scene.start (Scene.complete Scene.ones)) in
  let cut := Gamma.read Product.cos_of_zero "/scene/geo.disp" None
               (Scene.start (Product.gamma Product.par_4x5 (take 72 Scene.ones)
                  (Product.side_grids (Scene.zeros 18) (Scene.zeros 18)))) in
  (Product.displacement_shape (Product.returned full) = Some [4%nat; 5%nat] /\
   Product.displacement_cell (Product.returned full) 19
   = Some (IEEE.cast IEEE.f4 IEEE.c_1em2)) /\
  (Product.displacement_shape (Product.returned cut) = Some [4%nat; 5%nat] /\
   Product.displacement_cell (Product.returned cut) 17 = Some IEEE.c_1em2 /\
   Product.displacement_cell (Product.returned cut) 18 = Some IEEE.nan /\
   Product.displacement_cell (Product.returned cut) 19 = Some IEEE.nan).
Proof. repeat split; vm_compute; reflexivity. Qed.

(** The first item of the file is +0.0, an ordinary zero, and the first
    cell of the decoded displacement is NaN: the zero is not left as it
    was. (The second item, -0.0, is NaN too.) *)
Lemma C3_counterexample :
  let run := Gamma.read Product.cos_of_zero "/scene/geo.disp" None
               (Scene.start (Scene.complete Scene.with_zeros)) in
  frombuffer BigEndian Scene.with_zeros !! 0%nat = Some IEEE.pzero /\
  frombuffer BigEndian Scene.with_zeros !! 1%nat = Some IEEE.nzero /\
  is_ok (fst run) = true /\
  Product.displacement_cell (Product.returned run) 0 = Some IEEE.nan /\
  Product.displacement_cell (Product.returned run) 1 = Some IEEE.nan.
Proof. repeat split; vm_compute; reflexivity. Qed.

Lemma C3_witness :
  let run := Gamma.read Product.cos_of_zero "/scene/geo.disp" None
               (Scene.start (Scene.complete Scene.with_zeros)) in
  exists f a,
    Os.open (Scene.complete Scene.with_zeros) "/scene/geo.disp" = Ok f /\
    Product.returned run !! "displacement" = Some (NpArray a) /\
    forall i x,
      frombuffer BigEndian (bytes f) !! i = Some x ->
      IEEE.is_zero x = true ->
      data a !! i = Some IEEE.nan.
Proof.
  intros run.
  apply (C3_every_zero_becomes_nan Product.cos_of_zero "/scene/geo.disp" None
           (Scene.start (Scene.complete Scene.with_zeros))
           (Product.returned run) (snd run)).
  vm_compute; reflexivity.
Defined.

(** *** C2: the lower-left latitude *)

(** What the code computes: the corner plus [post_lat] times the integer
    read from [width]. *)
Lemma Gamma_llLat_from_width cos filename kwargs s c s' :
  Gamma.read cos filename kwargs s = (Ok c, s') ->
  exists par_file par width nrows corner_lat post_lat extent llLat,
    Gamma._parseParameterFile (fs s) par_file = Ok par /\
    par !! "width" = Some width /\ Py.int width = Ok nrows /\
    par !! "corner_lat" = Some corner_lat /\
    par !! "post_lat" = Some post_lat /\
    Py.mul_int post_lat nrows = Ok extent /\
    Py.add corner_lat extent = Ok llLat /\
    c !! "llLat" = Some llLat.
Proof.
  intros H.
  destruct (Gamma_read_inv cos _ _ _ _ _ H)
    as (par_file & par & width & nrows & nlines & f & padded & fill & displ
        & corner_lat & post_lat & extent & llLat
        & Hp & Hw & Hi & _ & _ & _ & Hcl & Hpl & He & Hl & Hll & _).
  exists par_file, par, width, nrows, corner_lat, post_lat, extent, llLat.
  repeat split; assumption.
Qed.

(** C2, at an input where the code departs from it: the parameter file
    says [corner_lat = 10], [post_lat = -1], [nlines = 4], [width = 5].
    The claim gives [10 + (-1) * 4 = 6]; the decode stores
    [10 + (-1) * 5 = 5], the product being taken with [width]. *)
Theorem C2_llLat_uses_width :
  let run := Gamma.read Product.cos_of_zero "/scene/geo.disp" None
               (Scene.start (Scene.complete Scene.ones)) in
  params_of Product.par_4x5 !! "nlines" = Some (PyFloat (IEEE.of_Z 4)) /\
  params_of Product.par_4x5 !! "width" = Some (PyFloat (IEEE.of_Z 5)) /\
  IEEE.add IEEE.f8 (IEEE.of_Z 10) (IEEE.mul IEEE.f8 (IEEE.of_Z (-1)) (IEEE.of_Z 4))
  = IEEE.of_Z 6 /\
  is_ok (fst run) = true /\
  Product.returned run !! "llLat" = Some (PyFloat (IEEE.of_Z 5)).
Proof. repeat split; vm_compute; reflexivity. Qed.

(** *** C4: the optional side grids *)

(** C4, at inputs where the code departs from it. [_getAngle] warns and
    answers the Python float [0.] when the glob finds no file or several,
    but [read] then calls [reshape] on the angles: with both grids absent
    [numpy.cos(0.)] is a scalar that cannot take the shape (4, 5), a
    [ValueError]; with the [*theta*] grid there and the [*phi*] grid absent
    or doubled, [phi] is a Python float without [reshape], an
    [AttributeError]. In each case the decode fails, after the warning,
    and the container is still empty. *)
Theorem C4_missing_side_grid_fails :
  let run sides :=
    Gamma.read Product.cos_of_zero "/scene/geo.disp" None
      (Scene.start (Product.gamma Product.par_4x5 Scene.ones sides)) in
  let theta_only := [("/scene/geo.theta", Reg (Product.raw_file (Scene.zeros 20)))] in
  let two_phi :=
    [("/scene/geo.phi", Reg (Product.raw_file (Scene.zeros 20)));
     ("/scene/old.phi", Reg (Product.raw_file (Scene.zeros 20)));
     ("/scene/geo.theta", Reg (Product.raw_file (Scene.zeros 20)))] in
  (fst (run []) = Raise ValueError /\
   log (snd (run []))
   = [(DEBUG, "Found parameter file /scene/geo.par");
      (WARNING, "Could not find *phi* file, defaulting to 0.");
      (WARNING, "Could not find *theta* file, defaulting to 0.")] /\
   container (snd (run [])) = empty_container) /\
  (fst (run theta_only) = Raise AttributeError /\
   In (WARNING, "Could not find *phi* file, defaulting to 0.")
      (log (snd (run theta_only))) /\
   container (snd (run theta_only)) = empty_container) /\
  (fst (run two_phi) = Raise AttributeError /\
   In (WARNING, "Found multiple *phi* files, defaulting to 0.")
      (log (snd (run two_phi))) /\
   container (snd (run two_phi)) = empty_container).
Proof.
  repeat split; vm_compute; auto.
Qed.


(** ** Matlab: C7 *)

Section MatlabFallback.
Variable to_latlon :
  spec_float -> spec_float -> Z -> string -> option (spec_float * spec_float).


(** C7, as the code has it: when the conversion raises
    [OutOfRangeError] and each coordinate vector holds at least two
    elements, [Matlab.read] does not fail. It sets [llLat] and [llLon] to
    [0.], [dLat] to [(utm_e[1] - utm_e[0]) / 110e3] and [dLon] to
    [(utm_n[1] - utm_n[0]) / 110e3], logs the warning and returns the
    container. Nothing makes the two spacings differ from zero. *)
Theorem C7_out_of_range_falls_back filename s mat l s1 utm_e utm_n e0 e1 n0 n1 :
  Matlab.loadmat (fs s) filename = Ok mat ->
  Matlab.for_items mat (None, None) s = (Ok l, s1) ->
  Matlab.rescale l = Ok (utm_e, utm_n) ->
  conversion_raises to_latlon utm_e utm_n ->
  data utm_e !! 0%nat = Some e0 -> data utm_e !! 1%nat = Some e1 ->
  data utm_n !! 0%nat = Some n0 -> data utm_n !! 1%nat = Some n1 ->
  exists c s',
    Matlab.read to_latlon filename s = (Ok c, s') /\
    c !! "llLat" = Some (PyFloat IEEE.pzero) /\
    c !! "llLon" = Some (PyFloat IEEE.pzero) /\
    c !! "dLat" = Some (NpFloat (Matlab.spacing (dt utm_e) e1 e0)) /\
    c !! "dLon" = Some (NpFloat (Matlab.spacing (dt utm_n) n1 n0)) /\
    log s' = log s1 ++ [(WARNING, Matlab.fallback_msg)].
Proof.
  intros Hload Hloop Hscale (e_min & n_min & He & Hn & Hraise) He0 He1 Hn0 Hn1.
  unfold Matlab.read.
  unfold bind at 1, reading at 1. rewrite Hload.
  rewrite (bind_ok _ _ _ _ _ Hloop).
  unfold bind at 1, lift at 1. rewrite Hscale. cbn [fst snd].
  unfold Matlab.except_OutOfRange, Matlab.utm_to_latlon, Np.item,
    bind, lift, ret, raise, setitem, emit, get_container.
  rewrite He, Hn.
  destruct Hraise as [Hll | (ll & e_max & n_max & Hll & Hem & Hnm & Hur)]; rewrite Hll.
  - rewrite He0, He1, Hn0, Hn1. cbn [container log fs].
    do 2 eexists. split; [reflexivity|].
    repeat split; try reflexivity;
      repeat (rewrite lookup_insert_ne by discriminate); apply lookup_insert_eq.
  - cbn [container log fs]. rewrite Hem, Hnm, Hur.
    rewrite He0, He1, Hn0, Hn1. cbn [container log fs].
    do 2 eexists. split; [reflexivity|].
    repeat split; try reflexivity;
      repeat (rewrite lookup_insert_ne by discriminate); apply lookup_insert_eq.
Qed.

End MatlabFallback.


(** The conversion is out of range and the decode falls back, with its
    warning; [yy] being a mesh, its first two elements are equal and
    [dLon] is zero. *)
Lemma C7_counterexample :
  MatProduct.to_latlon_range (IEEE.of_Z 2000000) (IEEE.of_Z 5000000) 32 "N" = None /\
  is_ok (fst MatProduct.run) = true /\
  log (snd MatProduct.run) = [(WARNING, Matlab.fallback_msg)] /\
  Product.returned MatProduct.run !! "dLon" = Some (NpFloat IEEE.pzero).
Proof. repeat split; vm_compute; reflexivity. Qed.

Lemma C7_witness :
  exists c s',
    MatProduct.run = (Ok c, s') /\
    c !! "llLat" = Some (PyFloat IEEE.pzero) /\
    c !! "llLon" = Some (PyFloat IEEE.pzero) /\
    c !! "dLat"
    = Some (NpFloat (Matlab.spacing IEEE.f8 (IEEE.of_Z 2000100) (IEEE.of_Z 2000000))) /\
    c !! "dLon"
    = Some (NpFloat (Matlab.spacing IEEE.f8 (IEEE.of_Z 5000000) (IEEE.of_Z 5000000))) /\
    log s' = log (SceneIO_init MatProduct.files) ++ [(WARNING, Matlab.fallback_msg)].
Proof.
  apply (C7_out_of_range_falls_back MatProduct.to_latlon_range "/mat/scene.mat"
           (SceneIO_init MatProduct.files) MatProduct.mesh
           (Some (Np.flat IEEE.f8 (map IEEE.of_Z [2000000; 2000100; 2000000; 2000100])),
            Some (Np.flat IEEE.f8 (map IEEE.of_Z [5000000; 5000000; 5000100; 5000100])))
           (State (<["displacement" := MatProduct.grid [1; 2; 3; 4]]> empty_container)
                  [] MatProduct.files)
           (Np.flat IEEE.f8 (map IEEE.of_Z [2000000; 2000100; 2000000; 2000100]))
           (Np.flat IEEE.f8 (map IEEE.of_Z [5000000; 5000000; 5000100; 5000100]))
           (IEEE.of_Z 2000000) (IEEE.of_Z 2000100)
           (IEEE.of_Z 5000000) (IEEE.of_Z 5000000)).
  - reflexivity.
  - vm_compute; reflexivity.
  - vm_compute; reflexivity.
  - exists (IEEE.of_Z 2000000), (IEEE.of_Z 5000000).
    split; [vm_compute; reflexivity|]. split; [vm_compute; reflexivity|].
    left. vm_compute; reflexivity.
  - reflexivity.
  - reflexivity.
  - reflexivity.
  - reflexivity.
Defined.


(** * Further properties of the readers *)

(** ** What a decode leaves alone *)

Lemma keeps_ret {A} I (a : A) : keeps I (ret a).
Proof. intros s r s' HI [= _ <-]. exact HI. Qed.

Lemma keeps_raise {A} I e : keeps I (@raise A e).
Proof. intros s r s' HI [= _ <-]. exact HI. Qed.

Lemma keeps_lift {A} I (x : result A) : keeps I (lift x).
Proof. intros s r s' HI [= _ <-]. exact HI. Qed.

Lemma keeps_reading {A} I (f : filesystem -> result A) : keeps I (reading f).
Proof. intros s r s' HI [= _ <-]. exact HI. Qed.

Lemma keeps_get_container I : keeps I get_container.
Proof. intros s r s' HI [= _ <-]. exact HI. Qed.

Lemma keeps_bind {A B} I (m : M A) (k : A -> M B) :
  keeps I m -> (forall a, keeps I (k a)) -> keeps I (bind m k).
Proof.
  intros Hm Hk s r s' HI H.
  apply bind_inv in H as [(a & s1 & H1 & H2) | (e & H1 & _)].
  - exact (Hk a _ _ _ (Hm _ _ _ HI H1) H2).
  - exact (Hm _ _ _ HI H1).
Qed.

Lemma keeps_except_ImportError {A} I (m h : M A) :
  keeps I m -> keeps I h -> keeps I (except_ImportError m h).
Proof.
  intros Hm Hh s r s' HI. unfold except_ImportError.
  destruct (m s) as [[a|e] s1] eqn:E.
  - intros [= _ <-]. exact (Hm _ _ _ HI E).
  - destruct e; try (intros [= _ <-]; exact (Hm _ _ _ HI E)).
    intros H. exact (Hh _ _ _ (Hm _ _ _ HI E) H).
Qed.

Lemma keeps_except_any {A} I (m h : M A) :
  keeps I m -> keeps I h -> keeps I (except_any m h).
Proof.
  intros Hm Hh s r s' HI. unfold except_any.
  destruct (m s) as [[a|e] s1] eqn:E.
  - intros [= _ <-]. exact (Hm _ _ _ HI E).
  - intros H. exact (Hh _ _ _ (Hm _ _ _ HI E) H).
Qed.

Lemma keeps_except_OutOfRange {A} I (m h : M A) :
  keeps I m -> keeps I h -> keeps I (Matlab.except_OutOfRange m h).
Proof.
  intros Hm Hh s r s' HI. unfold Matlab.except_OutOfRange.
  destruct (m s) as [[a|e] s1] eqn:E.
  - intros [= _ <-]. exact (Hm _ _ _ HI E).
  - destruct e; try (intros [= _ <-]; exact (Hm _ _ _ HI E)).
    intros H. exact (Hh _ _ _ (Hm _ _ _ HI E) H).
Qed.

Lemma keeps_if {A} I (b : bool) (m1 m2 : M A) :
  keeps I m1 -> keeps I m2 -> keeps I (if b then m1 else m2).
Proof. destruct b; auto. Qed.

Lemma framed_emit R d log0 l msg : keeps (framed R d log0) (emit l msg).
Proof.
  intros s r s' (Hf & Hd & Hl) [= _ <-]. repeat split; cbn; auto.
  now apply prefix_app_r.
Qed.

Lemma framed_setitem R d log0 k v :
  k ∈ d -> keeps (framed R d log0) (setitem k v).
Proof.
  intros Hk s r s' (Hf & Hd & Hl) [= _ <-]. repeat split; cbn; auto.
  rewrite dom_insert_L, Hd. apply subseteq_union_1_L, singleton_subseteq_l, Hk.
Qed.

Lemma framed_start (R : filesystem -> Prop) s :
  R (fs s) -> framed R (dom (container s)) (log s) s.
Proof. intros HR. repeat split; [exact HR | reflexivity]. Qed.

Lemma fields_in_dom (c : gmap string pyval) :
  (forall k, In k fields -> is_Some (c !! k)) -> forall k, In k fields -> k ∈ dom c.
Proof. intros H k Hk. apply elem_of_dom. auto. Qed.

(** A fresh reader has the seven fields. *)
Lemma empty_container_fields k : In k fields -> is_Some (empty_container !! k).
Proof.
  intros Hk. simpl in Hk.
  repeat (destruct Hk as [<- | Hk]; [eexists; reflexivity|]). destruct Hk.
Qed.

(** One step after the other through the body of a method. *)
Ltac keeps_steps :=
  repeat first
    [ apply keeps_bind; [|intros ?]
    | apply keeps_except_ImportError
    | apply keeps_except_any
    | apply keeps_except_OutOfRange
    | apply keeps_ret | apply keeps_raise | apply keeps_lift | apply keeps_reading
    | apply keeps_get_container | apply framed_emit
    | apply keeps_if
    | apply framed_setitem ].

(** *** Gamma *)

Lemma first_par_file_framed R d log0 files :
  keeps (framed R d log0) (Gamma.first_par_file files).
Proof.
  induction files as [|file rest IH]; simpl; keeps_steps. exact IH.
Qed.

Lemma getAngle_framed R d log0 filename pattern :
  keeps (framed R d log0) (Gamma._getAngle filename pattern).
Proof. unfold Gamma._getAngle. keeps_steps. Qed.

Lemma Gamma_read_framed cos R d log0 filename kwargs :
  (forall k, In k fields -> k ∈ d) ->
  keeps (framed R d log0) (Gamma.read cos filename kwargs).
Proof.
  intros Hd. unfold Gamma.read, Gamma.pop_par_file, Gamma._getParameterFile.
  keeps_steps; try (apply Hd; simpl; tauto);
    auto using first_par_file_framed, getAngle_framed.
Qed.

(** X1. [Gamma.read] changes no file, whatever it returns or raises; on a
    container that has the seven fields it adds no key and removes none,
    and what it logs comes after what was logged before. *)
Theorem X1_gamma_read_never_writes cos filename kwargs s r s' :
  (forall k, In k fields -> is_Some (container s !! k)) ->
  Gamma.read cos filename kwargs s = (r, s') ->
  fs s' = fs s /\
  dom (container s') = dom (container s) /\
  log s `prefix_of` log s'.
Proof.
  intros Hk H.
  exact (Gamma_read_framed cos (fun f => f = fs s) _ _ filename kwargs
           (fields_in_dom _ Hk) _ _ _ (framed_start _ s eq_refl) H).
Qed.

Lemma X1_witness :
  let s := Scene.start (Scene.complete Scene.ones) in
  let run := Gamma.read Product.cos_of_zero "/scene/geo.disp" None s in
  fs (snd run) = fs s /\
  dom (container (snd run)) = dom (container s) /\
  log s `prefix_of` log (snd run).
Proof.
  intros s run.
  apply (X1_gamma_read_never_writes Product.cos_of_zero "/scene/geo.disp" None s
           (fst run) (snd run)).
  - exact empty_container_fields.
  - apply surjective_pairing.
Defined.

(** *** Matlab *)

Lemma assign_framed R d log0 mat_k v io_k l :
  io_k ∈ d -> "displacement" ∈ d ->
  keeps (framed R d log0) (Matlab.assign mat_k v io_k l).
Proof. intros Hk Hd. unfold Matlab.assign. keeps_steps; assumption. Qed.

Lemma for_keys_framed R d log0 mat_k v keys l :
  (forall k, In k keys -> k ∈ d) -> "displacement" ∈ d ->
  keeps (framed R d log0) (Matlab.for_keys mat_k v keys l).
Proof.
  intros Hks Hd. revert l. induction keys as [|io_k rest IH]; intros l; simpl.
  - apply keeps_ret.
  - apply keeps_bind; [|intros l'].
    + apply assign_framed; [apply Hks; left; reflexivity | exact Hd].
    + apply IH. intros k Hk. apply Hks. right. exact Hk.
Qed.

Lemma for_items_framed R d log0 mat l :
  "displacement" ∈ d ->
  keeps (framed R d log0) (Matlab.for_items mat l).
Proof.
  intros Hd. revert l. induction mat as [|[mat_k v] rest IH]; intros l; simpl.
  - apply keeps_ret.
  - intros s r s' HI H. unfold bind at 1, get_container at 1 in H.
    revert H. apply keeps_bind; [|intros l'; apply IH|exact HI].
    apply for_keys_framed; [|exact Hd].
    intros k Hk. destruct HI as (_ & <- & _).
    apply in_map_iff in Hk as ([k' x] & <- & Hk).
    apply list_elem_of_In, elem_of_map_to_list in Hk. apply elem_of_dom. eauto.
Qed.

Lemma Matlab_read_framed to_latlon R d log0 filename :
  (forall k, In k fields -> k ∈ d) ->
  keeps (framed R d log0) (Matlab.read to_latlon filename).
Proof.
  intros Hd. unfold Matlab.read, Matlab.utm_to_latlon.
  keeps_steps; try (apply Hd; simpl; tauto).
  - apply for_items_framed. apply Hd; simpl; tauto.
  - destruct (to_latlon _ _ _ _); keeps_steps.
  - destruct (to_latlon _ _ _ _); keeps_steps.
Qed.

(** X2. [Matlab.read] changes no file, whatever it returns or raises; the
    loop over the variables and the fallback store under the seven fields
    only, and the log only grows. *)
Theorem X2_matlab_read_never_writes to_latlon filename s r s' :
  (forall k, In k fields -> is_Some (container s !! k)) ->
  Matlab.read to_latlon filename s = (r, s') ->
  fs s' = fs s /\
  dom (container s') = dom (container s) /\
  log s `prefix_of` log s'.
Proof.
  intros Hk H.
  exact (Matlab_read_framed to_latlon (fun f => f = fs s) _ _ filename
           (fields_in_dom _ Hk) _ _ _ (framed_start _ s eq_refl) H).
Qed.

Lemma X2_witness :
  let s := SceneIO_init MatProduct.files in
  fs (snd MatProduct.run) = fs s /\
  dom (container (snd MatProduct.run)) = dom (container s) /\
  log s `prefix_of` log (snd MatProduct.run).
Proof.
  intros s.
  apply (X2_matlab_read_never_writes MatProduct.to_latlon_range "/mat/scene.mat" s
           (fst MatProduct.run) (snd MatProduct.run)).
  - exact empty_container_fields.
  - apply surjective_pairing.
Defined.

(** *** GMTSAR *)

Section GmtsarFrame.
Variable netcdf_file : list Byte.byte -> result (gmap string ndarray).
Variable arctan arccos rad2deg : IEEE.dtype -> spec_float -> spec_float.

Lemma GMTSAR_read_framed R d log0 path :
  (forall k, In k fields -> k ∈ d) ->
  keeps (framed R d log0) (GMTSAR.read netcdf_file arctan arccos rad2deg path).
Proof.
  intros Hd. unfold GMTSAR.read.
  keeps_steps; try (apply Hd; simpl; tauto).
  match goal with |- keeps _ (match ?l with _ => _ end) => destruct l end; keeps_steps.
Qed.

(** X3. [GMTSAR.read] changes no file, whatever it returns or raises: the
    LOS file is mapped, but only copies of it are worked on. The container
    keeps its fields and the log only grows. *)
Theorem X3_gmtsar_read_never_writes path s r s' :
  (forall k, In k fields -> is_Some (container s !! k)) ->
  GMTSAR.read netcdf_file arctan arccos rad2deg path s = (r, s') ->
  fs s' = fs s /\
  dom (container s') = dom (container s) /\
  log s `prefix_of` log s'.
Proof.
  intros Hk H.
  exact (GMTSAR_read_framed (fun f => f = fs s) _ _ path
           (fields_in_dom _ Hk) _ _ _ (framed_start _ s eq_refl) H).
Qed.

End GmtsarFrame.

Lemma X3_witness :
  let s := SceneIO_init GmtProduct.with_los in
  let run := GMTSAR.read GmtProduct.netcdf_file GmtProduct.unchanged
               GmtProduct.unchanged GmtProduct.unchanged "/gmt" s in
  fs (snd run) = fs s /\
  dom (container (snd run)) = dom (container s) /\
  log s `prefix_of` log (snd run).
Proof.
  intros s run.
  apply (X3_gmtsar_read_never_writes GmtProduct.netcdf_file GmtProduct.unchanged
           GmtProduct.unchanged GmtProduct.unchanged "/gmt" s (fst run) (snd run)).
  - exact empty_container_fields.
  - apply surjective_pairing.
Defined.

(** *** ISCE *)

Lemma write_lookup_ne fs p bs q :
  q <> p -> Os.lookup (Os.write fs p bs) q = Os.lookup fs q.
Proof.
  intros Hq. induction fs as [|[q' n] fs IH]; simpl; [reflexivity|].
  destruct (String.eqb q' p) eqn:Hp; simpl.
  - apply String.eqb_eq in Hp as ->.
    replace (String.eqb p q) with false; [reflexivity|].
    symmetry. apply String.eqb_neq. congruence.
  - destruct (String.eqb q' q); [reflexivity | exact IH].
Qed.

Lemma write_isfile fs p bs q : Os.isfile (Os.write fs p bs) q = Os.isfile fs q.
Proof.
  unfold Os.isfile. induction fs as [|[q' n] fs IH]; simpl; [reflexivity|].
  destruct (String.eqb q' p) eqn:Hp; simpl.
  - destruct (String.eqb q' q); [destruct n; reflexivity | reflexivity].
  - destruct (String.eqb q' q); [reflexivity | exact IH].
Qed.

Lemma write_same_but_bytes fs p bs : same_but_bytes p fs (Os.write fs p bs).
Proof.
  split; [apply write_paths|]. split; [intros q; apply write_isfile|].
  intros q Hq. apply write_lookup_ne, Hq.
Qed.

Lemma same_but_bytes_refl p fs0 : same_but_bytes p fs0 fs0.
Proof. repeat split. Qed.

Lemma store_through_framed fs0 d log0 p bo mask s r s' :
  framed (fun f => f = fs0) d log0 s ->
  ISCE.store_through p bo mask s = (r, s') ->
  framed (same_but_bytes p fs0) d log0 s'.
Proof.
  intros (Hf & Hd & Hl) H.
  apply store_through_inv in H as [(f & _ & _ & ->) | [_ ->]].
  - rewrite Hf. split; [apply write_same_but_bytes|]. split; assumption.
  - split; [rewrite Hf; apply same_but_bytes_refl|]. split; assumption.
Qed.

(** A step that keeps [I]: it raised, and the run ends in a state of [I],
    or it went on from one. *)
Lemma bind_keeps {A B} (I Q : state -> Prop) (m : M A) (k : A -> M B) s r s' :
  bind m k s = (r, s') ->
  keeps I m -> (forall s, I s -> Q s) -> I s ->
  Q s' \/ exists a s1, I s1 /\ k a s1 = (r, s').
Proof.
  intros H Hm HQ HI.
  apply bind_inv in H as [(a & s1 & H1 & H2) | (e & H1 & _)].
  - right. exists a, s1. split; [exact (Hm _ _ _ HI H1) | exact H2].
  - left. apply HQ. exact (Hm _ _ _ HI H1).
Qed.

Ltac through I Q H HI HIQ tac :=
  let HQ := fresh "HQ" in
  let HI' := fresh "HI" in
  apply (bind_keeps I Q) in H;
  [ destruct H as [HQ | (? & ? & HI' & H)];
    [ exact HQ | clear HI; rename HI' into HI ]
  | tac | exact HIQ | exact HI ].

(** X4. [ISCE.read] writes to one file at most, the displacement file it
    maps: whatever it returns or raises, the directory has the same
    entries in the same order, each of the same kind, and every other path
    holds what it held. The container keeps its fields and the log only
    grows. *)
Theorem X4_isce_read_writes_one_file path s r s' :
  (forall k, In k fields -> is_Some (container s !! k)) ->
  ISCE.read path s = (r, s') ->
  dom (container s') = dom (container s) /\
  log s `prefix_of` log s' /\
  map fst (fs s') = map fst (fs s) /\
  (forall q, Os.isfile (fs s') q = Os.isfile (fs s) q) /\
  (forall q, ISCE._getDisplacementFile (fs s) path <> Ok q ->
             Os.lookup (fs s') q = Os.lookup (fs s) q).
Proof.
  intros Hk0 H. pose proof (fields_in_dom _ Hk0) as Hk. clear Hk0.
  set (d := dom (container s)) in *. set (log0 := log s). set (fs0 := fs s).
  set (I := framed (fun f => f = fs0) d log0).
  set (Q := fun s' : state =>
              dom (container s') = d /\ log0 `prefix_of` log s' /\
              map fst (fs s') = map fst fs0 /\
              (forall q, Os.isfile (fs s') q = Os.isfile fs0 q) /\
              (forall q, ISCE._getDisplacementFile fs0 path <> Ok q ->
                         Os.lookup (fs s') q = Os.lookup fs0 q)).
  change (Q s').
  assert (HIQ : forall s, I s -> Q s).
  { intros s1 (Hf & Hd & Hl). unfold Q. rewrite Hf. repeat split; auto. }
  assert (HI : I s) by (apply framed_start; reflexivity).
  unfold ISCE.read, Path.abspath in H.
  do 21 (through I Q H HI HIQ ltac:(subst I; keeps_steps; apply Hk; simpl; tauto)).
  apply bind_inv in H as [(disp_file & s1 & H1 & H) | (e & H1 & _)];
    apply reading_inv in H1 as [Hdisp ->]; [|apply HIQ, HI].
  pose proof HI as (Hfs & _). rewrite Hfs in Hdisp. clear Hfs.
  do 3 (through I Q H HI HIQ ltac:(subst I; keeps_steps)).
  assert (Hend : framed (same_but_bytes disp_file fs0) d log0 s').
  { apply bind_inv in H as [(? & s2 & H1 & H) | (e & H1 & _)];
      apply (store_through_framed fs0 d log0) in H1; try exact HI; [|exact H1].
    revert H.
    match goal with |- ?m ?s = _ -> _ =>
      apply (fun Hkeep : keeps _ m => Hkeep s r s' H1) end.
    keeps_steps; apply Hk; simpl; tauto. }
  destruct Hend as ((Hp & Hfile & Hlook) & Hd' & Hl').
  unfold Q. repeat split; auto.
  intros q Hq. apply Hlook. intros ->. apply Hq. symmetry. exact Hdisp.
Qed.

Lemma X4_witness :
  let s := SceneIO_init IsceProduct.with_los in
  let run := ISCE.read "/isce" s in
  dom (container (snd run)) = dom (container s) /\
  log s `prefix_of` log (snd run) /\
  map fst (fs (snd run)) = map fst (fs s) /\
  (forall q, Os.isfile (fs (snd run)) q = Os.isfile (fs s) q) /\
  (forall q, ISCE._getDisplacementFile (fs s) "/isce" <> Ok q ->
             Os.lookup (fs (snd run)) q = Os.lookup (fs s) q).
Proof.
  intros s run.
  apply (X4_isce_read_writes_one_file "/isce" s (fst run) (snd run)).
  - exact empty_container_fields.
  - apply surjective_pairing.
Defined.

(** ** Gamma: the parameter file *)

Lemma check_required_ok_iff rs (params : gmap string pyval) :
  Gamma.check_required rs params = Ok tt <-> Forall (fun r => is_Some (params !! r)) rs.
Proof.
  induction rs as [|r rs IH]; simpl.
  - split; [constructor | reflexivity].
  - destruct (params !! r) eqn:Hr.
    + rewrite IH. split; [intros H; constructor; [eauto | exact H]
                         | intros H; inversion H; assumption].
    + split; [discriminate|]. intros H. inversion H as [|? ? [v Hv] _]. congruence.
Qed.

(** X5. [_parseParameterFile] returns exactly when the file opens and its
    lines give each of the six required keys; what it returns is then the
    dict built from all the matched lines, required or not. *)
Theorem X5_parse_succeeds_iff_required_keys fs par_file params :
  Gamma._parseParameterFile fs par_file = Ok params <->
  exists par, Os.open fs par_file = Ok par /\ params = params_of par /\
              Forall (fun r => is_Some (params !! r)) Gamma.required.
Proof.
  unfold Gamma._parseParameterFile. split.
  - destruct (Os.open fs par_file) as [par|e]; [|discriminate].
    fold (params_of par).
    destruct (Gamma.check_required Gamma.required (params_of par)) as [[]|e] eqn:Hc;
      [|discriminate].
    intros [= <-]. exists par. repeat split. apply check_required_ok_iff, Hc.
  - intros (par & -> & -> & Hall). fold (params_of par).
    apply check_required_ok_iff in Hall. rewrite Hall. reflexivity.
Qed.

Lemma parse_line_other params l k :
  line_key l <> Some k -> Gamma.parse_line params l !! k = params !! k.
Proof.
  destruct l as [[k' t]|]; simpl; [|reflexivity]. intros Hk.
  assert (k' <> k) by congruence.
  destruct (as_float t); rewrite lookup_insert_ne by assumption; reflexivity.
Qed.

Lemma fold_parse_line_other ls params k :
  Forall (fun l => line_key l <> Some k) ls ->
  fold_left Gamma.parse_line ls params !! k = params !! k.
Proof.
  intros H. revert params. induction H as [|l ls Hl _ IH]; intros params; simpl.
  - reflexivity.
  - rewrite IH. apply parse_line_other, Hl.
Qed.

(** X6. A key that stands on several lines of a parameter file keeps the
    value of its last line: a float when [float] takes the text, the
    stripped text otherwise. *)
Theorem X6_last_line_wins bs before k t after e m :
  Forall (fun l => line_key l <> Some k) after ->
  params_of (File bs (before ++ Some (k, t) :: after) e m) !! k = Some (line_value t).
Proof.
  intros Hafter. unfold params_of. cbn [matches].
  rewrite fold_left_app. cbn [fold_left].
  rewrite fold_parse_line_other by exact Hafter.
  unfold Gamma.parse_line, line_value.
  destruct (as_float t); apply lookup_insert_eq.
Qed.

Lemma X6_witness :
  params_of par_width_twice !! "width" = Some (PyFloat (IEEE.of_Z 7)).
Proof.
  apply (X6_last_line_wins [] [Product.line "width" (IEEE.of_Z 5)] "width"
           (PyText "" (Some (IEEE.of_Z 7))) [Product.line "nlines" (IEEE.of_Z 4)]
           None None).
  repeat constructor. discriminate.
Defined.

Lemma first_par_file_skips skipped files s :
  Forall (not_a_par_file (fs s)) skipped ->
  Gamma.first_par_file (skipped ++ files) s = Gamma.first_par_file files s.
Proof.
  intros H. induction H as [|p skipped [args Hp] _ IH]; simpl; [reflexivity|].
  unfold except_ImportError, bind at 1, reading at 1. rewrite Hp. exact IH.
Qed.

(** X7. [_getParameterFile] returns the first entry of the glob for
    [*par] that parses, passing silently over the entries before it that
    end in an [ImportError]; it logs the find and changes nothing else. *)
Theorem X7_first_parameter_file_that_parses path s skipped file rest par :
  Os.glob (fs s) (Path.dirname (Path.realpath path) +:+ "/*par")
  = skipped ++ file :: rest ->
  Forall (not_a_par_file (fs s)) skipped ->
  Gamma._parseParameterFile (fs s) file = Ok par ->
  Gamma._getParameterFile path s
  = (Ok file,
     State (container s) (log s ++ [(DEBUG, "Found parameter file " +:+ file)]) (fs s)).
Proof.
  intros Hglob Hskip Hparse.
  unfold Gamma._getParameterFile, bind at 1, reading at 1. rewrite Hglob.
  rewrite first_par_file_skips by exact Hskip. simpl.
  unfold except_ImportError, bind, reading, emit, ret. rewrite Hparse. reflexivity.
Qed.

Lemma X7_witness :
  Gamma._getParameterFile "/scene/geo.disp" (SceneIO_init two_par_files)
  = (Ok "/scene/b.par",
     State empty_container [(DEBUG, "Found parameter file /scene/b.par")] two_par_files).
Proof.
  apply (X7_first_parameter_file_that_parses "/scene/geo.disp"
           (SceneIO_init two_par_files) ["/scene/a.par"] "/scene/b.par" []
           (params_of Product.par_4x5)).
  - vm_compute; reflexivity.
  - constructor; [|constructor]. eexists. vm_compute; reflexivity.
  - vm_compute; reflexivity.
Defined.

Lemma getParameterFile_none path s :
  Forall (not_a_par_file (fs s))
         (Os.glob (fs s) (Path.dirname (Path.realpath path) +:+ "/*par")) ->
  Gamma._getParameterFile path s = (Raise (ImportError [no_par_file_msg]), s).
Proof.
  intros Hnone.
  unfold Gamma._getParameterFile, bind at 1, reading at 1.
  rewrite <- (app_nil_r (Os.glob _ _)).
  rewrite first_par_file_skips by exact Hnone. reflexivity.
Qed.

(** X8. When no entry of the glob for [*par] parses (or there is none),
    the directory search ends in the [ImportError] "Could not find suiting
    Gamma parameter file (*par)"; and as the search is an argument of
    [kwargs.pop], an explicit [par_file] does not spare it: [validate]
    answers [False] and [read] raises that error, whatever [par_file] is
    given. *)
Theorem X8_explicit_par_file_still_searches cos filename kwargs s :
  Forall (not_a_par_file (fs s))
         (Os.glob (fs s) (Path.dirname (Path.realpath filename) +:+ "/*par")) ->
  Gamma._getParameterFile filename s = (Raise (ImportError [no_par_file_msg]), s) /\
  Gamma.validate filename kwargs s = (Ok false, s) /\
  Gamma.read cos filename kwargs s = (Raise (ImportError [no_par_file_msg]), s).
Proof.
  intros Hnone. pose proof (getParameterFile_none filename s Hnone) as H.
  split; [exact H|]. split.
  - unfold Gamma.validate, except_ImportError, Gamma.pop_par_file, bind at 1 2.
    rewrite H. reflexivity.
  - unfold Gamma.read, Gamma.pop_par_file, bind at 1 2. rewrite H. reflexivity.
Qed.

(** The explicit parameter file parses; the one beside the grid does not. *)
Lemma X8_witness :
  let s := SceneIO_init par_file_elsewhere in
  is_ok (Gamma._parseParameterFile par_file_elsewhere "/meta/geo.par") = true /\
  Gamma._getParameterFile "/scene/geo.disp" s
  = (Raise (ImportError [no_par_file_msg]), s) /\
  Gamma.validate "/scene/geo.disp" (Some "/meta/geo.par") s = (Ok false, s) /\
  Gamma.read Product.cos_of_zero "/scene/geo.disp" (Some "/meta/geo.par") s
  = (Raise (ImportError [no_par_file_msg]), s).
Proof.
  intros s. split; [vm_compute; reflexivity|].
  apply (X8_explicit_par_file_still_searches Product.cos_of_zero "/scene/geo.disp"
           (Some "/meta/geo.par") s).
  constructor; [|constructor]. eexists. vm_compute; reflexivity.
Defined.

(** ** Gamma: the decode *)

(** The 4 x 5 scene of twenty ones decodes. *)
Lemma scene_ones_run :
  let s := Scene.start (Scene.complete Scene.ones) in
  let run := Gamma.read Product.cos_of_zero "/scene/geo.disp" None s in
  run = (Ok (Product.returned run), snd run).
Proof. vm_compute; reflexivity. Qed.

Section GammaReadFull.
Variable cos : IEEE.dtype -> spec_float -> spec_float.

(** Every successful [Gamma.read] went through these steps, with these
    results. *)
Lemma Gamma_read_ok_inv filename kwargs s c s' :
  Gamma.read cos filename kwargs s = (Ok c, s') ->
  exists par_file s1 par width nrows height nlines raw padded fill displ
         phi s2 theta s3 angles theta' phi'
         corner_lat post_lat extent llLat corner_lon post_lon,
    Gamma.pop_par_file kwargs filename s = (Ok par_file, s1) /\
    Gamma._parseParameterFile (fs s1) par_file = Ok par /\
    (par !! "width" = Some width /\ Py.int width = Ok nrows) /\
    (par !! "nlines" = Some height /\ Py.int height = Ok nlines) /\
    Os.fromfile (fs s1) filename BigEndian = Ok raw /\
    Gamma.resize raw nrows = Ok (padded, fill) /\
    Np.reshape padded nlines nrows = Ok displ /\
    Gamma._getAngle filename "*phi*" s1 = (Ok phi, s2) /\
    Gamma._getAngle filename "*theta*" s2 = (Ok theta, s3) /\
    Gamma.append_fill fill (Gamma.np_cos cos theta) phi = Ok angles /\
    Np.reshape_method (fst angles) nlines nrows = Ok theta' /\
    Np.reshape_method (snd angles) nlines nrows = Ok phi' /\
    par !! "corner_lat" = Some corner_lat /\
    par !! "post_lat" = Some post_lat /\
    Py.mul_int post_lat nrows = Ok extent /\
    Py.add corner_lat extent = Ok llLat /\
    par !! "corner_lon" = Some corner_lon /\
    par !! "post_lon" = Some post_lon /\
    c = gamma_container (container s3) displ llLat corner_lon post_lon post_lat
                        theta' phi' /\
    s' = State c (log s3) (fs s3).
Proof.
  intros H. unfold Gamma.read in H.
  apply bind_inv_ok in H as (par_file & s1 & Hpop & H).
  apply bind_inv_ok in H as (par & ? & Hparse & H).
  apply reading_inv in Hparse as [Hparse ->].
  apply bind_inv_ok in H as ([nrows nlines] & ? & Hdims & H).
  apply dims_inv in Hdims as (-> & (width & Hw & Hwi) & (height & Hh & Hhi)).
  cbn [fst snd] in *.
  apply bind_inv_ok in H as (raw & ? & Hraw & H).
  apply reading_inv in Hraw as [Hraw ->].
  apply bind_inv_ok in H as ([padded fill] & ? & Hresize & H).
  apply lift_inv in Hresize as [Hresize ->]. cbn [fst snd] in *.
  apply bind_inv_ok in H as (displ & ? & Hreshape & H).
  apply lift_inv in Hreshape as [Hreshape ->].
  apply bind_inv_ok in H as (phi & s2 & Hphi & H).
  apply bind_inv_ok in H as (theta & s3 & Htheta & H).
  apply bind_inv_ok in H as (angles & ? & Hangles & H).
  apply lift_inv in Hangles as [Hangles ->].
  apply bind_inv_ok in H as (theta' & ? & Ht & H).
  apply lift_inv in Ht as [Ht ->].
  apply bind_inv_ok in H as (phi' & ? & Hp & H).
  apply lift_inv in Hp as [Hp ->].
  apply bind_inv_ok in H as (? & ? & Hset & H). apply setitem_inv in Hset as [_ ->].
  apply bind_inv_ok in H as (corner_lat & ? & Hcl & H). apply lift_inv in Hcl as [Hcl ->].
  apply bind_inv_ok in H as (post_lat & ? & Hpl & H). apply lift_inv in Hpl as [Hpl ->].
  apply bind_inv_ok in H as (extent & ? & Hext & H). apply lift_inv in Hext as [Hext ->].
  apply bind_inv_ok in H as (llLat & ? & Hll & H). apply lift_inv in Hll as [Hll ->].
  apply bind_inv_ok in H as (? & ? & Hset & H). apply setitem_inv in Hset as [_ ->].
  apply bind_inv_ok in H as (corner_lon & ? & Hclon & H). apply lift_inv in Hclon as [Hclon ->].
  apply bind_inv_ok in H as (? & ? & Hset & H). apply setitem_inv in Hset as [_ ->].
  apply bind_inv_ok in H as (post_lon & ? & Hplon & H). apply lift_inv in Hplon as [Hplon ->].
  apply bind_inv_ok in H as (? & ? & Hset & H). apply setitem_inv in Hset as [_ ->].
  apply bind_inv_ok in H as (? & ? & Hset & H). apply setitem_inv in Hset as [_ ->].
  apply bind_inv_ok in H as (? & ? & Hset & H). apply setitem_inv in Hset as [_ ->].
  apply bind_inv_ok in H as (? & ? & Hset & H). apply setitem_inv in Hset as [_ ->].
  unfold get_container in H. cbn [container log fs] in H. injection H as <- <-.
  symmetry in Hcl, Hpl, Hclon, Hplon.
  apply getitem_inv in Hcl, Hpl, Hclon, Hplon.
  exists par_file, s1, par, width, nrows, height, nlines, raw, padded, fill, displ,
    phi, s2, theta, s3, angles, theta', phi',
    corner_lat, post_lat, extent, llLat, corner_lon, post_lon.
  repeat split; auto.
Qed.

End GammaReadFull.

Lemma reshape_exact a d1 d2 a' :
  Np.reshape a d1 d2 = Ok a' -> d1 <> -1 -> d2 <> -1 ->
  0 <= d1 /\ 0 <= d2 /\
  shape a' = [Z.to_nat d1; Z.to_nat d2] /\ data a' = data a /\ dt a' = dt a /\
  Z.of_nat (length (data a')) = d1 * d2.
Proof.
  unfold Np.reshape, Np.size. intros H H1 H2.
  destruct ((d1 <? -1) || (d2 <? -1)) eqn:E; [discriminate|].
  apply orb_false_iff in E as [E1 E2].
  destruct ((d1 =? -1) && (d2 =? -1)); [discriminate|].
  destruct (d1 =? -1) eqn:E3; [lia|].
  destruct (d2 =? -1) eqn:E4; [lia|].
  destruct (d1 * d2 =? Z.of_nat (length (data a))) eqn:E5; [|discriminate].
  injection H as <-. cbn [shape data dt]. repeat split; lia.
Qed.

Lemma reshape_method_exact v d1 d2 a' :
  Np.reshape_method v d1 d2 = Ok a' -> d1 <> -1 -> d2 <> -1 ->
  shape a' = [Z.to_nat d1; Z.to_nat d2] /\ Z.of_nat (length (data a')) = d1 * d2.
Proof.
  unfold Np.reshape_method. intros H H1 H2.
  destruct v; try discriminate;
    apply reshape_exact in H as (_ & _ & Hs & _ & _ & Hl); auto.
Qed.

Lemma resize_nonzero displ nrows r : Gamma.resize displ nrows = Ok r -> nrows <> 0.
Proof.
  unfold Gamma.resize. destruct (nrows =? 0) eqn:E; [discriminate|]. lia.
Qed.

(** X9. After a successful [Gamma.read] the displacement, [theta] and [phi]
    are arrays; [width] is not zero, and unless one of [nlines] and [width]
    is the [-1] that [reshape] infers, the three arrays have the shape
    [(nlines, width)] and [nlines * width] cells each. *)
Theorem X9_grids_share_shape cos filename kwargs s c s' :
  Gamma.read cos filename kwargs s = (Ok c, s') ->
  exists par_file par width nrows height nlines displ theta phi,
    Gamma._parseParameterFile (fs s) par_file = Ok par /\
    par !! "width" = Some width /\ Py.int width = Ok nrows /\
    par !! "nlines" = Some height /\ Py.int height = Ok nlines /\
    c !! "displacement" = Some (NpArray displ) /\
    c !! "theta" = Some (NpArray theta) /\
    c !! "phi" = Some (NpArray phi) /\
    nrows <> 0 /\
    (nrows <> -1 -> nlines <> -1 ->
     0 < nrows /\ 0 <= nlines /\
     shape displ = [Z.to_nat nlines; Z.to_nat nrows] /\
     shape theta = [Z.to_nat nlines; Z.to_nat nrows] /\
     shape phi = [Z.to_nat nlines; Z.to_nat nrows] /\
     Z.of_nat (length (data displ)) = nlines * nrows /\
     Z.of_nat (length (data theta)) = nlines * nrows /\
     Z.of_nat (length (data phi)) = nlines * nrows).
Proof.
  intros H.
  destruct (Gamma_read_ok_inv cos _ _ _ _ _ H)
    as (par_file & s1 & par & width & nrows & height & nlines & raw & padded & fill
        & displ & phi & s2 & theta & s3 & angles & theta' & phi'
        & corner_lat & post_lat & extent & llLat & corner_lon & post_lon
        & Hpop & Hparse & [Hw Hwi] & [Hh Hhi] & Hraw & Hresize & Hreshape
        & Hphi & Htheta & Hangles & Ht & Hp & _ & _ & _ & _ & _ & _ & -> & _).
  apply pop_par_file_frame in Hpop as [_ Hfs]. rewrite Hfs in Hparse.
  exists par_file, par, width, nrows, height, nlines.
  eexists _, theta', phi'.
  unfold gamma_container.
  repeat (split; [first [ assumption
                        | repeat (rewrite lookup_insert_ne by discriminate);
                          apply lookup_insert_eq ]|]).
  pose proof (resize_nonzero _ _ _ Hresize) as Hnz.
  split; [exact Hnz|]. intros H1 H2.
  apply reshape_exact in Hreshape as (Hl & Hr & Hs & Hd & _ & Hlen); auto.
  apply reshape_method_exact in Ht as [Hts Htl]; auto.
  apply reshape_method_exact in Hp as [Hps Hpl]; auto.
  cbn [Np.mul_scalar Np.set_nan_where_eq shape data].
  rewrite !length_map.
  repeat split; auto; lia.
Qed.

Lemma X9_witness :
  let s := Scene.start (Scene.complete Scene.ones) in
  let run := Gamma.read Product.cos_of_zero "/scene/geo.disp" None s in
  let c := Product.returned run in
  let s' := snd run in
  exists par_file par width nrows height nlines displ theta phi,
    Gamma._parseParameterFile (fs s) par_file = Ok par /\
    par !! "width" = Some width /\ Py.int width = Ok nrows /\
    par !! "nlines" = Some height /\ Py.int height = Ok nlines /\
    c !! "displacement" = Some (NpArray displ) /\
    c !! "theta" = Some (NpArray theta) /\
    c !! "phi" = Some (NpArray phi) /\
    nrows <> 0 /\
    (nrows <> -1 -> nlines <> -1 ->
     0 < nrows /\ 0 <= nlines /\
     shape displ = [Z.to_nat nlines; Z.to_nat nrows] /\
     shape theta = [Z.to_nat nlines; Z.to_nat nrows] /\
     shape phi = [Z.to_nat nlines; Z.to_nat nrows] /\
     Z.of_nat (length (data displ)) = nlines * nrows /\
     Z.of_nat (length (data theta)) = nlines * nrows /\
     Z.of_nat (length (data phi)) = nlines * nrows).
Proof.
  intros s run c s'.
  apply (X9_grids_share_shape Product.cos_of_zero "/scene/geo.disp" None s c s').
  exact scene_ones_run.
Defined.



Lemma resize_cases displ nrows padded fill :
  Gamma.resize displ nrows = Ok (padded, fill) ->
  let k := nrows - Np.size displ mod nrows in
  (Np.size displ mod nrows = 0 /\ padded = displ /\ fill = None) \/
  (Np.size displ mod nrows <> 0 /\ 0 <= k /\
   padded = Np.flat IEEE.f8 (map (IEEE.cast IEEE.f8) (data displ)
                             ++ replicate (Z.to_nat k) IEEE.nan) /\
   fill = Some (Np.flat IEEE.f8 (replicate (Z.to_nat k) IEEE.nan))).
Proof.
  unfold Gamma.resize, Np.nan_fill, Np.append, Np.ravel. cbn zeta.
  destruct (nrows =? 0); [discriminate|].
  destruct (Np.size displ mod nrows =? 0) eqn:E; cbn [negb].
  - intros [= <- <-]. left. repeat split. lia.
  - destruct (nrows - Np.size displ mod nrows <? 0) eqn:E2; [discriminate|].
    intros [= <- <-]. right. cbn [dt Np.flat data].
    replace (IEEE.promote (dt displ) IEEE.f8) with IEEE.f8 by (destruct (dt displ); reflexivity).
    assert (Hnan : forall k, map (IEEE.cast IEEE.f8) (replicate k IEEE.nan) = replicate k IEEE.nan).
    { induction k as [|k IH]; simpl; [reflexivity | now rewrite IH]. }
    rewrite Hnan. repeat split; lia.
Qed.

Lemma recoded_nan d k :
  map (recoded d) (replicate k IEEE.nan) = replicate k IEEE.nan.
Proof.
  induction k as [|k IH]; simpl; [reflexivity|]. rewrite IH. reflexivity.
Qed.

(** X11. "Resize array if last line is not scanned completely", in general:
    after a successful [Gamma.read] of a file of [n] items, when [n] is a
    multiple of [width] the displacement is a binary32 array of the [n]
    items, recoded and scaled; otherwise it is a binary64 array of the [n]
    items followed by [width - n mod width] NaNs. *)
Theorem X11_last_line_is_padded cos filename kwargs s c s' :
  Gamma.read cos filename kwargs s = (Ok c, s') ->
  exists par_file par width nrows f a,
    Gamma._parseParameterFile (fs s) par_file = Ok par /\
    par !! "width" = Some width /\ Py.int width = Ok nrows /\
    Os.open (fs s) filename = Ok f /\
    c !! "displacement" = Some (NpArray a) /\
    let items := frombuffer BigEndian (bytes f) in
    let n := Z.of_nat (length items) in
    (n mod nrows = 0 ->
     dt a = IEEE.f4 /\ data a = map (recoded IEEE.f4) items) /\
    (n mod nrows <> 0 ->
     dt a = IEEE.f8 /\
     data a = map (recoded IEEE.f8) (map (IEEE.cast IEEE.f8) items)
              ++ replicate (Z.to_nat (nrows - n mod nrows)) IEEE.nan).
Proof.
  intros H.
  destruct (Gamma_read_ok_inv cos _ _ _ _ _ H)
    as (par_file & s1 & par & width & nrows & height & nlines & raw & padded & fill
        & displ & phi & s2 & theta & s3 & angles & theta' & phi'
        & corner_lat & post_lat & extent & llLat & corner_lon & post_lon
        & Hpop & Hparse & [Hw Hwi] & _ & Hraw & Hresize & Hreshape
        & _ & _ & _ & _ & _ & _ & _ & _ & _ & _ & _ & -> & _).
  apply pop_par_file_frame in Hpop as [_ Hfs]. rewrite Hfs in Hparse, Hraw.
  apply fromfile_inv in Hraw as (f & Hf & ->).
  apply reshape_inv in Hreshape as (r & w & -> & _ & _).
  exists par_file, par, width, nrows, f. eexists.
  repeat (split; [first [ assumption
                        | unfold gamma_container;
                          repeat (rewrite lookup_insert_ne by discriminate);
                          apply lookup_insert_eq ]|]).
  cbn [Np.mul_scalar Np.set_nan_where_eq dt data].
  apply resize_cases in Hresize as [(Hmod & -> & _) | (Hmod & Hk & -> & _)];
    unfold Np.size in *; cbn [Np.flat data dt] in *.
  - split; [|intros Hne; contradiction].
    intros _. split; [reflexivity|]. rewrite List.map_map. reflexivity.
  - split; [intros He; contradiction|].
    intros _. split; [reflexivity|].
    rewrite List.map_map.
    change (fun x => IEEE.mul IEEE.f8 (if IEEE.eqb x IEEE.nzero then IEEE.nan else x)
                       (IEEE.cast IEEE.f8 IEEE.c_1em2)) with (recoded IEEE.f8).
    rewrite map_app, recoded_nan. reflexivity.
Qed.

Lemma X11_witness :
  let s := Scene.start (Scene.complete Scene.ones) in
  let run := Gamma.read Product.cos_of_zero "/scene/geo.disp" None s in
  let c := Product.returned run in
  let s' := snd run in
  exists par_file par width nrows f a,
    Gamma._parseParameterFile (fs s) par_file = Ok par /\
    par !! "width" = Some width /\ Py.int width = Ok nrows /\
    Os.open (fs s) "/scene/geo.disp" = Ok f /\
    c !! "displacement" = Some (NpArray a) /\
    let items := frombuffer BigEndian (bytes f) in
    let n := Z.of_nat (length items) in
    (n mod nrows = 0 ->
     dt a = IEEE.f4 /\ data a = map (recoded IEEE.f4) items) /\
    (n mod nrows <> 0 ->
     dt a = IEEE.f8 /\
     data a = map (recoded IEEE.f8) (map (IEEE.cast IEEE.f8) items)
              ++ replicate (Z.to_nat (nrows - n mod nrows)) IEEE.nan).
Proof.
  intros s run c s'.
  apply (X11_last_line_is_padded Product.cos_of_zero "/scene/geo.disp" None s c s').
  exact scene_ones_run.
Defined.

Ltac gamma_prelude Hpop Hparse Hw Hwi Hh Hhi :=
  unfold Gamma.read; rewrite (bind_ok _ _ _ _ _ Hpop);
  unfold bind at 1, reading at 1; rewrite Hparse;
  unfold bind at 1, except_any, bind, lift, ret, getitem;
  rewrite Hw, Hwi, Hh, Hhi; cbn [fst snd].

(** X12. The [try] around the two [int()] calls: when [width] or [nlines] of the
    parameter file is no number [int] takes (text that [float] refused, a
    NaN, an infinity), [Gamma.read] raises the [ImportError] "Error parsing
    width and nlines from ..." that names the parameter file, and leaves
    the reader as the search for the parameter file left it. *)
Theorem X12_bad_dimensions_are_ImportError cos filename kwargs s par_file s1 par width height :
  Gamma.pop_par_file kwargs filename s = (Ok par_file, s1) ->
  Gamma._parseParameterFile (fs s1) par_file = Ok par ->
  par !! "width" = Some width -> par !! "nlines" = Some height ->
  is_ok (Py.int width) && is_ok (Py.int height) = false ->
  Gamma.read cos filename kwargs s = (Raise (ImportError [dims_msg par_file]), s1).
Proof.
  intros Hpop Hparse Hw Hh Hbad.
  unfold Gamma.read. rewrite (bind_ok _ _ _ _ _ Hpop).
  unfold bind at 1, reading at 1. rewrite Hparse.
  unfold bind at 1, except_any, bind, lift, ret, raise, getitem.
  rewrite Hw, Hh.
  destruct (Py.int width) as [nrows|e1]; [|reflexivity].
  destruct (Py.int height) as [nlines|e2]; [discriminate | reflexivity].
Qed.

(** [width: nan] in the parameter file. *)
Lemma X12_witness :
  let s := Scene.start (Product.gamma par_nan_width Scene.ones []) in
  Gamma.read Product.cos_of_zero "/scene/geo.disp" None s
  = (Raise (ImportError [dims_msg "/scene/geo.par"]),
     snd (Gamma.pop_par_file None "/scene/geo.disp" s)).
Proof.
  intros s.
  apply (X12_bad_dimensions_are_ImportError Product.cos_of_zero "/scene/geo.disp" None s
           "/scene/geo.par" (snd (Gamma.pop_par_file None "/scene/geo.disp" s))
           (params_of par_nan_width) (PyFloat IEEE.nan) (PyFloat (IEEE.of_Z 4)));
    vm_compute; reflexivity.
Defined.

(** X13. Errors of [Gamma.read] that are no [ImportError], once the parameter
    file gave integer dimensions: a displacement file that cannot be opened
    is an [IOError]; a [width] of zero is a [ZeroDivisionError]; and a file
    whose items, padded to full lines, are not [nlines * width] is the
    [ValueError] of [reshape]. In each case the reader is as the search for
    the parameter file left it. *)
Theorem X13_errors_that_escape cos filename kwargs s par_file s1 par
    width nrows height nlines :
  Gamma.pop_par_file kwargs filename s = (Ok par_file, s1) ->
  Gamma._parseParameterFile (fs s1) par_file = Ok par ->
  par !! "width" = Some width -> Py.int width = Ok nrows ->
  par !! "nlines" = Some height -> Py.int height = Ok nlines ->
  (Os.isfile (fs s1) filename = false ->
   Gamma.read cos filename kwargs s = (Raise IOError, s1)) /\
  (Os.isfile (fs s1) filename = true -> nrows = 0 ->
   Gamma.read cos filename kwargs s = (Raise ZeroDivisionError, s1)) /\
  (forall raw padded fill,
     Os.fromfile (fs s1) filename BigEndian = Ok raw ->
     Gamma.resize raw nrows = Ok (padded, fill) ->
     nrows <> -1 -> nlines <> -1 -> Np.size padded <> nlines * nrows ->
     Gamma.read cos filename kwargs s = (Raise ValueError, s1)).
Proof.
  intros Hpop Hparse Hw Hwi Hh Hhi.
  split; [|split].
  - intros Hfile. gamma_prelude Hpop Hparse Hw Hwi Hh Hhi.
    unfold reading at 1, Os.fromfile, Os.open. unfold Os.isfile in Hfile.
    destruct (Os.lookup (fs s1) filename) as [[|f]|]; try discriminate; reflexivity.
  - intros Hfile ->. gamma_prelude Hpop Hparse Hw Hwi Hh Hhi.
    unfold reading at 1, Os.fromfile, Os.open. unfold Os.isfile in Hfile.
    destruct (Os.lookup (fs s1) filename) as [[|f]|]; try discriminate; reflexivity.
  - intros raw padded fill Hraw Hresize H1 H2 Hsize.
    gamma_prelude Hpop Hparse Hw Hwi Hh Hhi.
    unfold reading at 1. rewrite Hraw, Hresize. cbn [fst snd].
    replace (Np.reshape padded nlines nrows) with (@Raise ndarray ValueError);
      [reflexivity|].
    unfold Np.reshape.
    destruct ((nlines <? -1) || (nrows <? -1)); [reflexivity|].
    destruct ((nlines =? -1) && (nrows =? -1)); [reflexivity|].
    destruct (nlines =? -1) eqn:E1; [lia|].
    destruct (nrows =? -1) eqn:E2; [lia|].
    destruct (nlines * nrows =? Np.size padded) eqn:E3; [lia | reflexivity].
Qed.

(** Twenty items in the file, three lines of five in the parameter file. *)
Lemma X13_witness :
  let s := Scene.start (Product.gamma par_3x5 Scene.ones []) in
  Gamma.read Product.cos_of_zero "/scene/geo.disp" None s
  = (Raise ValueError, snd (Gamma.pop_par_file None "/scene/geo.disp" s)).
Proof.
  intros s.
  refine (proj2 (proj2
            (X13_errors_that_escape Product.cos_of_zero "/scene/geo.disp" None s
               "/scene/geo.par" (snd (Gamma.pop_par_file None "/scene/geo.disp" s))
               (params_of par_3x5)
               (PyFloat (IEEE.of_Z 5)) 5 (PyFloat (IEEE.of_Z 3)) 3 _ _ _ _ _ _))
            (Np.flat IEEE.f4 (frombuffer BigEndian Scene.ones))
            (Np.flat IEEE.f4 (frombuffer BigEndian Scene.ones)) None _ _ _ _ _);
    try (vm_compute; reflexivity); vm_compute; discriminate.
Defined.

Lemma getAngle_unique_inv filename pattern s v s' file :
  Gamma._getAngle filename pattern s = (Ok v, s') ->
  Os.glob (fs s) (Path.dirname (Path.realpath filename) +:+ "/" +:+ pattern) = [file] ->
  exists f, Os.open (fs s) file = Ok f /\
            v = NpArray (Np.flat IEEE.f4 (frombuffer BigEndian (bytes f))).
Proof.
  intros H Hglob. unfold Gamma._getAngle, bind at 1, reading at 1 in H.
  rewrite Hglob in H. cbn [length Nat.eqb Nat.ltb Nat.leb hd] in H.
  unfold bind, emit, reading, ret in H. cbn [fs] in H.
  destruct (Os.memmap (fs s) file BigEndian) as [a|e] eqn:Hmap; [|discriminate].
  injection H as <- _. apply memmap_inv in Hmap as (f & Hf & ->). eauto.
Qed.


(** X14. After a successful [Gamma.read] that found one [*theta*] and one
    [*phi*] file, cell [i] of [theta] is the cosine of item [i] of the
    [*theta*] file, and cell [i] of [phi] is item [i] of the [*phi*] file
    as it stands; both arrays have one dtype, and hold these binary32 values
    as that dtype stores them. *)
Theorem X14_theta_is_cosine cos filename kwargs s c s' theta_file phi_file :
  Gamma.read cos filename kwargs s = (Ok c, s') ->
  Os.glob (fs s) (Path.dirname (Path.realpath filename) +:+ "/" +:+ "*theta*")
  = [theta_file] ->
  Os.glob (fs s) (Path.dirname (Path.realpath filename) +:+ "/" +:+ "*phi*")
  = [phi_file] ->
  exists ft fp theta phi,
    Os.open (fs s) theta_file = Ok ft /\
    Os.open (fs s) phi_file = Ok fp /\
    c !! "theta" = Some (NpArray theta) /\
    c !! "phi" = Some (NpArray phi) /\
    dt theta = dt phi /\
    (forall i x, frombuffer BigEndian (bytes ft) !! i = Some x ->
                 data theta !! i = Some (as_stored (dt theta) (cos IEEE.f4 x))) /\
    (forall i x, frombuffer BigEndian (bytes fp) !! i = Some x ->
                 data phi !! i = Some (as_stored (dt phi) x)).
Proof.
  intros H Hgt Hgp.
  destruct (Gamma_read_ok_inv cos _ _ _ _ _ H)
    as (par_file & s1 & par & width & nrows & height & nlines & raw & padded & fill
        & displ & phi & s2 & theta & s3 & angles & theta' & phi'
        & corner_lat & post_lat & extent & llLat & corner_lon & post_lon
        & Hpop & _ & _ & _ & _ & Hresize & _
        & Hphi & Htheta & Hangles & Ht & Hp & _ & _ & _ & _ & _ & _ & -> & _).
  apply pop_par_file_frame in Hpop as [_ Hfs1].
  pose proof (getAngle_frame _ _ _ _ _ Hphi) as [_ Hfs2].
  rewrite <- Hfs1 in Hgp, Hgt |- *. rewrite <- Hfs2 in Hgt.
  apply (getAngle_unique_inv _ _ _ _ _ phi_file) in Hphi as (fp & Hfp & ->); [|exact Hgp].
  apply (getAngle_unique_inv _ _ _ _ _ theta_file) in Htheta as (ft & Hft & ->);
    [|exact Hgt].
  rewrite Hfs2 in Hft.
  cbn [Gamma.np_cos Np.flat dt shape data] in Hangles.
  exists ft, fp, theta', phi'.
  split; [exact Hft|]. split; [exact Hfp|].
  unfold gamma_container.
  split; [repeat (rewrite lookup_insert_ne by discriminate); apply lookup_insert_eq|].
  split; [repeat (rewrite lookup_insert_ne by discriminate); apply lookup_insert_eq|].
  apply resize_cases in Hresize as [(_ & _ & ->) | (_ & _ & _ & ->)];
    unfold Gamma.append_fill, Np.append, Np.ravel in Hangles;
    cbn [dt data Np.flat IEEE.promote] in Hangles;
    injection Hangles as <-; cbn [fst snd Np.reshape_method] in Ht, Hp;
    apply reshape_inv in Ht as (? & ? & -> & _ & _);
    apply reshape_inv in Hp as (? & ? & -> & _ & _);
    cbn [dt data Np.flat as_stored]; (split; [reflexivity|]); split; intros i y Hx.
  - rewrite lookup_map, Hx. reflexivity.
  - exact Hx.
  - rewrite lookup_app_l by (rewrite !length_map; apply lookup_lt_Some in Hx; exact Hx).
    rewrite !lookup_map, Hx. reflexivity.
  - rewrite lookup_app_l by (rewrite !length_map; apply lookup_lt_Some in Hx; exact Hx).
    rewrite !lookup_map, Hx. reflexivity.
Qed.

Lemma X14_witness :
  let s := Scene.start (Scene.complete Scene.ones) in
  let run := Gamma.read Product.cos_of_zero "/scene/geo.disp" None s in
  let c := Product.returned run in
  let s' := snd run in
  exists ft fp theta phi,
    Os.open (fs s) "/scene/geo.theta" = Ok ft /\
    Os.open (fs s) "/scene/geo.phi" = Ok fp /\
    c !! "theta" = Some (NpArray theta) /\
    c !! "phi" = Some (NpArray phi) /\
    dt theta = dt phi /\
    (forall i x, frombuffer BigEndian (bytes ft) !! i = Some x ->
                 data theta !! i = Some (as_stored (dt theta) (Product.cos_of_zero IEEE.f4 x))) /\
    (forall i x, frombuffer BigEndian (bytes fp) !! i = Some x ->
                 data phi !! i = Some (as_stored (dt phi) x)).
Proof.
  intros s run c s'.
  apply (X14_theta_is_cosine Product.cos_of_zero "/scene/geo.disp" None s c s').
  - exact scene_ones_run.
  - vm_compute; reflexivity.
  - vm_compute; reflexivity.
Defined.

(** ** ISCE: the metadata *)

Lemma search_passes name pre rest :
  Forall (passed_over name) pre ->
  ISCEXMLParser.search name (pre ++ rest) = ISCEXMLParser.search name rest.
Proof.
  intros H. induction H as [|e pre He _ IH]; simpl; [reflexivity|].
  destruct He as [He | [Hp Hc]].
  - rewrite bool_decide_eq_false_2 by exact He. exact IH.
  - apply String.eqb_neq in Hp, Hc. rewrite Hp, Hc.
    destruct (bool_decide _); exact IH.
Qed.

Lemma search_none name nodes :
  ISCEXMLParser.search name nodes = Ok ISCEXMLParser.NoProperty ->
  Forall (passed_over name) nodes.
Proof.
  induction nodes as [|e nodes IH]; simpl; [constructor|].
  destruct (bool_decide (ISCEXMLParser.get e "name" = Some name)) eqn:Hn.
  - destruct (String.eqb (ISCEXMLParser.tag_of e) "property") eqn:Hp.
    { destruct (ISCEXMLParser.value_of e); discriminate. }
    destruct (String.eqb (ISCEXMLParser.tag_of e) "component") eqn:Hc.
    { destruct (ISCEXMLParser.collect _ _); discriminate. }
    intros H. constructor; [|exact (IH H)].
    right. split; apply String.eqb_neq; assumption.
  - intros H. constructor; [|exact (IH H)].
    left. apply bool_decide_eq_false in Hn. exact Hn.
Qed.

(** X15. [getProperty] goes through the document in order. It returns
    [None] exactly when every element is passed over, that is when none is a
    [property] or a [component] that carries the name. Otherwise it answers
    from the first such element and looks at nothing after it: a [property]
    gives its converted value, a [component] the dict of the properties
    below it. *)
Theorem X15_getProperty_document_order root name :
  (ISCEXMLParser.getProperty root name = Ok ISCEXMLParser.NoProperty <->
   Forall (passed_over name) (ISCEXMLParser.iter root)) /\
  (forall pre e post,
     ISCEXMLParser.iter root = pre ++ e :: post ->
     Forall (passed_over name) pre ->
     ISCEXMLParser.get e "name" = Some name ->
     ISCEXMLParser.tag_of e = "property" \/ ISCEXMLParser.tag_of e = "component" ->
     ISCEXMLParser.getProperty root name = property_at e).
Proof.
  unfold ISCEXMLParser.getProperty. split; [split; [apply search_none|]|].
  - intros H. rewrite <- (app_nil_r (ISCEXMLParser.iter root)).
    rewrite search_passes by exact H. reflexivity.
  - intros pre e post Hiter Hpre Hname Htag.
    rewrite Hiter, search_passes by exact Hpre.
    simpl. rewrite bool_decide_eq_true_2 by exact Hname.
    unfold property_at.
    destruct (String.eqb (ISCEXMLParser.tag_of e) "property") eqn:Hp; [reflexivity|].
    destruct Htag as [Ht | Ht]; rewrite Ht in *; [discriminate|]. reflexivity.
Qed.

(** X16. Metadata without a [coordinate2] component: [getProperty] returns
    [None], subscripting it is a [TypeError], and [ISCE.read] ends there,
    with nothing stored, nothing logged and no file touched. *)
Theorem X16_isce_read_missing_coordinate path s disp_file root :
  ISCE._getDisplacementFile (fs s) path = Ok disp_file ->
  ISCEXMLParser.parse (fs s) (disp_file +:+ ".xml") = Ok root ->
  is_ok (ISCEXMLParser.getProperty root "coordinate1") = true ->
  Forall (passed_over "coordinate2") (ISCEXMLParser.iter root) ->
  ISCE.read path s = (Raise TypeError, s).
Proof.
  intros Hdisp Hparse H1 H2.
  assert (Hnone : ISCEXMLParser.getProperty root "coordinate2" = Ok ISCEXMLParser.NoProperty).
  { unfold ISCEXMLParser.getProperty.
    rewrite <- (app_nil_r (ISCEXMLParser.iter root)).
    rewrite search_passes by exact H2. reflexivity. }
  unfold ISCE.read, Path.abspath.
  unfold bind at 1, reading at 1. rewrite Hdisp.
  unfold bind at 1, reading at 1. rewrite Hparse.
  unfold bind at 1, lift at 1.
  destruct (ISCEXMLParser.getProperty root "coordinate1") as [p1|]; [|discriminate].
  unfold bind at 1, lift at 1. rewrite Hnone. reflexivity.
Qed.

(** Metadata that holds [coordinate1] alone. *)
Lemma X16_witness :
  let s := SceneIO_init isce_without_lat in
  ISCE.read "/isce" s = (Raise TypeError, s).
Proof.
  intros s.
  apply (X16_isce_read_missing_coordinate "/isce" s "/isce/filt.unw.geo"
           (Element "imageFile" [] None [IsceProduct.coordinate "coordinate1" 2 10 1])).
  - vm_compute; reflexivity.
  - vm_compute; reflexivity.
  - vm_compute; reflexivity.
  - repeat (constructor; [left; intros H; vm_compute in H; discriminate H|]).
    constructor.
Defined.

(** ** ISCE: the decode *)

(** Every successful [ISCE.read] went through these steps, with these
    results. *)
Lemma ISCE_read_ok_inv path s c s' :
  ISCE.read path s = (Ok c, s') ->
  exists disp_file root coord_lon coord_lat delta_lat dLat delta_lon dLon
         size_lon nlon size_lat nlat start_lat extent llLat start_lon
         f mapped displacement los_file los_raw los_data phi theta,
    ISCE._getDisplacementFile (fs s) path = Ok disp_file /\
    ISCEXMLParser.parse (fs s) (disp_file +:+ ".xml") = Ok root /\
    ISCEXMLParser.getProperty root "coordinate1" = Ok coord_lon /\
    ISCEXMLParser.getProperty root "coordinate2" = Ok coord_lat /\
    ISCEXMLParser.subscript coord_lat "delta" = Ok delta_lat /\
    Py.np_abs delta_lat = Ok dLat /\
    ISCEXMLParser.subscript coord_lon "delta" = Ok delta_lon /\
    Py.np_abs delta_lon = Ok dLon /\
    ISCEXMLParser.subscript coord_lon "size" = Ok size_lon /\
    Py.int size_lon = Ok nlon /\
    ISCEXMLParser.subscript coord_lat "size" = Ok size_lat /\
    Py.int size_lat = Ok nlat /\
    ISCEXMLParser.subscript coord_lat "startingvalue" = Ok start_lat /\
    Py.mul_int delta_lat nlat = Ok extent /\
    Py.add start_lat extent = Ok llLat /\
    ISCEXMLParser.subscript coord_lon "startingvalue" = Ok start_lon /\
    Os.open (fs s) disp_file = Ok f /\
    Os.memmap (fs s) disp_file LittleEndian
    = Ok (Np.flat IEEE.f4 (frombuffer LittleEndian (bytes f))) /\
    Np.reshape (Np.flat IEEE.f4 (frombuffer LittleEndian (bytes f))) nlat (nlon * 2)
    = Ok mapped /\
    Np.cols_from mapped nlon = Ok displacement /\
    ISCE._getLOSFile (after_store (fs s) disp_file f mapped nlon) path = Ok los_file /\
    Os.fromfile (after_store (fs s) disp_file f mapped nlon) los_file LittleEndian
    = Ok los_raw /\
    Np.reshape los_raw nlat (nlon * 2) = Ok los_data /\
    Np.cols_upto los_data nlon = Ok phi /\
    Np.cols_from los_data nlon = Ok theta /\
    c = <["theta" := NpArray (Np.add_scalar theta IEEE.c_90)]>
        (<["phi" := NpArray phi]>
        (<["displacement" :=
             NpArray (Np.mul_scalar (Np.set_nan_where_eq IEEE.pzero displacement)
                                    IEEE.c_1em2)]>
        (<["llLon" := start_lon]> (<["llLat" := llLat]>
        (<["dLon" := dLon]> (<["dLat" := dLat]> (container s))))))) /\
    s' = State c (log s) (after_store (fs s) disp_file f mapped nlon).
Proof.
  intros H. unfold ISCE.read, Path.abspath in H.
  apply bind_inv_ok in H as (disp_file & ? & Hdisp & H).
  apply reading_inv in Hdisp as [Hdisp ->].
  apply bind_inv_ok in H as (root & ? & Hroot & H).
  apply reading_inv in Hroot as [Hroot ->].
  apply bind_inv_ok in H as (coord_lon & ? & Hlon & H). apply lift_inv in Hlon as [Hlon ->].
  apply bind_inv_ok in H as (coord_lat & ? & Hlat & H). apply lift_inv in Hlat as [Hlat ->].
  apply bind_inv_ok in H as (delta_lat & ? & Hdl & H). apply lift_inv in Hdl as [Hdl ->].
  apply bind_inv_ok in H as (dLat & ? & HdLat & H). apply lift_inv in HdLat as [HdLat ->].
  apply bind_inv_ok in H as (? & ? & Hset & H). apply setitem_inv in Hset as [_ ->].
  apply bind_inv_ok in H as (delta_lon & ? & Hdo & H). apply lift_inv in Hdo as [Hdo ->].
  apply bind_inv_ok in H as (dLon & ? & HdLon & H). apply lift_inv in HdLon as [HdLon ->].
  apply bind_inv_ok in H as (? & ? & Hset & H). apply setitem_inv in Hset as [_ ->].
  apply bind_inv_ok in H as (size_lon & ? & Hso & H). apply lift_inv in Hso as [Hso ->].
  apply bind_inv_ok in H as (nlon & ? & Hnlon & H). apply lift_inv in Hnlon as [Hnlon ->].
  apply bind_inv_ok in H as (size_lat & ? & Hsl & H). apply lift_inv in Hsl as [Hsl ->].
  apply bind_inv_ok in H as (nlat & ? & Hnlat & H). apply lift_inv in Hnlat as [Hnlat ->].
  apply bind_inv_ok in H as (start_lat & ? & Hstl & H). apply lift_inv in Hstl as [Hstl ->].
  apply bind_inv_ok in H as (delta_lat' & ? & Hdl' & H). apply lift_inv in Hdl' as [Hdl' ->].
  apply bind_inv_ok in H as (extent & ? & Hext & H). apply lift_inv in Hext as [Hext ->].
  apply bind_inv_ok in H as (llLat & ? & Hll & H). apply lift_inv in Hll as [Hll ->].
  apply bind_inv_ok in H as (? & ? & Hset & H). apply setitem_inv in Hset as [_ ->].
  apply bind_inv_ok in H as (start_lon & ? & Hsto & H). apply lift_inv in Hsto as [Hsto ->].
  apply bind_inv_ok in H as (? & ? & Hset & H). apply setitem_inv in Hset as [_ ->].
  apply bind_inv_ok in H as (disp_file' & ? & Hdisp' & H).
  apply reading_inv in Hdisp' as [Hdisp' ->].
  apply bind_inv_ok in H as (mapped0 & ? & Hmap & H).
  apply reading_inv in Hmap as [Hmap ->].
  apply bind_inv_ok in H as (mapped & ? & Hre & H). apply lift_inv in Hre as [Hre ->].
  apply bind_inv_ok in H as (displacement & ? & Hcols & H).
  apply lift_inv in Hcols as [Hcols ->].
  apply bind_inv_ok in H as (? & ? & Hstore & H).
  apply store_through_inv in Hstore as [(f & Hf & _ & ->) | [[=] _]].
  apply bind_inv_ok in H as (? & ? & Hset & H). apply setitem_inv in Hset as [_ ->].
  apply bind_inv_ok in H as (los_file & ? & Hlos & H).
  apply reading_inv in Hlos as [Hlos ->].
  apply bind_inv_ok in H as (los_raw & ? & Hraw & H).
  apply reading_inv in Hraw as [Hraw ->].
  apply bind_inv_ok in H as (los_data & ? & Hlre & H). apply lift_inv in Hlre as [Hlre ->].
  apply bind_inv_ok in H as (phi & ? & Hphi & H). apply lift_inv in Hphi as [Hphi ->].
  apply bind_inv_ok in H as (? & ? & Hset & H). apply setitem_inv in Hset as [_ ->].
  apply bind_inv_ok in H as (theta & ? & Hth & H). apply lift_inv in Hth as [Hth ->].
  apply bind_inv_ok in H as (? & ? & Hset & H). apply setitem_inv in Hset as [_ ->].
  unfold get_container in H. cbn [container log fs] in *. injection H as <- <-.
  assert (disp_file' = disp_file) as -> by congruence.
  assert (delta_lat' = delta_lat) as -> by congruence.
  symmetry in Hmap. pose proof Hmap as Hmap'.
  apply memmap_inv in Hmap' as (f' & Hf' & ->).
  assert (f' = f) as -> by congruence.
  exists disp_file, root, coord_lon, coord_lat, delta_lat, dLat, delta_lon, dLon,
    size_lon, nlon, size_lat, nlat, start_lat, extent, llLat, start_lon,
    f, mapped, displacement, los_file, los_raw, los_data, phi, theta.
  unfold after_store.
  repeat split; auto.
Qed.


Lemma getLOSFile_write fs p bs path :
  ISCE._getLOSFile (Os.write fs p bs) path = ISCE._getLOSFile fs path.
Proof. unfold ISCE._getLOSFile. rewrite write_isdir, write_glob. reflexivity. Qed.





(** The example product decodes. *)
Lemma isce_with_los_run :
  let s := SceneIO_init IsceProduct.with_los in
  let run := ISCE.read "/isce" s in
  run = (Ok (Product.returned run), snd run).
Proof. vm_compute; reflexivity. Qed.



(** *** The masked assignment, on disk *)

Lemma frombuffer_nan_bytes bo rest :
  frombuffer bo (nan_bytes bo ++ rest) = IEEE.nan :: frombuffer bo rest.
Proof. destruct bo; reflexivity. Qed.

(** Decoding after the write-through: item [i] is NaN where the mask
    selects it and what it was elsewhere. *)
Lemma frombuffer_store_nan bo mask bs i :
  frombuffer bo (store_nan bo mask bs) !! i
  = (fun x => if default false (mask !! i) then IEEE.nan else x)
      <$> frombuffer bo bs !! i.
Proof.
  revert bs i. induction mask as [|m mask IH]; intros bs i.
  - simpl. destruct (frombuffer bo bs !! i); reflexivity.
  - destruct bs as [|b0 [|b1 [|b2 [|b3 rest]]]];
      try (destruct i; reflexivity).
    cbn [store_nan].
    assert (Hhead : frombuffer bo ((if m then nan_bytes bo else [b0; b1; b2; b3])
                                   ++ store_nan bo mask rest)
                    = (if m then IEEE.nan else IEEE.f4_of_bits (word32 bo b0 b1 b2 b3))
                      :: frombuffer bo (store_nan bo mask rest)).
    { destruct m; [apply frombuffer_nan_bytes | reflexivity]. }
    rewrite Hhead. cbn [frombuffer].
    destruct i as [|i]; [reflexivity|]. cbn [lookup list_lookup]. apply IH.
Qed.

Lemma length_store_nan bo mask bs : length (store_nan bo mask bs) = length bs.
Proof.
  revert bs. induction mask as [|m mask IH]; intros bs; [destruct bs; reflexivity|].
  destruct bs as [|b0 [|b1 [|b2 [|b3 rest]]]]; try reflexivity.
  cbn [store_nan]. rewrite length_app, IH. destruct m, bo; reflexivity.
Qed.

Lemma open_write fs p bs f :
  Os.open fs p = Ok f ->
  Os.open (Os.write fs p bs) p = Ok (File bs (matches f) (etree f) (matvars f)).
Proof.
  unfold Os.open. induction fs as [|[q n] fs IH]; simpl; [discriminate|].
  destruct (String.eqb q p) eqn:Hq; simpl; rewrite Hq.
  - destruct n; [discriminate|]. intros [= ->]. reflexivity.
  - exact IH.
Qed.

(** The mask of [view[view == c] = nan] for [view = a[:, b:]], cell by
    cell: right of column [b], where the item equals [c]. *)
Lemma rows_mask_lookup r w b c xs i j x :
  (b <= w)%nat -> (r * w <= length xs)%nat -> (i < r)%nat -> (j < w)%nat ->
  xs !! (i * w + j)%nat = Some x ->
  concat (map (fun row => map (fun _ => false) (take b row)
                          ++ map (fun y => IEEE.eqb y c) (drop b row))
              (Np.rows r w xs)) !! (i * w + j)%nat
  = Some ((b <=? j)%nat && IEEE.eqb x c).
Proof.
  intros Hb. revert xs i. induction r as [|r IH]; intros xs i Hlen Hi Hj Hx; [lia|].
  simpl in Hlen. cbn [Np.rows map concat].
  assert (Hrow : length (map (fun _ : spec_float => false) (take b (take w xs))
                        ++ map (fun y => IEEE.eqb y c) (drop b (take w xs))) = w).
  { rewrite length_app, !length_map, length_drop, !length_take. lia. }
  destruct i as [|i].
  - rewrite lookup_app_l by (rewrite Hrow; lia). simpl in Hx |- *.
    destruct (Nat.leb_spec b j) as [Hle | Hlt].
    + rewrite lookup_app_r by (rewrite length_map, !length_take; lia).
      rewrite length_map, !length_take.
      replace (b `min` (w `min` length xs))%nat with b by lia.
      rewrite lookup_map, lookup_drop, lookup_take_lt by lia.
      replace (b + (j - b))%nat with j by lia. rewrite Hx. reflexivity.
    + rewrite lookup_app_l by (rewrite length_map, !length_take; lia).
      rewrite lookup_map, !lookup_take_lt by lia. rewrite Hx. reflexivity.
  - rewrite lookup_app_r by (rewrite Hrow; simpl; lia). rewrite Hrow.
    replace (S i * w + j - w)%nat with (i * w + j)%nat by (simpl; lia).
    apply IH; [rewrite length_drop; lia | lia | lia |].
    rewrite lookup_drop. rewrite <- Hx. f_equal. simpl. lia.
Qed.

(** X18. What [ISCE.read] leaves on disk: the displacement file keeps its
    length and everything but its bytes; decoded, its left band is what it
    was, and in its right band, the displacement, every item that equalled
    zero is NaN. The source file is altered by being read. *)
Theorem X18_isce_read_rewrites_zeros_on_disk path s c s' :
  ISCE.read path s = (Ok c, s') ->
  exists disp_file f f' rows nlon,
    ISCE._getDisplacementFile (fs s) path = Ok disp_file /\
    Os.open (fs s) disp_file = Ok f /\
    Os.open (fs s') disp_file = Ok f' /\
    length (bytes f') = length (bytes f) /\
    length (frombuffer LittleEndian (bytes f)) = (rows * (2 * nlon))%nat /\
    forall i j x,
      (i < rows)%nat -> (j < 2 * nlon)%nat ->
      frombuffer LittleEndian (bytes f) !! (i * (2 * nlon) + j)%nat = Some x ->
      frombuffer LittleEndian (bytes f') !! (i * (2 * nlon) + j)%nat
      = Some (if (nlon <=? j)%nat && IEEE.eqb x IEEE.pzero then IEEE.nan else x).
Proof.
  intros H.
  destruct (ISCE_read_ok_inv _ _ _ _ H)
    as (disp_file & root & coord_lon & coord_lat & delta_lat & dLat & delta_lon & dLon
        & size_lon & nlon & size_lat & nlat & start_lat & extent & llLat & start_lon
        & f & mapped & displacement & los_file & los_raw & los_data & phi & theta
        & Hdisp & _ & _ & _ & _ & _ & _ & _ & _ & _ & _ & _ & _ & _ & _ & _ & Hf & _
        & Hre & _ & _ & _ & _ & _ & _ & _ & ->).
  apply reshape_inv in Hre as (r & w & -> & Hlen & Hw). cbn [Np.flat data dt] in *.
  destruct Hw as [Hpos ->]; [lia|].
  set (n := Z.to_nat nlon).
  assert (Hb : Np.bound nlon (Z.to_nat (nlon * 2)) = n).
  { unfold Np.bound. destruct (nlon <? 0) eqn:E; [lia|]. subst n. f_equal. lia. }
  assert (Hwn : Z.to_nat (nlon * 2) = (2 * n)%nat) by (subst n; lia).
  exists disp_file, f. eexists. exists r, n.
  split; [exact Hdisp|]. split; [exact Hf|]. cbn [fs]. unfold after_store.
  split; [apply open_write, Hf|]. cbn [bytes].
  split; [apply length_store_nan|].
  split; [lia|].
  intros i j x Hi Hj Hx.
  rewrite frombuffer_store_nan, Hx. cbn [fmap option_fmap option_map].
  unfold ISCE.view_mask. cbn [shape data]. rewrite Hb, Hwn.
  rewrite (rows_mask_lookup r (2 * n) n IEEE.pzero _ i j x) by (assumption || lia).
  reflexivity.
Qed.

Lemma X18_witness :
  let s := SceneIO_init IsceProduct.with_los in
  let run := ISCE.read "/isce" s in
  let c := Product.returned run in
  let s' := snd run in
  exists disp_file f f' rows nlon,
    ISCE._getDisplacementFile (fs s) "/isce" = Ok disp_file /\
    Os.open (fs s) disp_file = Ok f /\
    Os.open (fs s') disp_file = Ok f' /\
    length (bytes f') = length (bytes f) /\
    length (frombuffer LittleEndian (bytes f)) = (rows * (2 * nlon))%nat /\
    forall i j x,
      (i < rows)%nat -> (j < 2 * nlon)%nat ->
      frombuffer LittleEndian (bytes f) !! (i * (2 * nlon) + j)%nat = Some x ->
      frombuffer LittleEndian (bytes f') !! (i * (2 * nlon) + j)%nat
      = Some (if (nlon <=? j)%nat && IEEE.eqb x IEEE.pzero then IEEE.nan else x).
Proof.
  intros s run c s'.
  apply (X18_isce_read_rewrites_zeros_on_disk "/isce" s c s').
  exact isce_with_los_run.
Defined.

(** Cell [(i, j)] of [a[:, :b]] is cell [(i, j)] of [a]. *)
Lemma rows_take_lookup r w b xs i j :
  (b <= w)%nat -> (r * w <= length xs)%nat -> (i < r)%nat -> (j < b)%nat ->
  concat (map (take b) (Np.rows r w xs)) !! (i * b + j)%nat
  = xs !! (i * w + j)%nat.
Proof.
  intros Hb. revert xs i. induction r as [|r IH]; intros xs i Hlen Hi Hj; [lia|].
  simpl in Hlen. simpl.
  assert (Hrow : length (take b (take w xs)) = b).
  { rewrite !length_take. lia. }
  destruct i as [|i]; simpl.
  - rewrite lookup_app_l by (rewrite Hrow; lia).
    rewrite !lookup_take_lt by lia. reflexivity.
  - rewrite lookup_app_r by (rewrite Hrow; nia). rewrite Hrow.
    replace (b + i * b + j - b)%nat with (i * b + j)%nat by nia.
    rewrite IH; [|rewrite length_drop; lia|lia|lia].
    rewrite lookup_drop. f_equal. lia.
Qed.

(** X19. After a successful [ISCE.read], [phi] is the left band of the LOS file
    and [theta] its right band plus 90 degrees, both binary32 arrays of
    [rows] lines of [nlon] cells; the LOS file is read as the masked
    assignment left the directory. *)
Theorem X19_isce_read_los_bands path s c s' :
  ISCE.read path s = (Ok c, s') ->
  exists los_file f phi theta rows nlon,
    ISCE._getLOSFile (fs s) path = Ok los_file /\
    Os.open (fs s') los_file = Ok f /\
    c !! "phi" = Some (NpArray phi) /\
    c !! "theta" = Some (NpArray theta) /\
    (dt phi = IEEE.f4 /\ shape phi = [rows; nlon]) /\
    (dt theta = IEEE.f4 /\ shape theta = [rows; nlon]) /\
    length (frombuffer LittleEndian (bytes f)) = (rows * (2 * nlon))%nat /\
    forall i j,
      (i < rows)%nat -> (j < nlon)%nat ->
      data phi !! (i * nlon + j)%nat
      = frombuffer LittleEndian (bytes f) !! (i * (2 * nlon) + j)%nat /\
      data theta !! (i * nlon + j)%nat
      = (fun x => IEEE.add IEEE.f4 x (IEEE.cast IEEE.f4 IEEE.c_90))
          <$> frombuffer LittleEndian (bytes f) !! (i * (2 * nlon) + nlon + j)%nat.
Proof.
  intros H.
  destruct (ISCE_read_ok_inv _ _ _ _ H)
    as (disp_file & root & coord_lon & coord_lat & delta_lat & dLat & delta_lon & dLon
        & size_lon & nlon & size_lat & nlat & start_lat & extent & llLat & start_lon
        & f & mapped & displacement & los_file & los_raw & los_data & phi & theta
        & _ & _ & _ & _ & _ & _ & _ & _ & _ & _ & _ & _ & _ & _ & _ & _ & _ & _
        & _ & _ & Hlos & Hraw & Hre & Hphi & Htheta & -> & ->).
  apply fromfile_inv in Hraw as (fl & Hfl & ->).
  apply reshape_inv in Hre as (r & w & -> & Hlen & Hw). cbn [Np.flat data dt] in *.
  destruct Hw as [Hpos ->]; [lia|].
  set (n := Z.to_nat nlon).
  assert (Hb : Np.bound nlon (Z.to_nat (nlon * 2)) = n).
  { unfold Np.bound. destruct (nlon <? 0) eqn:E; [lia|]. subst n. f_equal. lia. }
  assert (Hwn : Z.to_nat (nlon * 2) = (2 * n)%nat) by (subst n; lia).
  unfold Np.cols_upto in Hphi. unfold Np.cols_from in Htheta.
  cbn [shape dt data] in Hphi, Htheta. rewrite Hb, Hwn in *.
  injection Hphi as <-. injection Htheta as <-.
  unfold after_store in Hlos. rewrite getLOSFile_write in Hlos.
  exists los_file, fl. eexists _, _. exists r, n.
  split; [exact Hlos|]. split; [exact Hfl|].
  split; [rewrite lookup_insert_ne by discriminate; apply lookup_insert_eq|].
  split; [apply lookup_insert_eq|].
  cbn [Np.add_scalar dt shape data].
  split; [split; reflexivity|].
  split; [split; [reflexivity | f_equal; f_equal; lia]|].
  split; [lia|].
  intros i j Hi Hj. split.
  - apply rows_take_lookup; lia.
  - rewrite lookup_map.
    replace (i * n + j)%nat with (i * (2 * n - n) + j)%nat by lia.
    rewrite rows_drop_lookup by lia. reflexivity.
Qed.

Lemma X19_witness :
  let s := SceneIO_init IsceProduct.with_los in
  let run := ISCE.read "/isce" s in
  let c := Product.returned run in
  let s' := snd run in
  exists los_file f phi theta rows nlon,
    ISCE._getLOSFile (fs s) "/isce" = Ok los_file /\
    Os.open (fs s') los_file = Ok f /\
    c !! "phi" = Some (NpArray phi) /\
    c !! "theta" = Some (NpArray theta) /\
    (dt phi = IEEE.f4 /\ shape phi = [rows; nlon]) /\
    (dt theta = IEEE.f4 /\ shape theta = [rows; nlon]) /\
    length (frombuffer LittleEndian (bytes f)) = (rows * (2 * nlon))%nat /\
    forall i j,
      (i < rows)%nat -> (j < nlon)%nat ->
      data phi !! (i * nlon + j)%nat
      = frombuffer LittleEndian (bytes f) !! (i * (2 * nlon) + j)%nat /\
      data theta !! (i * nlon + j)%nat
      = (fun x => IEEE.add IEEE.f4 x (IEEE.cast IEEE.f4 IEEE.c_90))
          <$> frombuffer LittleEndian (bytes f) !! (i * (2 * nlon) + nlon + j)%nat.
Proof.
  intros s run c s'.
  apply (X19_isce_read_los_bands "/isce" s c s').
  exact isce_with_los_run.
Defined.

(** X20. After a successful [ISCE.read], [llLon] is the [startingvalue] of
    [coordinate1], and [llLat] the [startingvalue] of [coordinate2] plus
    its [delta] times its own [size], the number of lines. *)
Theorem X20_isce_read_corner path s c s' :
  ISCE.read path s = (Ok c, s') ->
  exists disp_file root coord_lon coord_lat start_lon start_lat delta_lat
         size_lat nlat extent llLat,
    ISCE._getDisplacementFile (fs s) path = Ok disp_file /\
    ISCEXMLParser.parse (fs s) (disp_file +:+ ".xml") = Ok root /\
    ISCEXMLParser.getProperty root "coordinate1" = Ok coord_lon /\
    ISCEXMLParser.getProperty root "coordinate2" = Ok coord_lat /\
    ISCEXMLParser.subscript coord_lon "startingvalue" = Ok start_lon /\
    ISCEXMLParser.subscript coord_lat "startingvalue" = Ok start_lat /\
    ISCEXMLParser.subscript coord_lat "delta" = Ok delta_lat /\
    ISCEXMLParser.subscript coord_lat "size" = Ok size_lat /\
    Py.int size_lat = Ok nlat /\
    Py.mul_int delta_lat nlat = Ok extent /\
    Py.add start_lat extent = Ok llLat /\
    c !! "llLon" = Some start_lon /\
    c !! "llLat" = Some llLat.
Proof.
  intros H.
  destruct (ISCE_read_ok_inv _ _ _ _ H)
    as (disp_file & root & coord_lon & coord_lat & delta_lat & dLat & delta_lon & dLon
        & size_lon & nlon & size_lat & nlat & start_lat & extent & llLat & start_lon
        & f & mapped & displacement & los_file & los_raw & los_data & phi & theta
        & Hdisp & Hroot & Hlon & Hlat & Hdl & _ & _ & _ & _ & _ & Hsl & Hnlat & Hstl
        & Hext & Hll & Hsto & _ & _ & _ & _ & _ & _ & _ & _ & _ & -> & _).
  exists disp_file, root, coord_lon, coord_lat, start_lon, start_lat, delta_lat,
    size_lat, nlat, extent, llLat.
  repeat (split; [assumption|]).
  split; repeat (rewrite lookup_insert_ne by discriminate); apply lookup_insert_eq.
Qed.

Lemma X20_witness :
  let s := SceneIO_init IsceProduct.with_los in
  let run := ISCE.read "/isce" s in
  let c := Product.returned run in
  let s' := snd run in
  exists disp_file root coord_lon coord_lat start_lon start_lat delta_lat
         size_lat nlat extent llLat,
    ISCE._getDisplacementFile (fs s) "/isce" = Ok disp_file /\
    ISCEXMLParser.parse (fs s) (disp_file +:+ ".xml") = Ok root /\
    ISCEXMLParser.getProperty root "coordinate1" = Ok coord_lon /\
    ISCEXMLParser.getProperty root "coordinate2" = Ok coord_lat /\
    ISCEXMLParser.subscript coord_lon "startingvalue" = Ok start_lon /\
    ISCEXMLParser.subscript coord_lat "startingvalue" = Ok start_lat /\
    ISCEXMLParser.subscript coord_lat "delta" = Ok delta_lat /\
    ISCEXMLParser.subscript coord_lat "size" = Ok size_lat /\
    Py.int size_lat = Ok nlat /\
    Py.mul_int delta_lat nlat = Ok extent /\
    Py.add start_lat extent = Ok llLat /\
    c !! "llLon" = Some start_lon /\
    c !! "llLat" = Some llLat.
Proof.
  intros s run c s'.
  apply (X20_isce_read_corner "/isce" s c s').
  exact isce_with_los_run.
Defined.


(** Running [ISCE.read] forward from the results of its steps. *)
Lemma ISCE_read_run path s disp_file root coord_lon coord_lat delta_lat dLat
    delta_lon dLon size_lon nlon size_lat nlat start_lat extent llLat start_lon
    f mapped displacement los_file los_raw los_data phi theta :
  ISCE._getDisplacementFile (fs s) path = Ok disp_file ->
  ISCEXMLParser.parse (fs s) (disp_file +:+ ".xml") = Ok root ->
  ISCEXMLParser.getProperty root "coordinate1" = Ok coord_lon ->
  ISCEXMLParser.getProperty root "coordinate2" = Ok coord_lat ->
  ISCEXMLParser.subscript coord_lat "delta" = Ok delta_lat ->
  Py.np_abs delta_lat = Ok dLat ->
  ISCEXMLParser.subscript coord_lon "delta" = Ok delta_lon ->
  Py.np_abs delta_lon = Ok dLon ->
  ISCEXMLParser.subscript coord_lon "size" = Ok size_lon ->
  Py.int size_lon = Ok nlon ->
  ISCEXMLParser.subscript coord_lat "size" = Ok size_lat ->
  Py.int size_lat = Ok nlat ->
  ISCEXMLParser.subscript coord_lat "startingvalue" = Ok start_lat ->
  Py.mul_int delta_lat nlat = Ok extent ->
  Py.add start_lat extent = Ok llLat ->
  ISCEXMLParser.subscript coord_lon "startingvalue" = Ok start_lon ->
  Os.open (fs s) disp_file = Ok f ->
  Os.memmap (fs s) disp_file LittleEndian
  = Ok (Np.flat IEEE.f4 (frombuffer LittleEndian (bytes f))) ->
  Np.reshape (Np.flat IEEE.f4 (frombuffer LittleEndian (bytes f))) nlat (nlon * 2)
  = Ok mapped ->
  Np.cols_from mapped nlon = Ok displacement ->
  ISCE._getLOSFile (after_store (fs s) disp_file f mapped nlon) path = Ok los_file ->
  Os.fromfile (after_store (fs s) disp_file f mapped nlon) los_file LittleEndian
  = Ok los_raw ->
  Np.reshape los_raw nlat (nlon * 2) = Ok los_data ->
  Np.cols_upto los_data nlon = Ok phi ->
  Np.cols_from los_data nlon = Ok theta ->
  let c := <["theta" := NpArray (Np.add_scalar theta IEEE.c_90)]>
           (<["phi" := NpArray phi]>
           (<["displacement" :=
                NpArray (Np.mul_scalar (Np.set_nan_where_eq IEEE.pzero displacement)
                                       IEEE.c_1em2)]>
           (<["llLon" := start_lon]> (<["llLat" := llLat]>
           (<["dLon" := dLon]> (<["dLat" := dLat]> (container s))))))) in
  ISCE.read path s
  = (Ok c, State c (log s) (after_store (fs s) disp_file f mapped nlon)).
Proof.
  intros Hdisp Hroot Hlon Hlat Hdl HdLat Hdo HdLon Hso Hnlon Hsl Hnlat Hstl Hext Hll
         Hsto Hf Hmap Hre Hcols Hlos Hraw Hlre Hphi Hth c.
  unfold ISCE.read, Path.abspath.
  unfold bind, reading, lift, setitem, ISCE.store_through, set_fs, get_container.
  cbn [fs container log].
  rewrite Hdisp, Hroot, Hlon, Hlat, Hdl, HdLat, Hdo, HdLon, Hso, Hnlon, Hsl, Hnlat,
    Hstl, Hext, Hll, Hsto, Hmap, Hre, Hcols, Hf.
  cbn [fs container log]. unfold after_store in Hlos, Hraw.
  rewrite Hlos, Hraw, Hlre, Hphi, Hth. reflexivity.
Qed.

(** *** Reading the same product again *)

Lemma getDisplacementFile_write fs p bs path :
  ISCE._getDisplacementFile (Os.write fs p bs) path = ISCE._getDisplacementFile fs path.
Proof.
  unfold ISCE._getDisplacementFile. rewrite !write_isfile, write_glob.
  destruct (Os.isfile fs path); [rewrite write_isfile; reflexivity|].
  destruct (Os.glob fs _); [reflexivity|]. rewrite write_isfile. reflexivity.
Qed.

Lemma append_neq (p q : string) : q <> "" -> p +:+ q <> p.
Proof.
  intros Hq H. apply Hq. clear Hq.
  induction p as [|a p IH]; simpl in H; [exact H|].
  injection H as H. exact (IH H).
Qed.

Lemma parse_write_ne fs p bs q :
  q <> p -> ISCEXMLParser.parse (Os.write fs p bs) q = ISCEXMLParser.parse fs q.
Proof.
  intros Hq. unfold ISCEXMLParser.parse, Os.open.
  rewrite write_lookup_ne by exact Hq. reflexivity.
Qed.

Lemma write_same fs p f : Os.open fs p = Ok f -> Os.write fs p (bytes f) = fs.
Proof.
  unfold Os.open. induction fs as [|[q n] fs IH]; simpl; [reflexivity|].
  destruct (String.eqb q p) eqn:Hq.
  - destruct n as [|g]; [discriminate|]. intros [= ->]. destruct f; reflexivity.
  - intros H. rewrite (IH H). reflexivity.
Qed.

Lemma store_nan_false bo mask bs :
  Forall (fun m => m = false) mask -> store_nan bo mask bs = bs.
Proof.
  intros H. revert bs. induction H as [|m mask -> _ IH]; intros bs.
  - destruct bs; reflexivity.
  - destruct bs as [|b0 [|b1 [|b2 [|b3 rest]]]]; try reflexivity.
    cbn [store_nan]. rewrite IH. reflexivity.
Qed.

Lemma index_split w r k :
  (k < r * w)%nat -> exists i j, k = (i * w + j)%nat /\ (i < r)%nat /\ (j < w)%nat.
Proof.
  intros Hk. assert (Hw : (w <> 0)%nat) by nia.
  exists (k / w)%nat, (k mod w)%nat.
  pose proof (Nat.div_mod_eq k w). pose proof (Nat.mod_upper_bound k w Hw).
  repeat split; try lia.
  apply Nat.Div0.div_lt_upper_bound. lia.
Qed.

Lemma length_rows_mask r w b c xs :
  (b <= w)%nat -> (r * w <= length xs)%nat ->
  length (concat (map (fun row => map (fun _ : spec_float => false) (take b row)
                                  ++ map (fun y => IEEE.eqb y c) (drop b row))
                      (Np.rows r w xs))) = (r * w)%nat.
Proof.
  intros Hb. revert xs. induction r as [|r IH]; intros xs Hlen; [reflexivity|].
  simpl in Hlen. cbn [Np.rows map concat].
  rewrite length_app, IH by (rewrite length_drop; lia).
  rewrite length_app, !length_map, length_drop, !length_take. lia.
Qed.

Lemma reshape_same_size a b d1 d2 a' :
  Np.reshape a d1 d2 = Ok a' -> length (data b) = length (data a) ->
  Np.reshape b d1 d2 = Ok (NdArray (dt b) (shape a') (data b)).
Proof.
  unfold Np.reshape, Np.size. intros H ->.
  repeat case_match; try discriminate; injection H as <-; reflexivity.
Qed.

Lemma length_frombuffer_store_nan bo mask bs :
  length (frombuffer bo (store_nan bo mask bs)) = length (frombuffer bo bs).
Proof.
  revert bs. induction mask as [|b m IH]; intros bs.
  - destruct bs; reflexivity.
  - destruct bs as [|b0 [|b1 [|b2 [|b3 rest]]]]; try reflexivity.
    cbn [store_nan].
    replace (frombuffer bo ((if b then nan_bytes bo else [b0; b1; b2; b3])
                            ++ store_nan bo m rest))
      with ((if b then IEEE.nan else IEEE.f4_of_bits (word32 bo b0 b1 b2 b3))
            :: frombuffer bo (store_nan bo m rest)).
    + cbn [frombuffer length]. now rewrite IH.
    + destruct b; [symmetry; apply frombuffer_nan_bytes | reflexivity].
Qed.

(** The recoding [x == 0. -> nan] never leaves a zero, and done twice it
    is done once. *)
Lemma recode_zero_once x :
  let y := if IEEE.eqb x IEEE.pzero then IEEE.nan else x in
  IEEE.eqb y IEEE.pzero = false /\
  (if IEEE.eqb y IEEE.pzero then IEEE.nan else y) = y.
Proof.
  cbn zeta. destruct (IEEE.eqb x IEEE.pzero) eqn:E.
  - split; reflexivity.
  - rewrite E. split; reflexivity.
Qed.

(** X21. A second [ISCE.read] of the same path by the same reader, after a
    first one that returned: it returns the same container and leaves the
    reader and the directory as the first read left them. The zeros the
    first read turned into NaN on disk are NaN again. *)
Theorem X21_isce_read_twice path s c s' :
  ISCE.read path s = (Ok c, s') ->
  ISCE.read path s' = (Ok c, s').
Proof.
  intros H.
  destruct (ISCE_read_ok_inv _ _ _ _ H)
    as (disp_file & root & coord_lon & coord_lat & delta_lat & dLat & delta_lon & dLon
        & size_lon & nlon & size_lat & nlat & start_lat & extent & llLat & start_lon
        & f & mapped & displacement & los_file & los_raw & los_data & phi & theta
        & Hdisp & Hroot & Hlon & Hlat & Hdl & HdLat & Hdo & HdLon & Hso & Hnlon & Hsl
        & Hnlat & Hstl & Hext & Hll & Hsto & Hf & Hmap & Hre & Hcols & Hlos & Hraw
        & Hlre & Hphi & Hth & Hc & Hs').
  set (items := frombuffer LittleEndian (bytes f)) in *.
  set (mask := ISCE.view_mask mapped nlon IEEE.pzero) in *.
  set (bytes1 := store_nan LittleEndian mask (bytes f)).
  set (f1 := File bytes1 (matches f) (etree f) (matvars f)).
  set (fs1 := after_store (fs s) disp_file f mapped nlon) in *.
  set (items1 := frombuffer LittleEndian bytes1).
  assert (Hf1 : Os.open fs1 disp_file = Ok f1) by (apply open_write, Hf).
  (* the shape of the first mapping *)
  pose proof Hre as Hre0.
  apply reshape_inv in Hre0 as (r & w & Hmapped & Hlen & Hw).
  cbn [Np.flat data dt] in Hmapped, Hlen. fold items in Hmapped, Hlen.
  destruct Hw as [Hpos Hwn]; [lia|].
  set (n := Z.to_nat nlon).
  assert (Hb : Np.bound nlon w = n).
  { unfold Np.bound. destruct (nlon <? 0) eqn:E; [lia|]. subst n w. f_equal. lia. }
  assert (Hw2 : w = (2 * n)%nat) by (subst n w; lia).
  assert (Hmask : mask = concat (map (fun row => map (fun _ => false) (take n row)
                                    ++ map (fun y => IEEE.eqb y IEEE.pzero) (drop n row))
                                     (Np.rows r w items))).
  { unfold mask. rewrite Hmapped. unfold ISCE.view_mask. cbn [shape data]. now rewrite Hb. }
  (* item by item, the file after the first read *)
  assert (Hitems1 : forall i j x, (i < r)%nat -> (j < w)%nat ->
            items !! (i * w + j)%nat = Some x ->
            items1 !! (i * w + j)%nat
            = Some (if (n <=? j)%nat && IEEE.eqb x IEEE.pzero then IEEE.nan else x)).
  { intros i j x Hi Hj Hx. unfold items1, bytes1.
    rewrite frombuffer_store_nan. fold items. rewrite Hx, Hmask.
    rewrite (rows_mask_lookup r w n IEEE.pzero items i j x) by (assumption || lia).
    reflexivity. }
  assert (Hlen1 : length items1 = length items)
    by apply length_frombuffer_store_nan.
  (* the second mapping *)
  set (mapped1 := NdArray IEEE.f4 [r; w] items1).
  assert (Hre1 : Np.reshape (Np.flat IEEE.f4 (frombuffer LittleEndian (bytes f1)))
                            nlat (nlon * 2) = Ok mapped1).
  { change (frombuffer LittleEndian (bytes f1)) with items1.
    rewrite (reshape_same_size _ (Np.flat IEEE.f4 items1) _ _ _ Hre)
      by (cbn [Np.flat data]; exact Hlen1).
    rewrite Hmapped. reflexivity. }
  assert (Hmap1 : Os.memmap fs1 disp_file LittleEndian
                  = Ok (Np.flat IEEE.f4 (frombuffer LittleEndian (bytes f1)))).
  { unfold Os.memmap in Hmap |- *. rewrite Hf in Hmap. rewrite Hf1.
    cbn [bytes f1]. unfold bytes1. rewrite length_store_nan.
    destruct ((Z.of_nat (length (bytes f)) =? 0)
              || negb (Z.of_nat (length (bytes f)) mod 4 =? 0)); [discriminate|].
    reflexivity. }
  (* its mask selects nothing *)
  assert (Hnone : Forall (fun m => m = false) (ISCE.view_mask mapped1 nlon IEEE.pzero)).
  { unfold ISCE.view_mask, mapped1. cbn [shape data]. rewrite Hb.
    apply Forall_lookup_2. intros k b Hk.
    pose proof (lookup_lt_Some _ _ _ Hk) as Hlt.
    rewrite length_rows_mask in Hlt by lia.
    destruct (index_split w r k Hlt) as (i & j & -> & Hi & Hj).
    assert (Hx : is_Some (items !! (i * w + j)%nat)) by (apply lookup_lt_is_Some_2; nia).
    destruct Hx as [x Hx].
    rewrite (rows_mask_lookup r w n IEEE.pzero items1 i j _ ltac:(lia) ltac:(lia) Hi Hj
               (Hitems1 i j x Hi Hj Hx)) in Hk.
    injection Hk as <-.
    destruct (n <=? j)%nat; [|reflexivity]. cbn [andb].
    apply recode_zero_once. }
  assert (Hfs1 : after_store fs1 disp_file f1 mapped1 nlon = fs1).
  { unfold after_store at 1. rewrite store_nan_false by exact Hnone.
    apply write_same, Hf1. }
  (* the displacement it decodes *)
  assert (Hcols1 : Np.cols_from mapped1 nlon
                   = Ok (NdArray IEEE.f4 [r; (w - n)%nat]
                           (concat (map (drop n) (Np.rows r w items1))))).
  { unfold Np.cols_from, mapped1. cbn [shape dt data]. now rewrite Hb. }
  assert (Hsame : Np.set_nan_where_eq IEEE.pzero
                    (NdArray IEEE.f4 [r; (w - n)%nat]
                       (concat (map (drop n) (Np.rows r w items1))))
                  = Np.set_nan_where_eq IEEE.pzero displacement).
  { rewrite Hmapped in Hcols. unfold Np.cols_from in Hcols.
    cbn [shape dt data] in Hcols. rewrite Hb in Hcols. injection Hcols as <-.
    unfold Np.set_nan_where_eq. cbn [dt shape data]. f_equal.
    apply list_eq. intros k.
    rewrite !lookup_map.
    destruct (Nat.lt_ge_cases k (r * (w - n))) as [Hk | Hk].
    - destruct (index_split (w - n) r k Hk) as (i & j & -> & Hi & Hj).
      rewrite !rows_drop_lookup by lia.
      assert (Hx : is_Some (items !! (i * w + n + j)%nat))
        by (apply lookup_lt_is_Some_2; nia).
      destruct Hx as [x Hx].
      replace (i * w + n + j)%nat with (i * w + (n + j))%nat in * by lia.
      rewrite (Hitems1 i (n + j)%nat x Hi ltac:(lia) Hx), Hx.
      replace (n <=? n + j)%nat with true by (symmetry; apply Nat.leb_le; lia).
      cbn [andb fmap option_fmap option_map]. f_equal.
      apply recode_zero_once.
    - rewrite !lookup_ge_None_2; [reflexivity | |];
        rewrite length_rows_concat_drop by lia; lia. }
  (* the second run *)
  pose proof (ISCE_read_run path s' disp_file root coord_lon coord_lat delta_lat dLat
                delta_lon dLon size_lon nlon size_lat nlat start_lat extent llLat
                start_lon f1 mapped1
                (NdArray IEEE.f4 [r; (w - n)%nat]
                         (concat (map (drop n) (Np.rows r w items1))))
                los_file los_raw los_data phi theta) as Hrun.
  rewrite Hs' in Hrun. cbn [fs container log] in Hrun. fold fs1 in Hrun.
  rewrite Hfs1 in Hrun.
  assert (Hxml : disp_file +:+ ".xml" <> disp_file) by (apply append_neq; discriminate).
  specialize (Hrun ltac:(unfold fs1, after_store; rewrite getDisplacementFile_write;
                         exact Hdisp)
                   ltac:(unfold fs1, after_store; rewrite parse_write_ne by exact Hxml;
                         exact Hroot)
                   Hlon Hlat Hdl HdLat Hdo HdLon Hso Hnlon Hsl Hnlat Hstl Hext Hll Hsto
                   Hf1 Hmap1 Hre1 Hcols1 Hlos Hraw Hlre Hphi Hth).
  cbn zeta in Hrun. rewrite Hsame in Hrun.
  rewrite Hs'. rewrite Hrun.
  assert (Hcc : <["theta" := NpArray (Np.add_scalar theta IEEE.c_90)]>
           (<["phi" := NpArray phi]>
           (<["displacement" :=
                NpArray (Np.mul_scalar (Np.set_nan_where_eq IEEE.pzero displacement)
                                       IEEE.c_1em2)]>
           (<["llLon" := start_lon]> (<["llLat" := llLat]>
           (<["dLon" := dLon]> (<["dLat" := dLat]> c)))))) = c).
  { assert (Hk : c !! "dLat" = Some dLat /\ c !! "dLon" = Some dLon /\
                 c !! "llLat" = Some llLat /\ c !! "llLon" = Some start_lon /\
                 c !! "displacement"
                 = Some (NpArray (Np.mul_scalar
                                    (Np.set_nan_where_eq IEEE.pzero displacement)
                                    IEEE.c_1em2)) /\
                 c !! "phi" = Some (NpArray phi) /\
                 c !! "theta" = Some (NpArray (Np.add_scalar theta IEEE.c_90))).
    { rewrite Hc. repeat split;
        repeat (rewrite lookup_insert_ne by discriminate); apply lookup_insert_eq. }
    destruct Hk as (K1 & K2 & K3 & K4 & K5 & K6 & K7).
    rewrite (insert_id c _ _ K1), (insert_id c _ _ K2), (insert_id c _ _ K3),
      (insert_id c _ _ K4), (insert_id c _ _ K5), (insert_id c _ _ K6).
    apply insert_id, K7. }
  rewrite Hcc. reflexivity.
Qed.

Lemma X21_witness :
  let s := SceneIO_init IsceProduct.with_los in
  let run := ISCE.read "/isce" s in
  let c := Product.returned run in
  let s' := snd run in
  ISCE.read "/isce" s' = (Ok c, s').
Proof.
  intros s run c s'.
  apply (X21_isce_read_twice "/isce" s c s').
  exact isce_with_los_run.
Defined.

(** ** Matlab *)

(** *** The loop over the variables *)

Lemma assign_no_easting mat_k v io_k l s :
  no_easting (mat_k, v) ->
  exists l' s', Matlab.assign mat_k v io_k l s = (Ok l', s') /\ fst l' = fst l.
Proof.
  intros [Hxx Hyy]. cbn [fst snd] in *. unfold Matlab.assign.
  destruct (Str.contains io_k mat_k); [do 2 eexists; split; reflexivity|].
  destruct (Str.contains "ig_" mat_k); [do 2 eexists; split; reflexivity|].
  rewrite Hxx.
  destruct (Str.contains "yy" mat_k); [|do 2 eexists; split; reflexivity].
  unfold bind, lift, ret. destruct (Np.flatten v); [|discriminate Hyy; reflexivity].
  do 2 eexists; split; reflexivity.
Qed.

Lemma for_keys_no_easting mat_k v keys l s :
  no_easting (mat_k, v) ->
  exists l' s', Matlab.for_keys mat_k v keys l s = (Ok l', s') /\ fst l' = fst l.
Proof.
  intros Hv. revert l s. induction keys as [|io_k rest IH]; intros l s; simpl.
  - do 2 eexists; split; reflexivity.
  - destruct (assign_no_easting mat_k v io_k l s Hv) as (l1 & s1 & H1 & E1).
    rewrite (bind_ok _ _ _ _ _ H1).
    destruct (IH l1 s1) as (l2 & s2 & H2 & E2).
    exists l2, s2. split; [exact H2 | congruence].
Qed.

Lemma for_items_no_easting mat l s :
  Forall no_easting mat ->
  exists l' s', Matlab.for_items mat l s = (Ok l', s') /\ fst l' = fst l.
Proof.
  intros H. revert l s. induction H as [|[mat_k v] rest Hv _ IH]; intros l s; simpl.
  - do 2 eexists; split; reflexivity.
  - unfold bind at 1, get_container at 1.
    destruct (for_keys_no_easting mat_k v (map fst (map_to_list (container s))) l s Hv)
      as (l1 & s1 & H1 & E1).
    rewrite (bind_ok _ _ _ _ _ H1).
    destruct (IH l1 s1) as (l2 & s2 & H2 & E2).
    exists l2, s2. split; [exact H2 | congruence].
Qed.

(** X22. A [.mat] file none of whose variables has [xx] in its name: the loop
    goes through, [utm_e] is never bound, and [Matlab.read] ends in the
    [NameError] of [utm_e.min()]; no conversion is tried and no fallback
    applies. *)
Theorem X22_matlab_read_without_xx to_latlon filename s mat :
  Matlab.loadmat (fs s) filename = Ok mat ->
  Forall no_easting mat ->
  exists s', Matlab.read to_latlon filename s = (Raise NameError, s').
Proof.
  intros Hload Hmat.
  destruct (for_items_no_easting mat (None, None) s Hmat) as (l & s1 & Hloop & Hl).
  exists s1. unfold Matlab.read.
  unfold bind at 1, reading at 1. rewrite Hload.
  rewrite (bind_ok _ _ _ _ _ Hloop).
  unfold bind at 1, lift at 1, Matlab.rescale. rewrite Hl. reflexivity.
Qed.

(** A file that holds the interferogram and [yy] alone. *)
Lemma X22_witness :
  let s := SceneIO_init mat_without_xx in
  exists s', Matlab.read MatProduct.to_latlon_range "/mat/scene.mat" s
             = (Raise NameError, s').
Proof.
  intros s.
  apply (X22_matlab_read_without_xx MatProduct.to_latlon_range "/mat/scene.mat" s
           [("__header__", PyStr "MATLAB 5.0 MAT-file");
            ("ig_unw", MatProduct.grid [1; 2; 3; 4]);
            ("yy", MatProduct.grid [5000000; 5000000; 5000100; 5000100])]).
  - vm_compute; reflexivity.
  - repeat (constructor;
            [split; [vm_compute; reflexivity
                    | first [intros _; vm_compute; reflexivity
                            | intros H; vm_compute in H; discriminate H]]|]).
    constructor.
Defined.

(** *** Which variable a field comes from *)

Lemma assign_lookup_other mat_k v io_k l s l' s' K :
  Str.contains K mat_k = false ->
  K <> "displacement" \/ Str.contains "ig_" mat_k = false ->
  Matlab.assign mat_k v io_k l s = (Ok l', s') ->
  container s' !! K = container s !! K.
Proof.
  intros HK Hig. unfold Matlab.assign.
  destruct (Str.contains io_k mat_k) eqn:Hio.
  - intros [= _ <-]. cbn [container].
    apply lookup_insert_ne. intros ->. congruence.
  - destruct (Str.contains "ig_" mat_k) eqn:Hg.
    + intros [= _ <-]. cbn [container].
      apply lookup_insert_ne. destruct Hig; congruence.
    + unfold bind, lift, ret.
      repeat case_match; intros; simplify_eq/=; reflexivity.
Qed.

Lemma for_keys_lookup_other mat_k v keys l s l' s' K :
  Str.contains K mat_k = false ->
  K <> "displacement" \/ Str.contains "ig_" mat_k = false ->
  Matlab.for_keys mat_k v keys l s = (Ok l', s') ->
  container s' !! K = container s !! K.
Proof.
  intros HK Hig. revert l s. induction keys as [|io_k rest IH]; intros l s; simpl.
  - intros [= _ <-]. reflexivity.
  - intros H. apply bind_inv_ok in H as (l1 & s1 & H1 & H).
    rewrite (IH _ _ H). exact (assign_lookup_other _ _ _ _ _ _ _ K HK Hig H1).
Qed.

(** Whatever [assign] stores for the variable [(mat_k, v)], it stores [v]. *)
Lemma assign_keeps_value mat_k v io_k l s l' s' K :
  container s !! K = Some v ->
  Matlab.assign mat_k v io_k l s = (Ok l', s') ->
  container s' !! K = Some v.
Proof.
  intros HK. unfold Matlab.assign, bind, lift, ret, setitem.
  repeat case_match; intros; simplify_eq/=; try exact HK.
  - destruct (decide (io_k = K)) as [->|Hne];
      [apply lookup_insert_eq | rewrite lookup_insert_ne by exact Hne; exact HK].
  - destruct (decide ("displacement" = K)) as [<-|Hne];
      [apply lookup_insert_eq | rewrite lookup_insert_ne by exact Hne; exact HK].
Qed.

Lemma for_keys_keeps_value mat_k v keys l s l' s' K :
  container s !! K = Some v ->
  Matlab.for_keys mat_k v keys l s = (Ok l', s') ->
  container s' !! K = Some v.
Proof.
  revert l s. induction keys as [|io_k rest IH]; intros l s HK; simpl.
  - intros [= _ <-]. exact HK.
  - intros H. apply bind_inv_ok in H as (l1 & s1 & H1 & H).
    exact (IH _ _ (assign_keeps_value _ _ _ _ _ _ _ K HK H1) H).
Qed.

(** The variable [(mat_k, v)] is stored under [K] when [K] is among the
    keys and [mat_k] contains [K], or [K] is [displacement] and [mat_k]
    contains [ig_]. *)
Lemma for_keys_stores mat_k v keys l s l' s' K :
  In K keys ->
  Str.contains K mat_k = true \/ (K = "displacement" /\ Str.contains "ig_" mat_k = true) ->
  Matlab.for_keys mat_k v keys l s = (Ok l', s') ->
  container s' !! K = Some v.
Proof.
  intros HK Hhit. revert l s. induction keys as [|io_k rest IH]; intros l s; [destruct HK|].
  simpl. intros H. apply bind_inv_ok in H as (l1 & s1 & H1 & H).
  destruct HK as [-> | HK]; [|exact (IH HK _ _ H)].
  apply (for_keys_keeps_value _ _ _ _ _ _ _ K) in H; [exact H|].
  unfold Matlab.assign in H1.
  destruct Hhit as [Hc | [-> Hg]].
  - rewrite Hc in H1. injection H1 as _ <-. apply lookup_insert_eq.
  - destruct (Str.contains "displacement" mat_k);
      [|rewrite Hg in H1]; injection H1 as _ <-; apply lookup_insert_eq.
Qed.

Lemma for_items_lookup_other mat l s l' s' K :
  Forall (fun kv => Str.contains K (fst kv) = false /\
                    (K <> "displacement" \/ Str.contains "ig_" (fst kv) = false)) mat ->
  Matlab.for_items mat l s = (Ok l', s') ->
  container s' !! K = container s !! K.
Proof.
  intros H. revert l s. induction H as [|[mat_k v] rest [HK Hig] _ IH]; intros l s; simpl.
  - intros [= _ <-]. reflexivity.
  - intros H. apply bind_inv_ok in H as (c & s0 & Hc & H).
    injection Hc as <- <-.
    apply bind_inv_ok in H as (l1 & s1 & H1 & H).
    rewrite (IH _ _ H). exact (for_keys_lookup_other _ _ _ _ _ _ _ K HK Hig H1).
Qed.

(** X23. The loop of [Matlab.read], field by field: a field [K] of the
    container ends up holding the last variable whose name contains [K];
    and [displacement] the last variable whose name contains [ig_] or
    [displacement]. Names are matched by inclusion, not equality. *)
Theorem X23_matlab_loop_last_writer before mat_k v after l s l' s' K :
  is_Some (container s !! K) ->
  (forall k, In k fields -> is_Some (container s !! k)) ->
  Matlab.for_items (before ++ (mat_k, v) :: after) l s = (Ok l', s') ->
  Str.contains K mat_k = true \/ (K = "displacement" /\ Str.contains "ig_" mat_k = true) ->
  Forall (fun kv => Str.contains K (fst kv) = false /\
                    (K <> "displacement" \/ Str.contains "ig_" (fst kv) = false)) after ->
  container s' !! K = Some v.
Proof.
  intros HK Hfields H Hhit Hafter.
  assert (Hsplit : forall xs ys l s l' s',
             Matlab.for_items (xs ++ ys) l s = (Ok l', s') ->
             exists l1 s1, Matlab.for_items xs l s = (Ok l1, s1) /\
                           Matlab.for_items ys l1 s1 = (Ok l', s')).
  { clear. induction xs as [|[k x] xs IH]; intros ys l s l' s' H; simpl in *.
    - do 2 eexists. split; [reflexivity | exact H].
    - apply bind_inv_ok in H as (c & s0 & Hc & H). injection Hc as <- <-.
      apply bind_inv_ok in H as (l1 & s1 & H1 & H).
      destruct (IH _ _ _ _ _ H) as (l2 & s2 & H2 & H3).
      exists l2, s2. split; [|exact H3].
      unfold bind at 1, get_container at 1. rewrite (bind_ok _ _ _ _ _ H1). exact H2. }
  apply Hsplit in H as (l1 & s1 & Hbefore & H).
  pose proof (for_items_framed (fun _ => True) (dom (container s)) (log s) before l
                ltac:(apply elem_of_dom, Hfields; simpl; tauto)
                s _ s1 (framed_start _ s I) Hbefore) as (_ & Hdom & _).
  simpl in H. apply bind_inv_ok in H as (c & s0 & Hc & H). injection Hc as <- <-.
  apply bind_inv_ok in H as (l2 & s2 & H2 & H).
  rewrite (for_items_lookup_other _ _ _ _ _ K Hafter H).
  apply (for_keys_stores _ _ _ _ _ _ _ K) in H2; [exact H2| |exact Hhit].
  apply elem_of_dom in HK. rewrite <- Hdom in HK. apply elem_of_dom in HK as [x Hx].
  apply in_map_iff. exists (K, x). split; [reflexivity|].
  apply list_elem_of_In, elem_of_map_to_list, Hx.
Qed.

(** The mesh file: [displacement] comes from [ig_unw], which [xx] and [yy]
    after it leave alone. *)
Lemma X23_witness :
  let s := SceneIO_init MatProduct.files in
  let s' := snd (Matlab.for_items MatProduct.mesh (None, None) s) in
  container s' !! "displacement" = Some (MatProduct.grid [1; 2; 3; 4]).
Proof.
  intros s s'.
  refine (X23_matlab_loop_last_writer
            [("__header__", PyStr "MATLAB 5.0 MAT-file")]
            "ig_unw" (MatProduct.grid [1; 2; 3; 4])
            [("xx", MatProduct.grid [2000000; 2000100; 2000000; 2000100]);
             ("yy", MatProduct.grid [5000000; 5000000; 5000100; 5000100])]
            (None, None) s
            (match fst (Matlab.for_items MatProduct.mesh (None, None) s) with
             | Ok l => l
             | Raise _ => (None, None)
             end) s' "displacement" _ _ _ _ _).
  - eexists. vm_compute; reflexivity.
  - intros k Hk. simpl in Hk.
    repeat (destruct Hk as [<- | Hk]; [eexists; vm_compute; reflexivity|]).
    destruct Hk.
  - vm_compute; reflexivity.
  - right. split; vm_compute; reflexivity.
  - repeat (constructor; [split; [vm_compute; reflexivity | right; vm_compute; reflexivity]|]).
    constructor.
Defined.

(** *** The conversion of the corners *)

(** X24. When [utm.to_latlon] takes both corners: [llLat] and [llLon] are the
    latitude and longitude of the least easting and northing, and [dLat],
    [dLon] the distance in degrees to the corner of the greatest ones,
    divided by the number of rows and of columns of the displacement. The
    conversion logs nothing. *)
Theorem X24_matlab_read_converted to_latlon filename s mat l s1 utm_e utm_n
    e_min n_min e_max n_max ll ur displ rows cols rest :
  Matlab.loadmat (fs s) filename = Ok mat ->
  Matlab.for_items mat (None, None) s = (Ok l, s1) ->
  Matlab.rescale l = Ok (utm_e, utm_n) ->
  Np.min utm_e = Ok e_min -> Np.min utm_n = Ok n_min ->
  Np.max utm_e = Ok e_max -> Np.max utm_n = Ok n_max ->
  to_latlon e_min n_min 32 "N" = Some ll ->
  to_latlon e_max n_max 32 "N" = Some ur ->
  container s1 !! "displacement" = Some (NpArray displ) ->
  shape displ = S rows :: S cols :: rest ->
  exists c,
    Matlab.read to_latlon filename s = (Ok c, State c (log s1) (fs s1)) /\
    c !! "llLat" = Some (PyFloat (fst ll)) /\
    c !! "llLon" = Some (PyFloat (snd ll)) /\
    c !! "dLat"
    = Some (PyFloat (IEEE.div IEEE.f8 (IEEE.sub IEEE.f8 (fst ur) (fst ll))
                              (IEEE.of_Z (Z.of_nat (S rows))))) /\
    c !! "dLon"
    = Some (PyFloat (IEEE.div IEEE.f8 (IEEE.sub IEEE.f8 (snd ur) (snd ll))
                              (IEEE.of_Z (Z.of_nat (S cols))))) /\
    c !! "displacement" = Some (NpArray displ).
Proof.
  intros Hload Hloop Hscale He Hn Hem Hnm Hll Hur Hdispl Hshape.
  unfold Matlab.read.
  unfold bind at 1, reading at 1. rewrite Hload.
  rewrite (bind_ok _ _ _ _ _ Hloop).
  unfold bind at 1, lift at 1. rewrite Hscale. cbn [fst snd].
  unfold Matlab.except_OutOfRange, Matlab.utm_to_latlon, Matlab.shape_at,
    Matlab.span_over, bind, lift, ret, raise, setitem, emit, get_container, getitem.
  rewrite He, Hn, Hll. cbn [container log fs]. rewrite Hem, Hnm, Hur.
  cbn [container log fs].
  set (c1 := <["llLon" := PyFloat (snd ll)]>
              (<["llLat" := PyFloat (fst ll)]> (container s1))).
  assert (L1 : c1 !! "llLat" = Some (PyFloat (fst ll))).
  { unfold c1. rewrite lookup_insert_ne by discriminate. apply lookup_insert_eq. }
  assert (L2 : c1 !! "displacement" = Some (NpArray displ)).
  { unfold c1. rewrite !lookup_insert_ne by discriminate. exact Hdispl. }
  assert (L3 : forall v, <["dLat" := v]> c1 !! "llLon" = Some (PyFloat (snd ll))).
  { intros v. unfold c1. rewrite lookup_insert_ne by discriminate. apply lookup_insert_eq. }
  assert (L4 : forall v, <["dLat" := v]> c1 !! "displacement" = Some (NpArray displ)).
  { intros v. rewrite lookup_insert_ne by discriminate. exact L2. }
  rewrite L1, L2, Hshape. cbn [lookup list_lookup].
  replace (Z.of_nat (S rows) =? 0) with false by (symmetry; apply Z.eqb_neq; lia).
  rewrite L3, L4, Hshape. cbn [lookup list_lookup].
  replace (Z.of_nat (S cols) =? 0) with false by (symmetry; apply Z.eqb_neq; lia).
  eexists. split; [reflexivity|]. unfold c1.
  repeat split; repeat (rewrite lookup_insert_ne by discriminate);
    first [apply lookup_insert_eq | exact Hdispl].
Qed.

(** A mesh within the range of the conversion. *)
Lemma X24_witness :
  let s := SceneIO_init mat_in_range in
  let s1 := snd (Matlab.for_items mesh_in_range (None, None) s) in
  let ll := (IEEE.nan, IEEE.nan) in
  let ur := (IEEE.nan, IEEE.nan) in
  let displ := NdArray IEEE.f8 [2%nat; 2%nat] (map IEEE.of_Z [1; 2; 3; 4]) in
  exists c,
    Matlab.read MatProduct.to_latlon_range "/mat/scene.mat" s
    = (Ok c, State c (log s1) (fs s1)) /\
    c !! "llLat" = Some (PyFloat (fst ll)) /\
    c !! "llLon" = Some (PyFloat (snd ll)) /\
    c !! "dLat"
    = Some (PyFloat (IEEE.div IEEE.f8 (IEEE.sub IEEE.f8 (fst ur) (fst ll))
                              (IEEE.of_Z (Z.of_nat 2)))) /\
    c !! "dLon"
    = Some (PyFloat (IEEE.div IEEE.f8 (IEEE.sub IEEE.f8 (snd ur) (snd ll))
                              (IEEE.of_Z (Z.of_nat 2)))) /\
    c !! "displacement" = Some (NpArray displ).
Proof.
  intros s s1 ll ur displ.
  pose (utm_e := NdArray IEEE.f8 [4%nat] (map IEEE.of_Z [500000; 500100; 500000; 500100])).
  pose (utm_n := NdArray IEEE.f8 [4%nat]
                   (map IEEE.of_Z [5000000; 5000000; 5000100; 5000100])).
  refine (X24_matlab_read_converted MatProduct.to_latlon_range "/mat/scene.mat" s
            mesh_in_range (Some utm_e, Some utm_n) s1 utm_e utm_n
            (IEEE.of_Z 500000) (IEEE.of_Z 5000000) (IEEE.of_Z 500100) (IEEE.of_Z 5000100)
            ll ur displ 1%nat 1%nat [] _ _ _ _ _ _ _ _ _ _ _);
    vm_compute; reflexivity.
Defined.

(** ** GMTSAR: the decode *)

Section GmtsarRead.
Variable netcdf_file : list Byte.byte -> result (gmap string ndarray).
Variable arctan arccos rad2deg : IEEE.dtype -> spec_float -> spec_float.

Lemma GMTSAR_getLOSFile_none path s :
  Os.glob (fs s)
    (Path.join (if negb (Os.isdir (fs s) path) then Path.dirname path else path)
               "*.los.*") = [] ->
  GMTSAR._getLOSFile path s
  = (Raise (ImportError [GMTSAR.los_msg]),
     State (container s) (log s ++ [(WARNING, GMTSAR.__doc__)]) (fs s)).
Proof.
  intros Hglob. unfold GMTSAR._getLOSFile, bind, reading, emit, raise.
  rewrite Hglob. reflexivity.
Qed.

(** X25. A GMTSAR grid without LOS file: the [ImportError] of [_getLOSFile] is
    caught, [theta] and [phi] are the Python float [0.], and the log gets
    the class docstring and "Defaulting theta and phi to 0". The
    displacement is [z] scaled by [1e-2]; the corner is the least [lat] and
    [lon]; [dLat] is the [lat] range over the second dimension of [z] and
    [dLon] the [lon] range over the first. *)
Theorem X25_gmtsar_read_without_los path s disp_file f variables z lat lon
    lat_min lat_max lon_min lon_max lines columns rest :
  GMTSAR._getDisplacementFile (fs s) path = Ok disp_file ->
  Os.open (fs s) disp_file = Ok f ->
  netcdf_file (bytes f) = Ok variables ->
  GMTSAR.variable variables "z" = Ok z ->
  GMTSAR.variable variables "lat" = Ok lat ->
  GMTSAR.variable variables "lon" = Ok lon ->
  Np.min lat = Ok lat_min -> Np.max lat = Ok lat_max ->
  Np.min lon = Ok lon_min -> Np.max lon = Ok lon_max ->
  shape z = lines :: columns :: rest ->
  Os.glob (fs s)
    (Path.join (if negb (Os.isdir (fs s) path) then Path.dirname path else path)
               "*.los.*") = [] ->
  exists c,
    GMTSAR.read netcdf_file arctan arccos rad2deg path s
    = (Ok c, State c (log s ++ [(WARNING, GMTSAR.__doc__);
                                (WARNING, GMTSAR.default_msg)]) (fs s)) /\
    c !! "theta" = Some (PyFloat IEEE.pzero) /\
    c !! "phi" = Some (PyFloat IEEE.pzero) /\
    c !! "displacement" = Some (NpArray (Np.mul_scalar z IEEE.c_1em2)) /\
    c !! "llLat" = Some (NpFloat lat_min) /\
    c !! "llLon" = Some (NpFloat lon_min) /\
    c !! "dLat"
    = Some (NpFloat (GMTSAR.step (dt lat) lat_max lat_min (Z.of_nat columns))) /\
    c !! "dLon"
    = Some (NpFloat (GMTSAR.step (dt lon) lon_max lon_min (Z.of_nat lines))).
Proof.
  intros Hdisp Hf Hvars Hz Hlat Hlon Hlat0 Hlat1 Hlon0 Hlon1 Hshape Hglob.
  unfold GMTSAR.read, Path.abspath.
  unfold bind at 1, reading at 1. rewrite Hdisp.
  unfold bind at 1, reading at 1. rewrite Hf, Hvars.
  unfold bind at 1, lift at 1. rewrite Hz.
  unfold bind, lift, setitem, Np.dim, except_ImportError.
  cbn [Np.mul_scalar shape container log fs].
  rewrite Hlat, Hlat0, Hlon, Hlon0, Hlat1, Hlon1, Hshape.
  cbn [lookup list_lookup container log fs].
  match goal with
  | |- context [GMTSAR._getLOSFile path ?s0] =>
      rewrite (GMTSAR_getLOSFile_none path s0) by exact Hglob
  end.
  unfold emit, get_container. cbn [container log fs].
  rewrite <- app_assoc. cbn [app].
  eexists. split; [reflexivity|].
  repeat split; repeat (rewrite lookup_insert_ne by discriminate); apply lookup_insert_eq.
Qed.

Lemma strided_lookup step xs skip k :
  Np.strided (S step) xs skip !! k = xs !! (skip + k * S step)%nat.
Proof.
  revert skip k. induction xs as [|x xs IH]; intros skip k; [reflexivity|].
  destruct skip as [|j]; cbn [Np.strided].
  - destruct k as [|k]; [reflexivity|].
    cbn [lookup list_lookup]. rewrite IH.
    replace (0 + S k * S step)%nat with (S (S step - 1 + k * S step)) by lia.
    reflexivity.
  - rewrite IH. reflexivity.
Qed.

Lemma except_ImportError_ok_inv {A} (m h : M A) s a s' :
  except_ImportError m h s = (Ok a, s') ->
  m s = (Ok a, s') \/
  exists args s1, m s = (Raise (ImportError args), s1) /\ h s1 = (Ok a, s').
Proof.
  unfold except_ImportError. destruct (m s) as [[x|e] s1]; [auto|].
  destruct e; try discriminate. eauto.
Qed.

Lemma reshape_to_inv a sh a' :
  Np.reshape_to a sh = Ok a' -> a' = NdArray (dt a) sh (data a).
Proof. unfold Np.reshape_to. case_match; [intros [= <-]; reflexivity | discriminate]. Qed.

Lemma GMTSAR_getLOSFile_found path s los_file rest :
  Os.glob (fs s)
    (Path.join (if negb (Os.isdir (fs s) path) then Path.dirname path else path)
               "*.los.*") = los_file :: rest ->
  GMTSAR._getLOSFile path s = (Ok los_file, s).
Proof.
  intros Hglob. unfold GMTSAR._getLOSFile, bind, reading. rewrite Hglob. reflexivity.
Qed.

(** X26. With a LOS file: it is read as little-endian binary32 records of six
    items, of which the last three are the east, north and up components
    of the look vector. For each record, [phi] is [rad2deg(arccos(u))] and
    [theta] is [rad2deg(arctan(n / e))], plus 180 where [n] is negative;
    both arrays take the shape of the displacement. *)
Theorem X26_gmtsar_read_los_vectors path s c s' los_file rest :
  GMTSAR.read netcdf_file arctan arccos rad2deg path s = (Ok c, s') ->
  Os.glob (fs s)
    (Path.join (if negb (Os.isdir (fs s) path) then Path.dirname path else path)
               "*.los.*") = los_file :: rest ->
  exists f z phi theta,
    Os.open (fs s) los_file = Ok f /\
    c !! "displacement" = Some (NpArray z) /\
    c !! "phi" = Some (NpArray phi) /\
    c !! "theta" = Some (NpArray theta) /\
    shape phi = shape z /\ shape theta = shape z /\
    forall k e n u,
      frombuffer LittleEndian (bytes f) !! (3 + k * 6)%nat = Some e ->
      frombuffer LittleEndian (bytes f) !! (4 + k * 6)%nat = Some n ->
      frombuffer LittleEndian (bytes f) !! (5 + k * 6)%nat = Some u ->
      data phi !! k = Some (rad2deg IEEE.f4 (arccos IEEE.f4 u)) /\
      data theta !! k
      = Some (let t := rad2deg IEEE.f4 (arctan IEEE.f4 (IEEE.div IEEE.f4 n e)) in
              if IEEE.ltb n IEEE.pzero
              then IEEE.add IEEE.f4 t (IEEE.cast IEEE.f4 (IEEE.of_Z 180))
              else t).
Proof.
  intros H Hglob. unfold GMTSAR.read, Path.abspath in H.
  apply bind_inv_ok in H as (disp_file & ? & Hdisp & H).
  apply reading_inv in Hdisp as [Hdisp ->].
  apply bind_inv_ok in H as (variables & ? & Hvars & H).
  apply reading_inv in Hvars as [Hvars ->].
  apply bind_inv_ok in H as (z & ? & Hz & H). apply lift_inv in Hz as [Hz ->].
  apply bind_inv_ok in H as (? & ? & Hset & H). apply setitem_inv in Hset as [_ ->].
  apply bind_inv_ok in H as (? & ? & Hset & H). apply setitem_inv in Hset as [_ ->].
  apply bind_inv_ok in H as (lat & ? & Hlat & H). apply lift_inv in Hlat as [Hlat ->].
  apply bind_inv_ok in H as (llLat & ? & Hlat0 & H). apply lift_inv in Hlat0 as [Hlat0 ->].
  apply bind_inv_ok in H as (? & ? & Hset & H). apply setitem_inv in Hset as [_ ->].
  apply bind_inv_ok in H as (lon & ? & Hlon & H). apply lift_inv in Hlon as [Hlon ->].
  apply bind_inv_ok in H as (llLon & ? & Hlon0 & H). apply lift_inv in Hlon0 as [Hlon0 ->].
  apply bind_inv_ok in H as (? & ? & Hset & H). apply setitem_inv in Hset as [_ ->].
  apply bind_inv_ok in H as (lat' & ? & Hlat' & H). apply lift_inv in Hlat' as [Hlat' ->].
  apply bind_inv_ok in H as (lat_max & ? & Hlat1 & H). apply lift_inv in Hlat1 as [Hlat1 ->].
  apply bind_inv_ok in H as (columns & ? & Hcol & H). apply lift_inv in Hcol as [Hcol ->].
  apply bind_inv_ok in H as (? & ? & Hset & H). apply setitem_inv in Hset as [_ ->].
  apply bind_inv_ok in H as (lon' & ? & Hlon' & H). apply lift_inv in Hlon' as [Hlon' ->].
  apply bind_inv_ok in H as (lon_max & ? & Hlon1 & H). apply lift_inv in Hlon1 as [Hlon1 ->].
  apply bind_inv_ok in H as (lines & ? & Hlin & H). apply lift_inv in Hlin as [Hlin ->].
  apply bind_inv_ok in H as (? & ? & Hset & H). apply setitem_inv in Hset as [_ ->].
  apply bind_inv_ok in H as (? & s2 & Htry & H).
  unfold get_container in H. injection H as <- <-.
  apply except_ImportError_ok_inv in Htry as [Htry | (args & s1 & Htry & _)].
  2:{ exfalso.
      apply bind_inv in Htry as [(? & ? & _ & Htry) | (? & Hl & _)].
      - apply bind_inv in Htry as [(? & ? & _ & Htry) | (? & Hm & [= <-])].
        2:{ apply reading_inv in Hm as [Hm _].
            exact (no_ImportError_raise _ _ (memmap_no_ImportError _ _ _) (eq_sym Hm)). }
        do 3 (apply bind_inv in Htry as [(? & ? & _ & Htry) | (? & Hm & [= <-])];
              [|apply lift_inv in Hm as [Hm _]; unfold Np.reshape_to in Hm;
                destruct (Nat.eqb _ _) in Hm; discriminate Hm]).
        apply bind_inv in Htry as [(? & ? & _ & Htry) | (? & Hm & _)];
          [|apply setitem_inv in Hm as [[=] _]].
        apply setitem_inv in Htry as [[=] _].
      - rewrite (GMTSAR_getLOSFile_found _ _ los_file rest) in Hl by exact Hglob.
        discriminate. }
  apply bind_inv_ok in Htry as (los_file' & ? & Hl & Htry).
  rewrite (GMTSAR_getLOSFile_found _ _ los_file rest) in Hl by exact Hglob.
  injection Hl as <- <-.
  apply bind_inv_ok in Htry as (los & ? & Hmap & Htry).
  apply reading_inv in Hmap as [Hmap ->]. cbn [fs] in Hmap.
  symmetry in Hmap. apply memmap_inv in Hmap as (f & Hf & ->).
  cbn [Np.flat dt data] in Htry.
  apply bind_inv_ok in Htry as (e & ? & He & Htry). apply lift_inv in He as [He ->].
  apply bind_inv_ok in Htry as (n & ? & Hn & Htry). apply lift_inv in Hn as [Hn ->].
  apply bind_inv_ok in Htry as (u & ? & Hu & Htry). apply lift_inv in Hu as [Hu ->].
  apply bind_inv_ok in Htry as (? & ? & Hset & Htry). apply setitem_inv in Hset as [_ ->].
  apply setitem_inv in Htry as [_ ->]. cbn [container].
  symmetry in He, Hn, Hu.
  apply reshape_to_inv in He, Hn, Hu. subst e n u. cbn [Np.flat dt data shape] in *.
  exists f. eexists _, _, _.
  split; [exact Hf|].
  split; [repeat (rewrite lookup_insert_ne by discriminate); apply lookup_insert_eq|].
  split; [repeat (rewrite lookup_insert_ne by discriminate); apply lookup_insert_eq|].
  split; [apply lookup_insert_eq|].
  cbn [Np.elementwise Np.add_where_negative Np.divide Np.mul_scalar shape dt data].
  split; [reflexivity|]. split; [reflexivity|].
  intros k e n u He Hn Hu. split.
  - rewrite !lookup_map, strided_lookup, Hu. reflexivity.
  - rewrite lookup_zip_with, !lookup_map, lookup_zip_with, !strided_lookup, Hn, He.
    reflexivity.
Qed.

End GmtsarRead.

(** The grid alone. *)
Lemma X25_witness :
  let netcdf_file := GmtProduct.netcdf_file in
  let arctan := GmtProduct.unchanged in
  let arccos := GmtProduct.unchanged in
  let rad2deg := GmtProduct.unchanged in
  let path := "/gmt" in
  let s := SceneIO_init GmtProduct.without_los in
  let z := NdArray IEEE.f4 [2%nat; 2%nat] (map (fun n => IEEE.cast IEEE.f4 (IEEE.of_Z n)) [1; 2; 3; 4]) in
  let lat := NdArray IEEE.f8 [2%nat] (map IEEE.of_Z [50; 51]) in
  let lon := NdArray IEEE.f8 [2%nat] (map IEEE.of_Z [10; 11]) in
  let lat_min := IEEE.of_Z 50 in
  let lat_max := IEEE.of_Z 51 in
  let lon_min := IEEE.of_Z 10 in
  let lon_max := IEEE.of_Z 11 in
  let lines := 2%nat in
  let columns := 2%nat in
  exists c,
    GMTSAR.read netcdf_file arctan arccos rad2deg path s
    = (Ok c, State c (log s ++ [(WARNING, GMTSAR.__doc__);
                                (WARNING, GMTSAR.default_msg)]) (fs s)) /\
    c !! "theta" = Some (PyFloat IEEE.pzero) /\
    c !! "phi" = Some (PyFloat IEEE.pzero) /\
    c !! "displacement" = Some (NpArray (Np.mul_scalar z IEEE.c_1em2)) /\
    c !! "llLat" = Some (NpFloat lat_min) /\
    c !! "llLon" = Some (NpFloat lon_min) /\
    c !! "dLat"
    = Some (NpFloat (GMTSAR.step (dt lat) lat_max lat_min (Z.of_nat columns))) /\
    c !! "dLon"
    = Some (NpFloat (GMTSAR.step (dt lon) lon_max lon_min (Z.of_nat lines))).
Proof.
  intros netcdf_file arctan arccos rad2deg path s z lat lon lat_min lat_max lon_min lon_max
         lines columns.
  apply (X25_gmtsar_read_without_los netcdf_file arctan arccos rad2deg path s
           "/gmt/unwrap_ll.grd" (Product.raw_file GmtProduct.grd_bytes)
           GmtProduct.variables z lat lon lat_min lat_max lon_min lon_max
           lines columns []);
    vm_compute; reflexivity.
Defined.

(** The grid with its look vectors decodes. *)
Lemma gmt_with_los_run :
  let s := SceneIO_init GmtProduct.with_los in
  let run := GMTSAR.read GmtProduct.netcdf_file GmtProduct.unchanged
               GmtProduct.unchanged GmtProduct.unchanged "/gmt" s in
  run = (Ok (Product.returned run), snd run).
Proof. vm_compute; reflexivity. Qed.

Lemma X26_witness :
  let netcdf_file := GmtProduct.netcdf_file in
  let arctan := GmtProduct.unchanged in
  let arccos := GmtProduct.unchanged in
  let rad2deg := GmtProduct.unchanged in
  let path := "/gmt" in
  let s := SceneIO_init GmtProduct.with_los in
  let run := GMTSAR.read netcdf_file arctan arccos rad2deg path s in
  let c := Product.returned run in
  let los_file := "/gmt/look.los.enu" in
  exists f z phi theta,
    Os.open (fs s) los_file = Ok f /\
    c !! "displacement" = Some (NpArray z) /\
    c !! "phi" = Some (NpArray phi) /\
    c !! "theta" = Some (NpArray theta) /\
    shape phi = shape z /\ shape theta = shape z /\
    forall k e n u,
      frombuffer LittleEndian (bytes f) !! (3 + k * 6)%nat = Some e ->
      frombuffer LittleEndian (bytes f) !! (4 + k * 6)%nat = Some n ->
      frombuffer LittleEndian (bytes f) !! (5 + k * 6)%nat = Some u ->
      data phi !! k = Some (rad2deg IEEE.f4 (arccos IEEE.f4 u)) /\
      data theta !! k
      = Some (let t := rad2deg IEEE.f4 (arctan IEEE.f4 (IEEE.div IEEE.f4 n e)) in
              if IEEE.ltb n IEEE.pzero
              then IEEE.add IEEE.f4 t (IEEE.cast IEEE.f4 (IEEE.of_Z 180))
              else t).
Proof.
  intros netcdf_file arctan arccos rad2deg path s run c los_file.
  apply (X26_gmtsar_read_los_vectors netcdf_file arctan arccos rad2deg path s c
           (snd run) los_file []).
  - exact gmt_with_los_run.
  - vm_compute; reflexivity.
Defined.


(** ** GMTSAR: names, patterns and the probe *)

Lemma append_cons c (a b : string) : String c a +:+ b = String c (a +:+ b).
Proof. reflexivity. Qed.

Lemma append_empty (b : string) : "" +:+ b = b.
Proof. reflexivity. Qed.

Lemma rsplit_spec p h t : Path.rsplit p = Some (h, t) -> p = h +:+ "/" +:+ t.
Proof.
  revert h t. induction p as [|c p IH]; intros h t; simpl; [discriminate|].
  destruct (Path.rsplit p) as [[h' t']|].
  - intros [= <- <-]. rewrite append_cons. f_equal. apply IH. reflexivity.
  - destruct (Ascii.eqb c "/") eqn:Hc; [|discriminate].
    intros [= <- <-]. apply Ascii.eqb_eq in Hc as ->. reflexivity.
Qed.

Lemma rsplit_dir a t :
  Path.rsplit t = None -> Path.rsplit (a +:+ "/" +:+ t) = Some (a, t).
Proof.
  intros Ht. induction a as [|c a IH].
  - rewrite append_empty, append_cons, append_empty. simpl. rewrite Ht. reflexivity.
  - rewrite append_cons. simpl. rewrite IH. reflexivity.
Qed.

Lemma ends_with_slash a :
  String.eqb (Str.last_chars 1 a) "/" = true -> exists a', a = a' +:+ "/".
Proof.
  unfold Str.last_chars. intros H. apply String.eqb_eq in H.
  induction a as [|c a IH]; [discriminate|].
  destruct a as [|d a].
  - simpl in H. exists "". exact H.
  - destruct IH as [a' Ha'].
    + simpl in H |- *. rewrite Nat.sub_0_r in *. exact H.
    + exists (String c a'). rewrite append_cons. now rewrite <- Ha'.
Qed.

Lemma append_assoc (a b c : string) : (a +:+ b) +:+ c = a +:+ (b +:+ c).
Proof.
  induction a as [|x a IH]; [reflexivity|]. rewrite !append_cons. now rewrite IH.
Qed.

(** The last component of [os.path.join(path, pattern)] is the pattern. *)
Lemma basename_join a t :
  Path.rsplit t = None -> Path.basename (Path.join a t) = t.
Proof.
  intros Ht. unfold Path.join, Path.basename.
  destruct (String.eqb a "") eqn:Ha; [rewrite Ht; reflexivity|].
  destruct (String.eqb (Str.last_chars 1 a) "/") eqn:Hs.
  - apply ends_with_slash in Hs as [a' ->].
    rewrite append_assoc, rsplit_dir by exact Ht. reflexivity.
  - rewrite rsplit_dir by exact Ht. reflexivity.
Qed.

Lemma fnmatch_star pat name :
  Str.fnmatch (String "*" pat) name = true ->
  exists pre n, name = pre +:+ n /\ Str.fnmatch pat n = true.
Proof.
  cbn [Str.fnmatch]. rewrite Ascii.eqb_refl.
  induction name as [|c name IH].
  - rewrite orb_false_r. intros H. exists "", "". auto.
  - intros H. apply orb_true_iff in H as [H | H].
    + exists "", (String c name). auto.
    + destruct (IH H) as (pre & n & -> & Hn). exists (String c pre), n.
      rewrite append_cons. auto.
Qed.

Lemma fnmatch_grd name : Str.fnmatch ".grd" name = true -> name = ".grd".
Proof.
  cbn [Str.fnmatch]. change (Ascii.eqb "." "*") with false.
  change (Ascii.eqb "g" "*") with false. change (Ascii.eqb "r" "*") with false.
  change (Ascii.eqb "d" "*") with false. cbv iota.
  destruct name as [|c0 [|c1 [|c2 [|c3 [|c4 name]]]]]; try discriminate;
    rewrite ?andb_false_r; try discriminate.
  intros H. repeat (apply andb_true_iff in H as [? H]).
  repeat match goal with H : Ascii.eqb _ _ = true |- _ => apply Ascii.eqb_eq in H end.
  subst. reflexivity.
Qed.

Lemma length_append (a b : string) :
  String.length (a +:+ b) = (String.length a + String.length b)%nat.
Proof.
  induction a as [|c a IH]; [reflexivity|]. rewrite append_cons. simpl. now rewrite IH.
Qed.

Lemma substring_skip a b n :
  String.substring (String.length a) n (a +:+ b) = String.substring 0 n b.
Proof.
  induction a as [|c a IH]; [reflexivity|]. rewrite append_cons. simpl. exact IH.
Qed.

Lemma last_chars_suffix x : Str.last_chars 4 (x +:+ ".grd") = ".grd".
Proof.
  unfold Str.last_chars. rewrite length_append. simpl String.length.
  replace (String.length x + 4 - 4)%nat with (String.length x) by lia.
  rewrite substring_skip. reflexivity.
Qed.

(** What the glob for [*.grd] returns has a name that ends in [.grd]. *)
Lemma glob_grd fs path p :
  In p (Os.glob fs (Path.join path "*.grd")) -> Str.last_chars 4 p = ".grd".
Proof.
  unfold Os.glob. rewrite basename_join by reflexivity.
  destruct (Os.isdir fs _); [|intros []].
  intros H. apply in_map_iff in H as ([q n] & <- & H). cbn [fst].
  apply filter_In in H as [_ H].
  apply andb_true_iff in H as [_ H].
  apply fnmatch_star in H as (pre & m & Hb & Hm).
  apply fnmatch_grd in Hm as ->.
  unfold Path.basename in Hb.
  destruct (Path.rsplit q) as [[h t]|] eqn:Hq.
  - apply rsplit_spec in Hq as ->. subst t.
    rewrite <- !append_assoc. apply last_chars_suffix.
  - subst q. apply last_chars_suffix.
Qed.

(** X27. [GMTSAR.validate], case by case: of a regular file it looks at the
    name only, which must end in [.grd]; of anything else it answers
    whether the glob for [*.grd] below it finds an entry, the test on the
    ending being then always met. It never raises. *)
Theorem X27_gmtsar_validate_answer filename s :
  GMTSAR.validate filename s
  = (Ok (if Os.isfile (fs s) filename
         then String.eqb (Str.last_chars 4 filename) ".grd"
         else match Os.glob (fs s) (Path.join filename "*.grd") with
              | [] => false
              | _ :: _ => true
              end), s).
Proof.
  unfold GMTSAR.validate, except_ImportError, bind, reading, GMTSAR._getDisplacementFile.
  destruct (Os.isfile (fs s) filename).
  - destruct (String.eqb _ _); reflexivity.
  - destruct (Os.glob (fs s) (Path.join filename "*.grd")) as [|p rest] eqn:Hglob;
      [reflexivity|].
    rewrite (glob_grd (fs s) filename p) by (rewrite Hglob; left; reflexivity).
    reflexivity.
Qed.


(** ** [meta.py]: [trimMatrix] *)

Lemma scan_from_scanned all flags prefix b :
  all = prefix ++ flags ->
  scanned all (length prefix) b ->
  scanned all (length all) (Meta.scan_from (length prefix) flags b).
Proof.
  revert prefix b. induction flags as [|d flags IH]; intros prefix b Hall Hb.
  - rewrite app_nil_r in Hall. subst all. exact Hb.
  - cbn [Meta.scan_from].
    replace (S (length prefix)) with (length (prefix ++ [d]))
      by (rewrite length_app; simpl; lia).
    apply IH; [rewrite <- app_assoc; exact Hall|].
    rewrite length_app. cbn [length].
    assert (Hd : all !! length prefix = Some d).
    { rewrite Hall, lookup_app_r by lia. now rewrite Nat.sub_diag. }
    destruct b as [b1 b2]. destruct Hb as [H2 H1]. cbn [fst snd] in *.
    unfold Meta.mark, scanned. cbn [fst snd].
    destruct d.
    + destruct (b1 =? 0)%nat eqn:E; cbn [fst snd].
      * apply Nat.eqb_eq in E. subst b1.
        split; [intros Hpos; destruct (H2 Hpos) as [? _]; lia|].
        intros Hpos. split; [lia | exact Hd].
      * apply Nat.eqb_neq in E. destruct H1 as [Hlt Hb1]; [lia|].
        split.
        -- intros _. repeat split; try lia; exact Hd.
        -- intros _. split; [lia | exact Hb1].
    + cbn [fst snd]. split.
      * intros Hpos. destruct (H2 Hpos) as (Ha & Hb & Hc & Hafter).
        repeat split; try lia; [exact Hc|].
        intros i Hi. destruct (decide (i = length prefix)) as [->|Hne];
          [exact Hd | apply Hafter; lia].
      * intros Hpos. destruct (H1 Hpos) as [Ha Hb]. split; [lia | exact Hb].
Qed.

Lemma bounds_scanned flags n :
  length flags = n -> scanned flags n (Meta.bounds flags).
Proof.
  intros <-.
  apply (scan_from_scanned flags flags [] (0, 0)%nat); [reflexivity|].
  split; cbn [fst snd]; lia.
Qed.

Lemma length_rows n m xs : length (Np.rows n m xs) = n.
Proof. revert xs. induction n as [|n IH]; intros xs; simpl; [reflexivity | now rewrite IH]. Qed.

(** X28. [trimMatrix] on a matrix of [n] rows and [m] columns returns the
    block of rows [r1 .. r2 - 1] and columns [c1 .. c2 - 1], and whenever
    that block has a row, row 0 is not in it and row [r2], which holds
    data and is the last that does, is not in it either; likewise for the
    columns. The first row or column is cut even when it holds data, and
    so is the last one that does. *)
Theorem X28_trimMatrix_cuts_data displ n m :
  shape displ = [n; m] ->
  let rows := Np.rows n m (data displ) in
  exists r1 r2 c1 c2,
    Meta.trimMatrix displ
    = Ok (NdArray (dt displ) [(r2 - r1)%nat; (c2 - c1)%nat]
                  (concat (map (Meta.slice c1 c2) (Meta.slice r1 r2 rows)))) /\
    ((r1 < r2)%nat ->
     (0 < r1)%nat /\ (r2 < n)%nat /\
     (exists row, rows !! r2 = Some row /\ Meta.holds_data row = true) /\
     forall i row, (r2 < i)%nat -> rows !! i = Some row -> Meta.holds_data row = false) /\
    ((c1 < c2)%nat ->
     (0 < c1)%nat /\ (c2 < m)%nat /\
     Meta.holds_data (Meta.column rows c2) = true /\
     forall j, (c2 < j < m)%nat -> Meta.holds_data (Meta.column rows j) = false).
Proof.
  intros Hshape rows. unfold Meta.trimMatrix. rewrite Hshape. fold rows.
  pose proof (bounds_scanned (map Meta.holds_data rows) n
                ltac:(rewrite length_map; apply length_rows)) as [Hr _].
  pose proof (bounds_scanned
                (map (fun j => Meta.holds_data (Meta.column rows j)) (seq 0 m)) m
                ltac:(rewrite length_map; apply length_seq))
    as [Hc _].
  destruct (Meta.bounds (map Meta.holds_data rows)) as [r1 r2].
  destruct (Meta.bounds (map (fun j => Meta.holds_data (Meta.column rows j)) (seq 0 m)))
    as [c1 c2].
  cbn [fst snd] in *.
  exists r1, r2, c1, c2. split; [reflexivity|]. split.
  - intros Hlt. destruct Hr as (H0 & Hn & Hdata & Hafter); [lia|].
    rewrite lookup_map in Hdata.
    destruct (rows !! r2) as [row|] eqn:Hrow; [|discriminate].
    injection Hdata as Hdata.
    repeat split; try lia; [eauto|].
    intros i row' Hi Hrow'.
    assert (Hin : (i < n)%nat).
    { apply lookup_lt_Some in Hrow'. unfold rows in Hrow'.
      now rewrite length_rows in Hrow'. }
    specialize (Hafter i ltac:(lia)). rewrite lookup_map, Hrow' in Hafter.
    now injection Hafter.
  - intros Hlt. destruct Hc as (H0 & Hm & Hdata & Hafter); [lia|].
    rewrite lookup_map, lookup_seq_lt in Hdata by lia. injection Hdata as Hdata.
    repeat split; try lia; [exact Hdata|].
    intros j Hj. specialize (Hafter j ltac:(lia)).
    rewrite lookup_map, lookup_seq_lt in Hafter by lia. now injection Hafter.
Qed.

(** Nine ones: what comes back is the cell in the middle. *)
Lemma X28_witness :
  let displ := ones_3x3 in
  let n := 3%nat in
  let m := 3%nat in
  let rows := Np.rows n m (data displ) in
  exists r1 r2 c1 c2,
    Meta.trimMatrix displ
    = Ok (NdArray (dt displ) [(r2 - r1)%nat; (c2 - c1)%nat]
                  (concat (map (Meta.slice c1 c2) (Meta.slice r1 r2 rows)))) /\
    ((r1 < r2)%nat ->
     (0 < r1)%nat /\ (r2 < n)%nat /\
     (exists row, rows !! r2 = Some row /\ Meta.holds_data row = true) /\
     forall i row, (r2 < i)%nat -> rows !! i = Some row -> Meta.holds_data row = false) /\
    ((c1 < c2)%nat ->
     (0 < c1)%nat /\ (c2 < m)%nat /\
     Meta.holds_data (Meta.column rows c2) = true /\
     forall j, (c2 < j < m)%nat -> Meta.holds_data (Meta.column rows j) = false).
Proof.
  intros displ n m.
  apply (X28_trimMatrix_cuts_data displ n m).
  reflexivity.
Defined.

(** ** [meta.py]: [Subject] *)

Section SubjectLaws.
Context {listener value world : Type} `{EqDecision listener}.
Variable co_varnames : listener -> option (list string).
Variable call : listener -> list value -> list (string * value) -> world
                -> result unit * world.

Lemma remove_absent (l : listener) ls : ~ In l ls -> Meta.remove l ls = None.
Proof.
  induction ls as [|x ls IH]; intros Hnot; [reflexivity|]. cbn [Meta.remove].
  rewrite decide_False by (intros ->; apply Hnot; left; reflexivity).
  rewrite IH; [reflexivity|]. intros Hin. apply Hnot. right. exact Hin.
Qed.

(** X29. [subscribe] puts the listener first, whether the list was empty or
    not; [unsubscribe] right after it gives the subject back; and
    [unsubscribe] of a listener that is not subscribed raises
    [AttributeError]. *)
Theorem X29_subject_subscribe_unsubscribe (self : Meta.subject) (l : listener) :
  Meta._listeners (Meta.subscribe self l) = l :: Meta._listeners self /\
  Meta._mute (Meta.subscribe self l) = Meta._mute self /\
  Meta.unsubscribe (Meta.subscribe self l) l = Ok self /\
  (~ In l (Meta._listeners self) -> Meta.unsubscribe self l = Raise AttributeError).
Proof.
  destruct self as [ls m]. unfold Meta.subscribe, Meta.unsubscribe. cbn [Meta._listeners Meta._mute].
  assert (Hsub : (if (0 <? length ls)%nat then Meta.Subject (l :: ls) m
                  else Meta.Subject (ls ++ [l]) m) = Meta.Subject (l :: ls) m).
  { destruct ls; reflexivity. }
  rewrite Hsub. cbn [Meta._listeners Meta._mute Meta.remove].
  rewrite decide_True by reflexivity.
  repeat split.
  intros Hnot. rewrite remove_absent by exact Hnot. reflexivity.
Qed.

(** X30. [notify] after a [subscribe]: nothing when the subject is muted;
    otherwise the new listener is called first and the others follow as
    before, unless it raises. Each listener gets the keyword arguments
    whole or not at all: one keyword that is not among its variable names
    and it gets none. *)
Theorem X30_subject_notify_newest_first (self : Meta.subject) (l : listener)
    (args : list value) (kwargs : list (string * value)) (w : world) :
  Meta.notify co_varnames call (Meta.subscribe self l) args kwargs w
  = (if Meta._mute self then (Ok tt, w)
     else match call l args (Meta.passed co_varnames l kwargs) w with
          | (Ok _, w') => Meta.notify co_varnames call self args kwargs w'
          | (Raise e, w') => (Raise e, w')
          end) /\
  (Meta.passed co_varnames l kwargs = kwargs \/ Meta.passed co_varnames l kwargs = []) /\
  (forall names k v,
     co_varnames l = Some names -> In (k, v) kwargs -> ~ In k names ->
     Meta.passed co_varnames l kwargs = []).
Proof.
  split; [|split].
  - destruct self as [ls m]. unfold Meta.notify, Meta.subscribe.
    cbn [Meta._listeners Meta._mute].
    replace (if (0 <? length ls)%nat then Meta.Subject (l :: ls) m
             else Meta.Subject (ls ++ [l]) m) with (Meta.Subject (l :: ls) m)
      by (destruct ls; reflexivity).
    cbn [Meta._listeners Meta._mute]. destruct m; reflexivity.
  - unfold Meta.passed. destruct kwargs; [auto|].
    destruct (co_varnames l); [|auto]. destruct (forallb _ _); auto.
  - intros names k v Hnames Hin Hk. unfold Meta.passed.
    destruct kwargs as [|kv kwargs]; [reflexivity|]. rewrite Hnames.
    destruct (forallb _ _) eqn:Hall; [|reflexivity].
    exfalso. rewrite forallb_forall in Hall.
    specialize (Hall k ltac:(apply in_map_iff; exists (k, v); auto)).
    apply bool_decide_eq_true in Hall. apply Hk, list_elem_of_In, Hall.
Qed.

End SubjectLaws.
